(** * Data Bridge: the schema-matching and multi-file merge engine

    A shallow embedding of the parts of the repository the specification
    talks about:

    - [src/unnamed/part_002] (text utilities): [jaccardSimilarity];
    - [src/src/lib/column-mapping.ts]: [MappingGenerator.validateMapping];
    - [src/src/lib/file-utils.ts]: the parse-time [detectColumnTypes], and the
      classes [DataTransformer] and [DataMerger].

    JavaScript values are modelled as the code has them: arrays as lists,
    [Map] and [Set] as insertion-ordered association lists (iteration order is
    observable in the join), exceptions as an explicit result type, the
    wall clock as an explicit argument.  Ratios of counts are exact rationals. *)

From Stdlib Require Import List String Ascii Bool Arith ZArith QArith Lia.
From Stdlib Require Import Permutation DecimalString DecimalNat Sorted FinFun.
Import ListNotations.

Set Implicit Arguments.
Open Scope string_scope.
Open Scope list_scope.

(* ================================================================== *)
(** ** JavaScript runtime pieces shared by every module *)

Module Js.

(** A computation that either returns or throws an [Error] with a message. *)
Inductive result (A : Type) : Type :=
| Ok (a : A)
| Throw (message : string).
Arguments Ok {A} a.
Arguments Throw {A} message.

Definition bind {A B} (c : result A) (k : A -> result B) : result B :=
  match c with
  | Ok a => k a
  | Throw m => Throw m
  end.

(** [xs.map(f)] when [f] may throw: the first exception aborts the loop. *)
Fixpoint mapM {A B} (f : A -> result B) (xs : list A) : result (list B) :=
  match xs with
  | [] => Ok []
  | x :: rest =>
      bind (f x) (fun y => bind (mapM f rest) (fun ys => Ok (y :: ys)))
  end.

(** [xs.map((x, index) => f index x)]. *)
Fixpoint mapi_from {A B} (i : nat) (f : nat -> A -> B) (xs : list A) : list B :=
  match xs with
  | [] => []
  | x :: rest => f i x :: mapi_from (S i) f rest
  end.
Definition mapi {A B} (f : nat -> A -> B) (xs : list A) : list B :=
  mapi_from 0 f xs.

(** [arr[i] = v] for [i < arr.length]; the callers below never write out
    of range, where JavaScript would extend the array. *)
Fixpoint update {A} (xs : list A) (i : nat) (v : A) : list A :=
  match xs, i with
  | [], _ => []
  | _ :: rest, O => v :: rest
  | x :: rest, S j => x :: update rest j v
  end.

(** [arr.slice(0, end)] for an integer [end]: a negative [end] counts from
    the back of the array. *)
Definition slice0 {A} (xs : list A) (e : Z) : list A :=
  if (e <? 0)%Z
  then firstn (Z.to_nat (Z.max (Z.of_nat (List.length xs) + e) 0)) xs
  else firstn (Z.to_nat e) xs.

Definition dquote : string := String (ascii_of_nat 34) EmptyString.

(** [String(n)] for a non-negative integer. *)
Definition String_of_nat (n : nat) : string :=
  NilZero.string_of_uint (Nat.to_uint n).
(** [String(z)] for an integer below the exponent-notation range. *)
Definition String_of_Z (z : Z) : string :=
  NilZero.string_of_int (Z.to_int z).

(** *** [Set] and [Map]: insertion-ordered, keys compared by [eqb] *)
Section Collections.
Context {K : Type} (eqb : K -> K -> bool).

Definition Set_has (s : list K) (x : K) : bool := existsb (eqb x) s.
Definition Set_add (s : list K) (x : K) : list K :=
  if Set_has s x then s else s ++ [x].
(** [new Set(xs)] *)
Definition Set_from (xs : list K) : list K := fold_left Set_add xs [].

Context {V : Type}.

Fixpoint Map_get (m : list (K * V)) (k : K) : option V :=
  match m with
  | [] => None
  | (k', v) :: rest => if eqb k k' then Some v else Map_get rest k
  end.
Definition Map_has (m : list (K * V)) (k : K) : bool :=
  match Map_get m k with Some _ => true | None => false end.
(** [m.set(k, v)]: an existing key keeps its place in the iteration
    order and takes the new value; a new key goes to the end. *)
Fixpoint Map_set (m : list (K * V)) (k : K) (v : V) : list (K * V) :=
  match m with
  | [] => [(k, v)]
  | (k', v') :: rest =>
      if eqb k k' then (k', v) :: rest else (k', v') :: Map_set rest k v
  end.
Definition Map_keys (m : list (K * V)) : list K := map fst m.
(** A map filled by a loop of [set], one call per element of [xs]. *)
Definition Map_fill {X : Type} (key : X -> K) (val : X -> V)
  (m : list (K * V)) (xs : list X) : list (K * V) :=
  fold_left (fun m x => Map_set m (key x) (val x)) xs m.
End Collections.

(** [arr.indexOf(x)] on strings; [None] stands for [-1]. *)
Fixpoint indexOf_from (i : nat) (xs : list string) (x : string) : option nat :=
  match xs with
  | [] => None
  | y :: rest => if String.eqb y x then Some i else indexOf_from (S i) rest x
  end.
Definition indexOf (xs : list string) (x : string) : option nat :=
  indexOf_from 0 xs x.
(** [arr.includes(x)] on strings. *)
Definition includes (xs : list string) (x : string) : bool :=
  existsb (String.eqb x) xs.


(** [arr.sort(compareFn)]: the sort is stable, and a negative or zero
    answer of [compareFn a b] leaves [a] before [b].  For a comparator that
    is a total preorder every stable sort returns this list. *)
Section Sort.
Context {A : Type} (compareFn : A -> A -> Z).
Fixpoint sort_insert (x : A) (sorted : list A) : list A :=
  match sorted with
  | [] => [x]
  | y :: rest =>
      if (compareFn x y <=? 0)%Z then x :: y :: rest
      else y :: sort_insert x rest
  end.
Definition sort (xs : list A) : list A := fold_right sort_insert [] xs.
End Sort.

End Js.
Import Js.

(* ================================================================== *)
(** ** Text utilities ([src/unnamed/part_002]) *)

Module TextUtils.

(** [jaccardSimilarity(words1, words2)].  The quotient of the two sizes is
    the exact rational; the double the code computes is its rounding, and
    the roundings of [0], [n/n] are [0] and [1.0]. *)
Definition jaccardSimilarity (words1 words2 : list string) : Q :=
  let set1 := Set_from String.eqb words1 in
  let set2 := Set_from String.eqb words2 in
  let intersection :=
    Set_from String.eqb (filter (fun x => Set_has String.eqb set2 x) set1) in
  let union := Set_from String.eqb (set1 ++ set2) in
  if Nat.eqb (List.length union) 0 then 0%Q
  else (inject_Z (Z.of_nat (List.length intersection))
        / inject_Z (Z.of_nat (List.length union)))%Q.

End TextUtils.

(* ================================================================== *)
(** ** Core data types ([src/unnamed/part_003]) *)

Module Types.

(** [DataType] *)
Inductive DataType : Type :=
| TString | TNumber | TDate | TBoolean | TMixed | TUnknown.

(** A value of a [Record<string, string | number | boolean>]. *)
Inductive ParamValue (number : Type) : Type :=
| PString (s : string)
| PNumber (n : number)
| PBoolean (b : bool).
Arguments PString {number} s.
Arguments PNumber {number} n.
Arguments PBoolean {number} b.

(** The host environment: JavaScript numbers and [Date] objects, the
    built-in operations the engine applies to them, the locale's collation
    and the two [date-fns] functions.  The engine is a function of these;
    nothing is assumed about them. *)
Class Builtins : Type := {
  number : Type;
  date : Type;
  (** [Boolean(n)]: false on [0], [-0] and [NaN]. *)
  Number_truthy : number -> bool;
  (** [String(n)] *)
  Number_String : number -> string;
  (** [isFinite(n)]: [JSON.stringify] writes [null] for the others. *)
  Number_isFinite : number -> bool;
  (** [isNaN(n)] *)
  Number_isNaN : number -> bool;
  (** Equality of numbers as members of a [Set]. *)
  Number_sameValueZero : number -> number -> bool;
  (** The literal [2]. *)
  Number_two : number;
  (** [Number(n.toFixed(decimals))]; [toFixed] throws a [RangeError] when
      [decimals] is out of range. *)
  Number_toFixed : number -> ParamValue number -> result number;
  (** [parseFloat(s)] *)
  parseFloat : string -> number;
  (** [String(d)] *)
  Date_String : date -> string;
  (** [d.toJSON()]: the ISO text, or [null] for an invalid date. *)
  Date_toJSON : date -> option string;
  (** Identity of [Date] objects: a [Set] holds objects by reference. *)
  Date_sameObject : date -> date -> bool;
  (** [a.localeCompare(b)] *)
  localeCompare : string -> string -> Z;
  toUpperCase : string -> string;
  toLowerCase : string -> string;
  (** [format(d, formatString)] of [date-fns]; throws on an invalid date or
      an invalid pattern. *)
  format : date -> ParamValue number -> result string;
  (** [parseISO(s)] of [date-fns]; an unparseable text gives an invalid date. *)
  parseISO : string -> date
}.

Section WithBuiltins.
Context {B : Builtins}.

(** A cell of a row: [string | number | Date | null], with [boolean] as
    the detectors count it, and [undefined], which is what [row[index]]
    is when the row is shorter than the header list. *)
Inductive cell : Type :=
| Null
| Undefined
| Str (s : string)
| Num (n : number)
| DateV (d : date)
| Bool (b : bool).

(** [c === null] *)
Definition isNull (c : cell) : bool :=
  match c with Null => true | _ => false end.

(** [Boolean(c)], as in [c || ...]. *)
Definition truthy (c : cell) : bool :=
  match c with
  | Null | Undefined => false
  | Str s => negb (String.eqb s "")
  | Num n => Number_truthy n
  | DateV _ => true
  | Bool b => b
  end.

(** [String(c)] *)
Definition String_of (c : cell) : string :=
  match c with
  | Null => "null"
  | Undefined => "undefined"
  | Str s => s
  | Num n => Number_String n
  | DateV d => Date_String d
  | Bool true => "true"
  | Bool false => "false"
  end.

(** Equality of cells as members of a [Set]. *)
Definition sameValueZero (a b : cell) : bool :=
  match a, b with
  | Null, Null => true
  | Undefined, Undefined => true
  | Str s, Str t => String.eqb s t
  | Num n, Num m => Number_sameValueZero n m
  | DateV d, DateV e => Date_sameObject d e
  | Bool x, Bool y => Bool.eqb x y
  | _, _ => false
  end.

(** [row[index]] *)
Definition at_index (row : list cell) (index : nat) : cell :=
  nth index row Undefined.

(** [ColumnType] *)
Record ColumnType : Type := {
  name : string;
  type : DataType;
  confidence : Q;
  samples : list cell;
  nullCount : Z;
  uniqueCount : nat
}.

(** [ParsedData] *)
Record ParsedData : Type := {
  headers : list string;
  rows : list (list cell);
  rowCount : Z;
  columnTypes : list ColumnType
}.

(** [ProcessedFile].  The functions below read [id] and [parsedData]
    only; [parsedData] is absent on a file whose processing failed, and
    every reader tests for it. *)
Record ProcessedFile : Type := {
  file_id : string;
  file_name : string;
  parsedData : option ParsedData
}.

Inductive Transform : Type :=
| none | uppercase | lowercase | date_format | number_format.

Inductive JoinType : Type := Inner | Left | Right | Full.

(** An element of [ColumnMapping['mappings']]. *)
Record MappingEntry : Type := {
  sourceColumn : string;
  targetColumn : string;
  transform : option Transform;
  transformParams : option (list (string * ParamValue number))
}.

(** [ColumnMapping] *)
Record ColumnMapping : Type := {
  mapping_id : string;
  sourceFileId : string;
  targetFileId : option string;
  mappings : list MappingEntry;
  mapping_joinType : option JoinType;
  mapping_joinKey : option string
}.

(** [ProcessedDataset].  A data record is the list of its properties in
    the order they were first assigned; [createdAt] is the instant of
    [new Date()]. *)
Record ProcessedDataset : Type := {
  dataset_id : string;
  dataset_name : string;
  sourceFiles : list string;
  dataset_headers : list string;
  data : list (list (string * cell));
  dataset_columnTypes : list ColumnType;
  createdAt : Z;
  dataset_rowCount : nat
}.

End WithBuiltins.

Arguments cell : clear implicits.
Arguments ColumnType : clear implicits.
Arguments ParsedData : clear implicits.
Arguments ProcessedFile : clear implicits.
Arguments MappingEntry : clear implicits.
Arguments ColumnMapping : clear implicits.
Arguments ProcessedDataset : clear implicits.

End Types.
Import Types.

(** Comparison of two ratios.  On doubles [a / b < 0.8] for array lengths
    [a <= b] agrees with the comparison of the exact quotients: two distinct
    quotients with denominators up to [5 * 2^32] differ by far more than a
    rounding error. *)
Definition Qlt_bool (x y : Q) : bool := negb (Qle_bool y x).

Definition ratio (count total : nat) : Q :=
  (inject_Z (Z.of_nat count) / inject_Z (Z.of_nat total))%Q.

(* ================================================================== *)
(** ** Parse-time type detection ([src/src/lib/file-utils.ts], first part) *)

Module FileUtils.
Section WithBuiltins.
Context {B : Builtins}.

(** [rows.map(row => row[index]).filter(cell => cell !== null)] *)
Definition columnData (rows : list (list (cell B))) (index : nat)
  : list (cell B) :=
  filter (fun c => negb (isNull c)) (map (fun row => at_index row index) rows).

(** The [typeCounts] object, in the order of its properties. *)
Record TypeCounts : Type := {
  count_string : nat;
  count_number : nat;
  count_date : nat;
  count_boolean : nat
}.

Definition countValue (tc : TypeCounts) (value : cell B) : TypeCounts :=
  match value with
  | Str _ =>
      {| count_string := S (count_string tc); count_number := count_number tc;
         count_date := count_date tc; count_boolean := count_boolean tc |}
  | Num _ =>
      {| count_string := count_string tc; count_number := S (count_number tc);
         count_date := count_date tc; count_boolean := count_boolean tc |}
  | DateV _ =>
      {| count_string := count_string tc; count_number := count_number tc;
         count_date := S (count_date tc); count_boolean := count_boolean tc |}
  | Bool _ =>
      {| count_string := count_string tc; count_number := count_number tc;
         count_date := count_date tc; count_boolean := S (count_boolean tc) |}
  | Null | Undefined => tc
  end.

Definition typeCounts (values : list (cell B)) : TypeCounts :=
  fold_left countValue values
    {| count_string := 0; count_number := 0; count_date := 0; count_boolean := 0 |}.

(** [Object.entries(typeCounts)] *)
Definition entries (tc : TypeCounts) : list (DataType * nat) :=
  [ (TString, count_string tc); (TNumber, count_number tc);
    (TDate, count_date tc); (TBoolean, count_boolean tc) ].

(** The loop that picks the dominant type: a later entry wins only with a
    strictly larger count. *)
Definition dominant (tc : TypeCounts) : DataType * nat :=
  fold_left
    (fun (best : DataType * nat) (entry : DataType * nat) =>
       if (snd best <? snd entry)%nat then entry else best)
    (entries tc) (TString, count_string tc).

(** The body of [headers.map((header, index) => ...)]. *)
Definition detectColumn (rows : list (list (cell B))) (index : nat)
  (header : string) : ColumnType B :=
  let columnData := columnData rows index in
  let samples := firstn 10 columnData in
  let '(dominantType, maxCount) := dominant (typeCounts columnData) in
  let confidence :=
    if (0 <? List.length columnData)%nat
    then ratio maxCount (List.length columnData) else 0%Q in
  let '(dominantType, confidence) :=
    if Qlt_bool confidence (8 # 10) && (5 <? List.length columnData)%nat
    then (TMixed, (1 # 2)%Q) else (dominantType, confidence) in
  {| name := header;
     type := dominantType;
     confidence := confidence;
     samples := samples;
     nullCount := Z.of_nat (List.length rows) - Z.of_nat (List.length columnData);
     uniqueCount := List.length (Set_from sameValueZero columnData) |}.

(** [detectColumnTypes(headers, rows)] *)
Definition detectColumnTypes (headers : list string)
  (rows : list (list (cell B))) : list (ColumnType B) :=
  mapi (fun index header => detectColumn rows index header) headers.

End WithBuiltins.
End FileUtils.

(* ================================================================== *)
(** ** Mapping validation ([src/src/lib/column-mapping.ts]) *)

Module MappingGenerator.
Section WithBuiltins.
Context {B : Builtins}.

Definition sourceMissing (column : string) : string :=
  ("Source column " ++ dquote ++ column ++ dquote ++ " does not exist in file")%string.
Definition targetMissing (column : string) : string :=
  ("Target column " ++ dquote ++ column ++ dquote
     ++ " does not exist in target file")%string.
Definition mappedTwice (column : string) : string :=
  ("Target column " ++ dquote ++ column ++ dquote ++ " is mapped multiple times")%string.

(** The body of the loop that fills [targetColumnCounts]. *)
Definition countStep (counts : list (string * nat)) (map : MappingEntry B)
  : list (string * nat) :=
  let count :=
    match Map_get String.eqb counts (targetColumn map) with
    | Some c => c
    | None => 0%nat
    end in
  Map_set String.eqb counts (targetColumn map) (count + 1)%nat.

Definition countTargets (entries : list (MappingEntry B)) : list (string * nat) :=
  fold_left countStep entries [].

(** [validateMapping(mapping, sourceFile, targetFile?)] *)
Definition validateMapping (mapping : ColumnMapping B)
  (sourceFile : ProcessedFile B) (targetFile : option (ProcessedFile B))
  : list string :=
  match parsedData sourceFile with
  | None => ["Source file has no parsed data"]
  | Some source =>
      let sourceColumns := headers source in
      let errors1 :=
        flat_map
          (fun map =>
             if negb (includes sourceColumns (sourceColumn map))
             then [sourceMissing (sourceColumn map)] else [])
          (mappings mapping) in
      let errors2 :=
        match targetFile with
        | Some tf =>
            match parsedData tf with
            | Some target =>
                flat_map
                  (fun map =>
                     if negb (includes (headers target) (targetColumn map))
                     then [targetMissing (targetColumn map)] else [])
                  (mappings mapping)
            | None => []
            end
        | None => []
        end in
      let errors3 :=
        flat_map
          (fun entry : string * nat =>
             let '(column, count) := entry in
             if (1 <? count)%nat then [mappedTwice column] else [])
          (countTargets (mappings mapping)) in
      errors1 ++ errors2 ++ errors3
  end.

End WithBuiltins.
End MappingGenerator.

(* ================================================================== *)
(** ** Transformation and merge ([src/src/lib/file-utils.ts], second part) *)

(** [arr.map((value, index) => [index, value])], the pairs a [forEach]
    callback receives. *)
Definition enumerate {A} (xs : list A) : list (nat * A) :=
  mapi (fun index value => (index, value)) xs.

Module DataTransformer.
Section WithBuiltins.
Context {B : Builtins}.

Definition param_truthy (p : ParamValue number) : bool :=
  match p with
  | PString s => negb (String.eqb s "")
  | PNumber n => Number_truthy n
  | PBoolean b => b
  end.

(** [params?.[key] || fallback] *)
Definition param_or (params : option (list (string * ParamValue number)))
  (key : string) (fallback : ParamValue number) : ParamValue number :=
  match params with
  | Some ps =>
      match Map_get String.eqb ps key with
      | Some v => if param_truthy v then v else fallback
      | None => fallback
      end
  | None => fallback
  end.

(** [applyTransformation(value, transform, params)] *)
Definition applyTransformation (value : cell B) (transform : Transform)
  (params : option (list (string * ParamValue number)))
  : result (cell B) :=
  match value with
  | Null => Ok Null
  | _ =>
      match transform with
      | uppercase => Ok (Str (toUpperCase (String_of value)))
      | lowercase => Ok (Str (toLowerCase (String_of value)))
      | date_format =>
          let formatString := param_or params "format" (PString "yyyy-MM-dd") in
          match value with
          | DateV d => bind (format d formatString) (fun s => Ok (Str s))
          | Str s =>
              match format (parseISO s) formatString with
              | Ok formatted => Ok (Str formatted)
              | Throw _ => Ok value
              end
          | _ => Ok (Str (String_of value))
          end
      | number_format =>
          let decimals := param_or params "decimals" (PNumber Number_two) in
          match value with
          | Num n => bind (Number_toFixed n decimals) (fun r => Ok (Num r))
          | Str s =>
              let num := parseFloat s in
              if negb (Number_isNaN num)
              then bind (Number_toFixed num decimals) (fun r => Ok (Num r))
              else Ok value
          | _ => Ok value
          end
      | none => Ok value
      end
  end.

(** The [header -> index] map both classes build with [forEach]. *)
Definition indexMap (headers : list string) : list (string * nat) :=
  fold_left (fun m (entry : nat * string) =>
               let '(index, header) := entry in Map_set String.eqb m header index)
    (enumerate headers) [].

(** [transformData(data, headers, mapping)].  The [mappingMap] the code
    also fills is never read. *)
Definition transformData (data : list (list (cell B))) (headers : list string)
  (mapping : list (MappingEntry B))
  : result (list string * list (list (cell B))) :=
  let columnIndexMap := indexMap headers in
  let transformedHeaders := map (fun map => targetColumn map) mapping in
  bind
    (mapM
       (fun row =>
          mapM
            (fun map =>
               let value :=
                 match Map_get String.eqb columnIndexMap (sourceColumn map) with
                 | Some sourceIndex => at_index row sourceIndex
                 | None => Null
                 end in
               match transform map with
               | Some t =>
                   if negb (isNull value)
                   then applyTransformation value t (transformParams map)
                   else Ok value
               | None => Ok value
               end)
            mapping)
       data)
    (fun transformedData => Ok (transformedHeaders, transformedData)).

End WithBuiltins.
End DataTransformer.

Module DataMerger.

Inductive DuplicateStrategy : Type := keep_first | keep_last | merge_values.

(** [MergeOptions]; [maxRows] is an integer. *)
Record MergeOptions : Type := {
  joinType : JoinType;
  joinKey : option string;
  handleDuplicates_option : DuplicateStrategy;
  validateTypes : bool;
  maxRows : option Z
}.

(** [MergeResult['stats']] *)
Record Stats : Type := {
  totalRows : Z;
  mergedRows : Z;
  droppedRows : Z;
  duplicateRows : Z;
  nullValues : Z
}.

(** The two readings of the wall clock a merge makes: [Date.now()] for the
    dataset id and [new Date()] for [createdAt]. *)
Record Clock : Type := {
  Date_now : Z;
  new_Date : Z
}.

(** One token of the text [JSON.stringify] writes for a cell.  The text of
    an array is the bracketed, comma-separated list of its tokens, with
    strings quoted and escaped, so two rows have the same text exactly when
    they have the same tokens. *)
Inductive JsonToken : Type :=
| JNull
| JString (s : string)
| JNumber (text : string)
| JBoolean (b : bool).

Definition JsonToken_eqb (a b : JsonToken) : bool :=
  match a, b with
  | JNull, JNull => true
  | JString s, JString t => String.eqb s t
  | JNumber s, JNumber t => String.eqb s t
  | JBoolean x, JBoolean y => Bool.eqb x y
  | _, _ => false
  end.

Fixpoint tokens_eqb (xs ys : list JsonToken) : bool :=
  match xs, ys with
  | [], [] => true
  | x :: xs', y :: ys' => JsonToken_eqb x y && tokens_eqb xs' ys'
  | _, _ => false
  end.

Section WithBuiltins.
Context {B : Builtins}.

(** [MergeResult] *)
Record MergeResult : Type := {
  dataset : ProcessedDataset B;
  stats : Stats;
  warnings : list string;
  errors : list string
}.

Record TransformedFile : Type := {
  tf_file : ProcessedFile B;
  tf_headers : list string;
  tf_data : list (list (cell B))
}.

(** [JSON.stringify] of one element of an array. *)
Definition jsonToken (c : cell B) : JsonToken :=
  match c with
  | Null | Undefined => JNull
  | Str s => JString s
  | Num n => if Number_isFinite n then JNumber (Number_String n) else JNull
  | DateV d => match Date_toJSON d with Some iso => JString iso | None => JNull end
  | Bool b => JBoolean b
  end.

(** [JSON.stringify(row)] *)
Definition JSON_stringify (row : list (cell B)) : list JsonToken :=
  map jsonToken row.

(** The loops that fill [columnCounts]. *)
Definition columnCounts (schemas : list (list string)) : list (string * nat) :=
  fold_left
    (fun counts schema =>
       fold_left
         (fun counts column =>
            let count :=
              match Map_get String.eqb counts column with
              | Some c => c
              | None => 0%nat
              end in
            Map_set String.eqb counts column (count + 1)%nat)
         schema counts)
    schemas [].

Definition countOf (counts : list (string * nat)) (column : string) : Z :=
  match Map_get String.eqb counts column with
  | Some c => Z.of_nat c
  | None => 0%Z
  end.

(** [createUnifiedSchema(schemas)] *)
Definition createUnifiedSchema (schemas : list (list string)) : list string :=
  let columnCounts := columnCounts schemas in
  sort
    (fun a b =>
       let countDiff := (countOf columnCounts b - countOf columnCounts a)%Z in
       if negb (countDiff =? 0)%Z then countDiff else localeCompare a b)
    (Map_keys columnCounts).

(** [alignDataToSchema(data, currentHeaders, unifiedHeaders)] *)
Definition alignDataToSchema (data : list (list (cell B)))
  (currentHeaders unifiedHeaders : list string) : list (list (cell B)) :=
  let headerIndexMap := DataTransformer.indexMap currentHeaders in
  map
    (fun row =>
       map
         (fun header =>
            match Map_get String.eqb headerIndexMap header with
            | Some index => at_index row index
            | None => Null
            end)
         unifiedHeaders)
    data.

(** [mergeRows(leftRow, rightRow, headers)] *)
Definition mergeRows (leftRow rightRow : option (list (cell B)))
  (headers : list string) : list (cell B) :=
  let result := repeat (@Null B) (List.length headers) in
  let result :=
    match leftRow with
    | Some leftRow =>
        fold_left
          (fun result (entry : nat * cell B) =>
             let '(index, value) := entry in
             if (index <? List.length result)%nat
             then update result index value else result)
          (enumerate leftRow) result
    | None => result
    end in
  match rightRow with
  | Some rightRow =>
      fold_left
        (fun result (entry : nat * cell B) =>
           let '(index, value) := entry in
           if (index <? List.length result)%nat && isNull (at_index result index)
           then update result index value else result)
        (enumerate rightRow) result
  | None => result
  end.

(** [String(row[joinKeyIndex] || '')] *)
Definition joinKeyOf (joinKeyIndex : nat) (row : list (cell B)) : string :=
  let value := at_index row joinKeyIndex in
  if truthy value then String_of value else "".

(** The loop that fills [leftMap] (and [rightMap]). *)
Definition lookupMap (joinKeyIndex : nat) (data : list (list (cell B)))
  : list (string * list (cell B)) :=
  fold_left (fun m row => Map_set String.eqb m (joinKeyOf joinKeyIndex row) row)
    data [].

(** The state of the loops of [performKeyBasedJoin]. *)
Record JoinState : Type := {
  join_result : list (list (cell B));
  processedKeys : list string;
  join_dropped : Z
}.

Definition emit (st : JoinState) (key : string) (row : list (cell B)) : JoinState :=
  {| join_result := join_result st ++ [row];
     processedKeys := Set_add String.eqb (processedKeys st) key;
     join_dropped := join_dropped st |}.

(** The bodies of the [for (const [key, row] of map)] loops, one per case of
    the [switch]. *)
Definition innerStep (rightMap : list (string * list (cell B)))
  (headers : list string) (st : JoinState) (entry : string * list (cell B))
  : JoinState :=
  let '(key, leftRow) := entry in
  match Map_get String.eqb rightMap key with
  | Some rightRow => emit st key (mergeRows (Some leftRow) (Some rightRow) headers)
  | None =>
      {| join_result := join_result st;
         processedKeys := processedKeys st;
         join_dropped := join_dropped st + 1 |}
  end.

Definition leftStep (rightMap : list (string * list (cell B)))
  (headers : list string) (st : JoinState) (entry : string * list (cell B))
  : JoinState :=
  let '(key, leftRow) := entry in
  emit st key (mergeRows (Some leftRow) (Map_get String.eqb rightMap key) headers).

Definition rightStep (leftMap : list (string * list (cell B)))
  (headers : list string) (st : JoinState) (entry : string * list (cell B))
  : JoinState :=
  let '(key, rightRow) := entry in
  emit st key (mergeRows (Map_get String.eqb leftMap key) (Some rightRow) headers).

Definition fullRestStep (headers : list string) (st : JoinState)
  (entry : string * list (cell B)) : JoinState :=
  let '(key, rightRow) := entry in
  if negb (Set_has String.eqb (processedKeys st) key)
  then {| join_result := join_result st ++ [mergeRows None (Some rightRow) headers];
          processedKeys := processedKeys st;
          join_dropped := join_dropped st |}
  else st.

(** [performKeyBasedJoin(leftData, rightData, headers, joinKey, joinType)] *)
Definition performKeyBasedJoin (leftData rightData : list (list (cell B)))
  (headers : list string) (joinKey : string) (joinType : JoinType)
  : list (list (cell B)) * Z :=
  match indexOf headers joinKey with
  | None => (leftData ++ rightData, 0%Z)
  | Some joinKeyIndex =>
      let leftMap := lookupMap joinKeyIndex leftData in
      let rightMap := lookupMap joinKeyIndex rightData in
      let start := {| join_result := []; processedKeys := []; join_dropped := 0 |} in
      let final :=
        match joinType with
        | Inner => fold_left (innerStep rightMap headers) leftMap start
        | Left => fold_left (leftStep rightMap headers) leftMap start
        | Right => fold_left (rightStep leftMap headers) rightMap start
        | Full =>
            fold_left (fullRestStep headers) rightMap
              (fold_left (leftStep rightMap headers) leftMap start)
        end in
      (join_result final, join_dropped final)
  end.

(** The state of the loop of [handleDuplicates]. *)
Record DedupState : Type := {
  seen : list (list JsonToken * nat);
  dedup_result : list (list (cell B));
  duplicatesRemoved : Z
}.

Definition dedupStep (strategy : DuplicateStrategy) (st : DedupState)
  (row : list (cell B)) : DedupState :=
  let key := JSON_stringify row in
  match Map_get tokens_eqb (seen st) key with
  | Some prevIndex =>
      {| seen := seen st;
         dedup_result :=
           match strategy with
           | keep_last => update (dedup_result st) prevIndex row
           | _ => dedup_result st
           end;
         duplicatesRemoved := duplicatesRemoved st + 1 |}
  | None =>
      {| seen := Map_set tokens_eqb (seen st) key (List.length (dedup_result st));
         dedup_result := dedup_result st ++ [row];
         duplicatesRemoved := duplicatesRemoved st |}
  end.

(** [handleDuplicates(data, strategy)] *)
Definition handleDuplicates (data : list (list (cell B)))
  (strategy : DuplicateStrategy) : list (list (cell B)) * Z :=
  match strategy with
  | keep_first => (data, 0%Z)
  | _ =>
      let final :=
        fold_left (dedupStep strategy) data
          {| seen := []; dedup_result := []; duplicatesRemoved := 0 |} in
      (dedup_result final, duplicatesRemoved final)
  end.

(** [convertToRecordFormat(data, headers)] *)
Definition convertToRecordFormat (data : list (list (cell B)))
  (headers : list string) : list (list (string * cell B)) :=
  map
    (fun row =>
       fold_left
         (fun record (entry : nat * string) =>
            let '(index, header) := entry in
            Map_set String.eqb record header (at_index row index))
         (enumerate headers) [])
    data.

Definition isNum (c : cell B) : bool := match c with Num _ => true | _ => false end.
Definition isDate (c : cell B) : bool := match c with DateV _ => true | _ => false end.
Definition isStr (c : cell B) : bool := match c with Str _ => true | _ => false end.

(** The body of [headers.map((header, index) => ...)] in the merger's own
    [detectColumnTypes]. *)
Definition detectColumn (data : list (list (cell B))) (index : nat)
  (header : string) : ColumnType B :=
  let columnData :=
    filter (fun val => negb (isNull val)) (map (fun row => at_index row index) data) in
  let samples := firstn 10 columnData in
  let total := List.length columnData in
  let '(type, confidence) :=
    if (total =? 0)%nat then (TUnknown, 0%Q)
    else
      let numberCount := List.length (filter isNum columnData) in
      let dateCount := List.length (filter isDate columnData) in
      let stringCount := List.length (filter isStr columnData) in
      if Qlt_bool (8 # 10) (ratio numberCount total)
      then (TNumber, ratio numberCount total)
      else if Qlt_bool (8 # 10) (ratio dateCount total)
      then (TDate, ratio dateCount total)
      else if Qlt_bool (8 # 10) (ratio stringCount total)
      then (TString, ratio stringCount total)
      else (TMixed, (1 # 2)%Q) in
  {| name := header;
     type := type;
     confidence := confidence;
     samples := samples;
     nullCount := Z.of_nat (List.length data) - Z.of_nat total;
     uniqueCount := List.length (Set_from sameValueZero columnData) |}.

(** [DataMerger.detectColumnTypes(data, headers)] *)
Definition detectColumnTypes (data : list (list (cell B)))
  (headers : list string) : list (ColumnType B) :=
  mapi (fun index header => detectColumn data index header) headers.

(** [options.joinKey] as a condition: set and not the empty string. *)
Definition joinKey_given (options : MergeOptions) : option string :=
  match joinKey options with
  | Some key => if String.eqb key "" then None else Some key
  | None => None
  end.

(** The state of the loop over the files after the first. *)
Record MergeState : Type := {
  mergedData : list (list (cell B));
  merge_totalRows : Z;
  merge_droppedRows : Z
}.

(** [performMerge(transformedFiles, unifiedHeaders, options)].  Reading
    [transformedFiles[0].data] of an empty list is a [TypeError]. *)
Definition performMerge (transformedFiles : list TransformedFile)
  (unifiedHeaders : list string) (options : MergeOptions)
  : result (list (list (cell B)) * Stats) :=
  bind
    (match joinType options with
     | Inner | Left =>
         match transformedFiles with
         | [] => Throw "Cannot read properties of undefined (reading 'data')"
         | baseFile :: others =>
             Ok
               (fold_left
                  (fun st currentFile =>
                     let alignedData :=
                       alignDataToSchema (tf_data currentFile)
                         (tf_headers currentFile) unifiedHeaders in
                     match joinKey_given options with
                     | Some key =>
                         let '(joined, dropped) :=
                           performKeyBasedJoin (mergedData st) alignedData
                             unifiedHeaders key (joinType options) in
                         {| mergedData := joined;
                            merge_totalRows :=
                              merge_totalRows st
                              + Z.of_nat (List.length (tf_data currentFile));
                            merge_droppedRows := merge_droppedRows st + dropped |}
                     | None =>
                         {| mergedData := mergedData st ++ alignedData;
                            merge_totalRows :=
                              merge_totalRows st
                              + Z.of_nat (List.length (tf_data currentFile));
                            merge_droppedRows := merge_droppedRows st |}
                     end)
                  others
                  {| mergedData :=
                       alignDataToSchema (tf_data baseFile) (tf_headers baseFile)
                         unifiedHeaders;
                     merge_totalRows := Z.of_nat (List.length (tf_data baseFile));
                     merge_droppedRows := 0 |})
         end
     | Right | Full =>
         Ok
           (fold_left
              (fun st file =>
                 {| mergedData :=
                      mergedData st
                      ++ alignDataToSchema (tf_data file) (tf_headers file)
                           unifiedHeaders;
                    merge_totalRows :=
                      merge_totalRows st + Z.of_nat (List.length (tf_data file));
                    merge_droppedRows := merge_droppedRows st |})
              transformedFiles
              {| mergedData := []; merge_totalRows := 0; merge_droppedRows := 0 |})
     end)
    (fun st =>
       let totalRows := merge_totalRows st in
       let droppedRows := merge_droppedRows st in
       let '(mergedData, duplicateRows) :=
         match handleDuplicates_option options with
         | keep_first => (mergedData st, 0%Z)
         | strategy => handleDuplicates (mergedData st) strategy
         end in
       let nullValues :=
         fold_left
           (fun count row => (count + Z.of_nat (List.length (filter isNull row)))%Z)
           mergedData 0%Z in
       let '(mergedData, droppedRows) :=
         match maxRows options with
         | Some limit =>
             if negb (limit =? 0)%Z && (limit <? Z.of_nat (List.length mergedData))%Z
             then (slice0 mergedData limit, (droppedRows + (totalRows - limit))%Z)
             else (mergedData, droppedRows)
         | None => (mergedData, droppedRows)
         end in
       Ok (mergedData,
           {| totalRows := totalRows;
              mergedRows := Z.of_nat (List.length mergedData);
              droppedRows := droppedRows;
              duplicateRows := duplicateRows;
              nullValues := nullValues |})).

(** [files.find(f => f.id === id)] *)
Definition findFile (files : list (ProcessedFile B)) (id : string)
  : option (ProcessedFile B) :=
  find (fun f => String.eqb (file_id f) id) files.

(** The loop over [mappings]: the warnings pushed so far survive an
    exception of [transformData]. *)
Fixpoint transformFiles (files : list (ProcessedFile B))
  (mappings : list (ColumnMapping B)) (warnings : list string)
  (transformedFiles : list TransformedFile)
  : list string * result (list TransformedFile) :=
  match mappings with
  | [] => (warnings, Ok transformedFiles)
  | mapping :: rest =>
      let skip :=
        transformFiles files rest
          (warnings ++ [("File " ++ sourceFileId mapping
                           ++ " not found or has no data")%string])
          transformedFiles in
      match findFile files (sourceFileId mapping) with
      | None => skip
      | Some file =>
          match parsedData file with
          | None => skip
          | Some parsed =>
              match DataTransformer.transformData (rows parsed) (headers parsed)
                      (Types.mappings mapping) with
              | Throw message => (warnings, Throw message)
              | Ok (transformedHeaders, transformedData) =>
                  transformFiles files rest warnings
                    (transformedFiles
                       ++ [{| tf_file := file;
                              tf_headers := transformedHeaders;
                              tf_data := transformedData |}])
              end
          end
      end
  end.

Definition zeroStats : Stats :=
  {| totalRows := 0; mergedRows := 0; droppedRows := 0;
     duplicateRows := 0; nullValues := 0 |}.

(** The result the [catch] block builds. *)
Definition failedMerge (clock : Clock) (files : list (ProcessedFile B))
  (warnings : list string) (message : string) : MergeResult :=
  {| dataset :=
       {| dataset_id := ("error-" ++ String_of_Z (Date_now clock))%string;
          dataset_name := "Failed Merge";
          sourceFiles := map (fun f => file_id f) files;
          dataset_headers := [];
          data := [];
          dataset_columnTypes := [];
          createdAt := new_Date clock;
          dataset_rowCount := 0 |};
     stats := zeroStats;
     warnings := warnings;
     errors := [message] |}.

(** The [try] block of [mergeFiles]: the warnings pushed, and the value
    returned or the exception thrown. *)
Definition tryMerge (clock : Clock) (files : list (ProcessedFile B))
  (mappings : list (ColumnMapping B)) (options : MergeOptions)
  : list string * result MergeResult :=
  match files with
  | [] => ([], Throw "No files provided for merging")
  | _ :: _ =>
      match mappings with
      | [] => ([], Throw "No column mappings provided")
      | _ :: _ =>
          let '(warnings, transformed) := transformFiles files mappings [] [] in
          (warnings,
           bind transformed (fun transformedFiles =>
           match transformedFiles with
           | [] => Throw "No valid files to merge after transformation"
           | _ :: _ =>
               let unifiedHeaders :=
                 createUnifiedSchema (map (fun tf => tf_headers tf) transformedFiles) in
               bind (performMerge transformedFiles unifiedHeaders options)
                 (fun mergeResult =>
                    Ok
                      {| dataset :=
                           {| dataset_id :=
                                ("merged-" ++ String_of_Z (Date_now clock))%string;
                              dataset_name :=
                                ("Merged Dataset ("
                                   ++ String_of_nat (List.length files)
                                   ++ " files)")%string;
                              sourceFiles := map (fun f => file_id f) files;
                              dataset_headers := unifiedHeaders;
                              data :=
                                convertToRecordFormat (fst mergeResult) unifiedHeaders;
                              dataset_columnTypes :=
                                detectColumnTypes (fst mergeResult) unifiedHeaders;
                              createdAt := new_Date clock;
                              dataset_rowCount := List.length (fst mergeResult) |};
                         stats := snd mergeResult;
                         warnings := warnings;
                         errors := [] |})
           end))
      end
  end.

(** [mergeFiles(files, mappings, options)]: the value the returned promise
    resolves to. *)
Definition mergeFiles (clock : Clock) (files : list (ProcessedFile B))
  (mappings : list (ColumnMapping B)) (options : MergeOptions) : MergeResult :=
  match tryMerge clock files mappings options with
  | (_, Ok mergeResult) => mergeResult
  | (warnings, Throw message) => failedMerge clock files warnings message
  end.

End WithBuiltins.

Arguments MergeResult : clear implicits.
Arguments TransformedFile : clear implicits.

End DataMerger.

(* ================================================================== *)
(** ** A host for the worked examples

    The theorems below hold for every interpretation of [Builtins].  The
    examples run on this one: tables of ASCII text, integers, [null] and
    [undefined].  Its numbers are the integers and [NaN], text is compared by
    code unit, and its only [Date] is the invalid one, so it reads no text as
    a fraction or as a date.  None of the examples holds a [Date] or applies
    a transform other than [none]. *)

Module AsciiHost.

Inductive intOrNaN : Type := NaN | Int (z : Z).

Definition isDigit (c : ascii) : bool :=
  let n := nat_of_ascii c in (48 <=? n)%nat && (n <=? 57)%nat.

(** The integer a run of leading digits denotes, and whether there was one. *)
Fixpoint digits (s : string) (acc : Z) (any : bool) : option Z :=
  match s with
  | String c rest =>
      if isDigit c
      then digits rest (10 * acc + Z.of_nat (nat_of_ascii c - 48))%Z true
      else if any then Some acc else None
  | EmptyString => if any then Some acc else None
  end.

Fixpoint skipBlanks (s : string) : string :=
  match s with
  | String c rest => if Ascii.eqb c " "%char then skipBlanks rest else s
  | EmptyString => s
  end.

Definition parseInt (s : string) : intOrNaN :=
  match skipBlanks s with
  | String "-"%char rest =>
      match digits rest 0 false with Some z => Int (- z) | None => NaN end
  | String "+"%char rest =>
      match digits rest 0 false with Some z => Int z | None => NaN end
  | t => match digits t 0 false with Some z => Int z | None => NaN end
  end.

Definition toFixed (n : intOrNaN) (decimals : ParamValue intOrNaN)
  : result intOrNaN :=
  let places :=
    match decimals with
    | PNumber (Int d) => d
    | PNumber NaN => 0%Z
    | PBoolean true => 1%Z
    | PBoolean false => 0%Z
    | PString s => match parseInt s with Int d => d | NaN => 0%Z end
    end in
  if (0 <=? places)%Z && (places <=? 100)%Z then Ok n
  else Throw "toFixed() digits argument must be between 0 and 100".

Definition mapAscii (f : ascii -> ascii) : string -> string :=
  fix go (s : string) : string :=
    match s with
    | String c rest => String (f c) (go rest)
    | EmptyString => EmptyString
    end.

Definition upper (c : ascii) : ascii :=
  let n := nat_of_ascii c in
  if (97 <=? n)%nat && (n <=? 122)%nat then ascii_of_nat (n - 32) else c.
Definition lower (c : ascii) : ascii :=
  let n := nat_of_ascii c in
  if (65 <=? n)%nat && (n <=? 90)%nat then ascii_of_nat (n + 32) else c.

Definition host : Builtins :=
  {| number := intOrNaN;
     date := unit;
     Number_truthy := fun n => match n with Int z => negb (z =? 0)%Z | NaN => false end;
     Number_String := fun n => match n with Int z => String_of_Z z | NaN => "NaN" end;
     Number_isFinite := fun n => match n with Int _ => true | NaN => false end;
     Number_isNaN := fun n => match n with Int _ => false | NaN => true end;
     Number_sameValueZero := fun a b =>
       match a, b with
       | Int x, Int y => (x =? y)%Z
       | NaN, NaN => true
       | _, _ => false
       end;
     Number_two := Int 2;
     Number_toFixed := toFixed;
     parseFloat := parseInt;
     Date_String := fun _ => "Invalid Date";
     Date_toJSON := fun _ => None;
     Date_sameObject := fun _ _ => true;
     localeCompare := fun a b =>
       match String.compare a b with Lt => (-1)%Z | Eq => 0%Z | Gt => 1%Z end;
     toUpperCase := mapAscii upper;
     toLowerCase := mapAscii lower;
     format := fun _ _ => Throw "Invalid time value";
     parseISO := fun _ => tt |}.

Definition clock : DataMerger.Clock :=
  {| DataMerger.Date_now := 1700000000000; DataMerger.new_Date := 1700000000000 |}.

End AsciiHost.

(** Inputs the examples are built from, for any host. *)
Module Fixtures.
Section WithBuiltins.
Context {B : Builtins}.

(** A parsed file with the given headers and rows; its column types are
    the ones parsing detects. *)
Definition file (id : string) (headers : list string)
  (rows : list (list (cell B))) : ProcessedFile B :=
  {| file_id := id;
     file_name := (id ++ ".csv")%string;
     parsedData :=
       Some {| headers := headers;
               rows := rows;
               rowCount := Z.of_nat (List.length rows);
               columnTypes := FileUtils.detectColumnTypes headers rows |} |}.

(** A file whose processing failed: it carries no parsed data. *)
Definition failedFile (id : string) : ProcessedFile B :=
  {| file_id := id; file_name := (id ++ ".csv")%string; parsedData := None |}.

Definition entry (source target : string) : MappingEntry B :=
  {| sourceColumn := source; targetColumn := target;
     transform := Some none; transformParams := None |}.

Definition mapping (fileId : string) (entries : list (MappingEntry B))
  : ColumnMapping B :=
  {| mapping_id := ("mapping-" ++ fileId)%string;
     sourceFileId := fileId;
     targetFileId := None;
     mappings := entries;
     mapping_joinType := None;
     mapping_joinKey := None |}.

(** The mapping that keeps every listed column under its own name. *)
Definition identityMapping (fileId : string) (columns : list string)
  : ColumnMapping B :=
  mapping fileId (map (fun column => entry column column) columns).

Definition options (joinType : JoinType) (joinKey : option string)
  (strategy : DataMerger.DuplicateStrategy) (maxRows : option Z)
  : DataMerger.MergeOptions :=
  {| DataMerger.joinType := joinType;
     DataMerger.joinKey := joinKey;
     DataMerger.handleDuplicates_option := strategy;
     DataMerger.validateTypes := false;
     DataMerger.maxRows := maxRows |}.

End WithBuiltins.
End Fixtures.

(** The inputs of the worked examples. *)
Module Examples.
Section WithBuiltins.
Context {B : Builtins}.
Import Fixtures.

(** The inner-join example of the specification: the join key is [k]. *)
Definition joinFiles : list (ProcessedFile B) :=
  [ file "left" ["k"; "v"] [[Str "1"; Str "a"]];
    file "right" ["k"; "v"] [[Str "1"; Str "b"]; [Str "2"; Str "c"]] ].

Definition joinMappings : list (ColumnMapping B) :=
  [ identityMapping "left" ["k"; "v"]; identityMapping "right" ["k"; "v"] ].

(** The fields [k] and [v] of every record of a dataset. *)
Definition fields_k_v (records : list (list (string * cell B)))
  : list (option (cell B) * option (cell B)) :=
  map (fun record => (Map_get String.eqb record "k", Map_get String.eqb record "v"))
    records.

(** Two files of one column [k]: four keys on the left, the first two of
    them on the right. *)
Definition cappedFiles : list (ProcessedFile B) :=
  [ file "left" ["k"] [[Str "1"]; [Str "2"]; [Str "3"]; [Str "4"]];
    file "right" ["k"] [[Str "1"]; [Str "2"]] ].

Definition cappedMappings : list (ColumnMapping B) :=
  [ identityMapping "left" ["k"]; identityMapping "right" ["k"] ].

(** One file of a hundred rows, numbered in its only column. *)
Definition hundredRows : list (ProcessedFile B) :=
  [ file "rows" ["n"] (map (fun n => [Str (String_of_nat n)]) (seq 0 100)) ].

Definition hundredMappings : list (ColumnMapping B) :=
  [ identityMapping "rows" ["n"] ].

(** A file read from the text [a,b / x, / x]: the last line has one field,
    so its row is one cell long. *)
Definition raggedFiles : list (ProcessedFile B) :=
  [ file "ragged" ["a"; "b"] [[Str "x"; Null]; [Str "x"]] ].

Definition raggedMappings : list (ColumnMapping B) :=
  [ identityMapping "ragged" ["a"; "b"] ].

(** Mappings for the join example, the second of a file that was not
    given. *)
Definition partlyMissingMappings : list (ColumnMapping B) :=
  [ identityMapping "left" ["k"; "v"]; identityMapping "gone" ["k"] ].

(** A file whose processing failed, and mappings of it and of a file that
    was not given. *)
Definition unusableFiles : list (ProcessedFile B) := [ failedFile "a" ].

Definition unusableMappings : list (ColumnMapping B) :=
  [ identityMapping "a" ["k"]; identityMapping "b" ["k"] ].

(** An entry that writes its column in capitals. *)
Definition upperEntry : MappingEntry B :=
  {| sourceColumn := "b"; targetColumn := "B";
     transform := Some uppercase; transformParams := None |}.

End WithBuiltins.

(** Inputs that hold numbers, on the host of the examples. *)
Import AsciiHost.

(** The number cell of an integer. *)
Definition int (z : Z) : cell host := @Num host (Int z).

(** Five strings and five numbers: the mixed column of the specification. *)
Definition tenValues : list (list (cell host)) :=
  [ [Str "a"]; [Str "b"]; [Str "c"]; [Str "d"]; [Str "e"];
    [int 1]; [int 2]; [int 3]; [int 4]; [int 5] ].

(** Three strings, two numbers and a null: five non-null values. *)
Definition fiveValues : list (list (cell host)) :=
  [ [Str "a"]; [Str "b"]; [Str "c"]; [Null]; [int 1]; [int 2] ].


(** One transformed file of three rows. *)
Definition threeRows : list (DataMerger.TransformedFile host) :=
  [ {| DataMerger.tf_file :=
         Fixtures.file "rows" ["n"] [[Str "a"]; [Str "b"]; [Str "c"]];
       DataMerger.tf_headers := ["n"];
       DataMerger.tf_data := [[Str "a"]; [Str "b"]; [Str "c"]] |} ].

(** A mapping with an unknown source column and a target mapped twice. *)
Definition clashingMapping : ColumnMapping host :=
  Fixtures.mapping "orders" [Fixtures.entry "x" "id"; Fixtures.entry "a" "id"].

End Examples.

(* ================================================================== *)
(** ** String distances ([src/unnamed/part_002]) *)

Module TextMetrics.

(** One row of the matrix of [levenshteinDistance], from the cell after
    [left]: [above] is the row before, from the cell diagonal to the one
    being filled. *)
Fixpoint fillRow (c2 : ascii) (str1 : list ascii) (above : list nat)
  (left : nat) : list nat :=
  match str1, above with
  | c1 :: rest, diagonal :: above' =>
      match above' with
      | up :: _ =>
          let cell :=
            if Ascii.eqb c2 c1 then diagonal
            else Nat.min (diagonal + 1) (Nat.min (left + 1) (up + 1)) in
          cell :: fillRow c2 rest above' cell
      | [] => []
      end
  | _, _ => []
  end.

(** The rows [matrix[i]], [matrix[i + 1]], ... for the characters of
    [str2] still to come; the result is the last row. *)
Fixpoint fillMatrix (str1 : list ascii) (row : list nat) (i : nat)
  (str2 : list ascii) : list nat :=
  match str2 with
  | [] => row
  | c2 :: rest => fillMatrix str1 (i :: fillRow c2 str1 row i) (S i) rest
  end.

(** [levenshteinDistance(str1, str2)]: [matrix[str2.length][str1.length]]. *)
Definition levenshteinDistance (str1 str2 : string) : nat :=
  let chars1 := list_ascii_of_string str1 in
  last (fillMatrix chars1 (seq 0 (S (List.length chars1))) 1
          (list_ascii_of_string str2)) 0%nat.

(** [calculateSimilarity(str1, str2)], as the exact quotient. *)
Definition calculateSimilarity {B : Builtins} (str1 str2 : string) : Q :=
  let maxLength := Nat.max (String.length str1) (String.length str2) in
  if (maxLength =? 0)%nat then 1%Q
  else
    let distance := levenshteinDistance (toLowerCase str1) (toLowerCase str2) in
    (inject_Z (Z.of_nat maxLength - Z.of_nat distance)
     / inject_Z (Z.of_nat maxLength))%Q.

(** One row of the table of [longestCommonSubsequence]. *)
Fixpoint fillCommon (c1 : ascii) (str2 : list ascii) (above : list nat)
  (left : nat) : list nat :=
  match str2, above with
  | c2 :: rest, diagonal :: above' =>
      match above' with
      | up :: _ =>
          let cell :=
            if Ascii.eqb c1 c2 then (diagonal + 1)%nat else Nat.max up left in
          cell :: fillCommon c1 rest above' cell
      | [] => []
      end
  | _, _ => []
  end.

Fixpoint fillTable (str2 : list ascii) (row : list nat) (str1 : list ascii)
  : list nat :=
  match str1 with
  | [] => row
  | c1 :: rest => fillTable str2 (0%nat :: fillCommon c1 str2 row 0) rest
  end.

(** [longestCommonSubsequence(str1, str2)]: [dp[m][n]]. *)
Definition longestCommonSubsequence (str1 str2 : string) : nat :=
  let chars2 := list_ascii_of_string str2 in
  last (fillTable chars2 (repeat 0%nat (S (List.length chars2)))
          (list_ascii_of_string str1)) 0%nat.

End TextMetrics.

(* ================================================================== *)
(** ** Type compatibility ([src/src/lib/column-mapping.ts]) *)

Module DataTypeDetector.

(** The text of a [DataType], as a template string writes it. *)
Definition typeName (t : DataType) : string :=
  match t with
  | TString => "string"
  | TNumber => "number"
  | TDate => "date"
  | TBoolean => "boolean"
  | TMixed => "mixed"
  | TUnknown => "unknown"
  end.

(** [a === b] on two [DataType]s. *)
Definition sameType (a b : DataType) : bool :=
  String.eqb (typeName a) (typeName b).

(** The table [compatibleTypes]. *)
Definition compatibleTypes (sourceType : DataType) : list DataType :=
  match sourceType with
  | TString => [TMixed; TUnknown]
  | TNumber => [TString; TMixed; TUnknown]
  | TDate => [TString; TMixed; TUnknown]
  | TBoolean => [TString; TNumber; TMixed; TUnknown]
  | TMixed => [TString; TNumber; TDate; TBoolean; TUnknown]
  | TUnknown => [TString; TNumber; TDate; TBoolean; TMixed]
  end.

(** [areTypesCompatible(sourceType, targetType)] *)
Definition areTypesCompatible (sourceType targetType : DataType) : bool :=
  if sameType sourceType targetType then true
  else existsb (sameType targetType) (compatibleTypes sourceType).

(** The table [conversionScores]. *)
Definition conversionScores : list (string * Q) :=
  [ ("string-mixed", 9 # 10); ("number-string", 95 # 100);
    ("date-string", 9 # 10); ("boolean-string", 95 # 100);
    ("boolean-number", 8 # 10); ("mixed-string", 7 # 10);
    ("unknown-string", 5 # 10) ].

Definition pairKey (sourceType targetType : DataType) : string :=
  (typeName sourceType ++ "-" ++ typeName targetType)%string.

(** [getConversionConfidence(sourceType, targetType)] *)
Definition getConversionConfidence (sourceType targetType : DataType) : Q :=
  if sameType sourceType targetType then 1%Q
  else
    match Map_get String.eqb conversionScores (pairKey sourceType targetType) with
    | Some score => if Qeq_bool score 0 then 3 # 10 else score
    | None => 3 # 10
    end.

(** The table [transformations]. *)
Definition transformations : list (string * string) :=
  [ ("number-string", "Convert numbers to text format");
    ("date-string", "Format dates as text (YYYY-MM-DD)");
    ("boolean-string", "Convert true/false to text");
    ("boolean-number", "Convert true=1, false=0");
    ("string-number", "Parse numeric values from text");
    ("string-date", "Parse dates from text format");
    ("mixed-string", "Convert all values to text format") ].

(** [suggestTransformation(sourceType, targetType)]; [None] is [null]. *)
Definition suggestTransformation (sourceType targetType : DataType)
  : option string :=
  if sameType sourceType targetType then None
  else
    let fallback :=
      ("Convert " ++ typeName sourceType ++ " to " ++ typeName targetType)%string in
    match Map_get String.eqb transformations (pairKey sourceType targetType) with
    | Some text => Some (if String.eqb text "" then fallback else text)
    | None => Some fallback
    end.

(** [MappingGenerator.getRecommendedTransform(sourceType, targetType)] *)
Definition getRecommendedTransform (sourceType targetType : DataType) : Transform :=
  if sameType sourceType targetType then none
  else if sameType sourceType TString && sameType targetType TString then none
  else if sameType sourceType TDate && sameType targetType TString then date_format
  else if sameType sourceType TNumber && sameType targetType TString
  then number_format
  else none.

End DataTypeDetector.

(* ================================================================== *)
(** ** Delimiters and default headers ([src/src/lib/file-utils.ts]) *)

Module FileParsing.

Definition tab : string := String (ascii_of_nat 9) EmptyString.

(** The number of times the character [c] occurs in [sample]. *)
Fixpoint occurrencesOf (c : ascii) (sample : string) : nat :=
  match sample with
  | EmptyString => 0
  | String d rest =>
      if Ascii.eqb c d then S (occurrencesOf c rest) else occurrencesOf c rest
  end.

(** [(sample.match(new RegExp(delimiter, 'g')) || []).length] for the four
    delimiters of the code.  A comma, a semicolon or a tab is a pattern that
    matches itself.  The bar is the alternation of two empty patterns: it
    matches the empty string at each of the [sample.length + 1] positions. *)
Definition matchCount (delimiter sample : string) : nat :=
  match delimiter with
  | String c EmptyString =>
      if Ascii.eqb c "|"%char then S (String.length sample)
      else occurrencesOf c sample
  | _ => 0%nat
  end.

(** The four candidates, in the order the code tries them. *)
Definition delimiters : list string := [","; ";"; tab; "|"].

(** [detectDelimiter(sample)] *)
Definition detectDelimiter (sample : string) : string :=
  snd
    (fold_left
       (fun (best : nat * string) delimiter =>
          let count := matchCount delimiter sample in
          if (fst best <? count)%nat then (count, delimiter) else best)
       delimiters (0%nat, ",")).

(** [generateHeaders(columnCount)] *)
Definition generateHeaders (columnCount : nat) : list string :=
  map (fun i => ("Column " ++ String_of_nat (i + 1))%string) (seq 0 columnCount).

End FileParsing.

(* ================================================================== *)
(** ** Automatic mappings ([src/src/lib/column-mapping.ts])

    [generateAutoMappings] asks a [ColumnMatcher] for the best suggestion
    of each source column.  The matcher ranks with Fuse.js, which is not
    part of the repository: it is a parameter here, and so is the
    comparison of its floating-point similarities. *)

Module AutoMapping.
Section WithMatcher.
Context {B : Builtins}.

(** The type of [similarity] and of [confidenceThreshold]. *)
Variable score : Type.

(** [ColumnSuggestion], as far as [generateAutoMappings] reads it. *)
Record ColumnSuggestion : Type := {
  suggestion_targetColumn : string;
  similarity : score
}.

(** [new ColumnMatcher(targetColumns).findMatches(sourceColumn, limit)] *)
Variable findMatches : list string -> string -> nat -> list ColumnSuggestion.
(** [a >= b] *)
Variable atLeast : score -> score -> bool.

(** The body of the loop over the source columns: the entries it pushes. *)
Definition entriesFor (source target : ParsedData B) (confidenceThreshold : score)
  (sourceColumn : string) : list (MappingEntry B) :=
  match findMatches (headers target) sourceColumn 1 with
  | bestMatch :: _ =>
      if atLeast (similarity bestMatch) confidenceThreshold
      then
        match find (fun c => String.eqb (name c) sourceColumn) (columnTypes source),
              find (fun c => String.eqb (name c) (suggestion_targetColumn bestMatch))
                (columnTypes target) with
        | Some sourceColType, Some targetColType =>
            if DataTypeDetector.areTypesCompatible (type sourceColType)
                 (type targetColType)
            then
              [ {| sourceColumn := sourceColumn;
                   targetColumn := suggestion_targetColumn bestMatch;
                   transform :=
                     Some (DataTypeDetector.getRecommendedTransform
                             (type sourceColType) (type targetColType));
                   transformParams := None |} ]
            else []
        | _, _ => []
        end
      else []
  | [] => []
  end.

(** [generateAutoMappings(sourceFile, targetFile, confidenceThreshold)] *)
Definition generateAutoMappings (clock : DataMerger.Clock)
  (sourceFile targetFile : ProcessedFile B) (confidenceThreshold : score)
  : result (ColumnMapping B) :=
  match parsedData sourceFile, parsedData targetFile with
  | Some source, Some target =>
      Ok {| mapping_id :=
              ("mapping-" ++ file_id sourceFile ++ "-" ++ file_id targetFile ++ "-"
                 ++ String_of_Z (DataMerger.Date_now clock))%string;
            sourceFileId := file_id sourceFile;
            targetFileId := Some (file_id targetFile);
            mappings :=
              flat_map (entriesFor source target confidenceThreshold)
                (headers source);
            mapping_joinType := Some Inner;
            mapping_joinKey := None |}
  | _, _ => Throw "Both files must have parsed data"
  end.

End WithMatcher.
End AutoMapping.

(* ================================================================== *)
(** ** Word overlap of the matcher ([src/src/lib/column-mapping.ts]) *)

Module ColumnMatcher.

(** [calculateWordOrderSimilarity(sourceWords, targetWords)].  Its callers
    pass the results of [split(' ')], which are never empty; on two empty
    lists the code divides 0 by 0. *)
Definition calculateWordOrderSimilarity (sourceWords targetWords : list string) : Q :=
  let intersection := filter (fun word => includes targetWords word) sourceWords in
  let union := Set_from String.eqb (sourceWords ++ targetWords) in
  ratio (List.length intersection) (List.length union).

End ColumnMatcher.

(* ================================================================== *)
(** ** Vocabulary of the statements *)

Section Vocabulary.
Context {B : Builtins}.
Import DataMerger.

(** The number of entries that map to [column]. *)
Definition occurrences (column : string) (entries : list (MappingEntry B)) : nat :=
  List.length (filter (fun map => String.eqb column (targetColumn map)) entries).

(** Every index the [seen] map holds points at a row with that text. *)
Definition seen_ok (st : DedupState) : Prop :=
  forall key index,
    Map_get tokens_eqb (seen st) key = Some index ->
    nth_error (map JSON_stringify (dedup_result st)) index = Some key.


(** What the loop of [handleDuplicates] keeps true, [done] being the rows
    read so far. *)
Definition dedup_inv (done : list (list (cell B))) (st : DedupState) : Prop :=
  seen_ok st
  /\ (forall key, Map_get tokens_eqb (seen st) key = None ->
        ~ In key (map JSON_stringify (dedup_result st)))
  /\ NoDup (map JSON_stringify (dedup_result st))
  /\ (Z.of_nat (List.length (dedup_result st)) + duplicatesRemoved st
      = Z.of_nat (List.length done))%Z
  /\ (0 <= duplicatesRemoved st)%Z
  /\ (forall text, In text (map JSON_stringify (dedup_result st))
                   <-> In text (map JSON_stringify done))
  /\ incl (dedup_result st) done.

(** What the loops of [performMerge] over the files keep true, [done] being
    the files read so far. *)
Definition merge_inv (unifiedHeaders : list string)
  (done : list (TransformedFile B)) (st : MergeState) : Prop :=
  Forall (fun row => List.length row = List.length unifiedHeaders) (mergedData st)
  /\ (Z.of_nat (List.length (mergedData st)) <= merge_totalRows st)%Z
  /\ merge_totalRows st
     = Z.of_nat (List.length (List.concat (map (fun tf => tf_data tf) done)))
  /\ (0 <= merge_droppedRows st)%Z.

(** The condition [!file || !file.parsedData] of the loop of [mergeFiles]
    over the mappings, and the warning it pushes. *)
Definition unavailable (files : list (ProcessedFile B)) (mapping : ColumnMapping B)
  : bool :=
  match findFile files (sourceFileId mapping) with
  | Some file => match parsedData file with Some _ => false | None => true end
  | None => true
  end.

Definition notFoundWarning (mapping : ColumnMapping B) : string :=
  ("File " ++ sourceFileId mapping ++ " not found or has no data")%string.

(** [options] with another row cap. *)
Definition withMaxRows (options : MergeOptions) (limit : option Z) : MergeOptions :=
  {| joinType := joinType options;
     joinKey := joinKey options;
     handleDuplicates_option := handleDuplicates_option options;
     validateTypes := validateTypes options;
     maxRows := limit |}.

End Vocabulary.

(** The edit distance by its recurrence, on the first characters. *)
Fixpoint editDistance (a : list ascii) : list ascii -> nat :=
  fix inner (b : list ascii) : nat :=
    match a with
    | [] => List.length b
    | x :: a' =>
        match b with
        | [] => List.length a
        | y :: b' =>
            if Ascii.eqb x y then editDistance a' b'
            else S (Nat.min (editDistance a' b')
                      (Nat.min (inner b') (editDistance a' b)))
        end
    end.

(** The row of distances from [r2] to [r1] and to [r1] grown, one
    character of [rest] at a time, at its front. *)
Fixpoint distanceRow (r2 r1 rest : list ascii) : list nat :=
  editDistance r2 r1
  :: match rest with
     | [] => []
     | c1 :: rest' => distanceRow r2 (c1 :: r1) rest'
     end.

(** The length of a longest common subsequence by its recurrence. *)
Fixpoint commonLength (a : list ascii) : list ascii -> nat :=
  fix inner (b : list ascii) : nat :=
    match a with
    | [] => 0%nat
    | x :: a' =>
        match b with
        | [] => 0%nat
        | y :: b' =>
            if Ascii.eqb x y then S (commonLength a' b')
            else Nat.max (commonLength a' b) (inner b')
        end
    end.

Fixpoint commonRow (r1 r2 rest : list ascii) : list nat :=
  commonLength r1 r2
  :: match rest with
     | [] => []
     | c2 :: rest' => commonRow r1 (c2 :: r2) rest'
     end.

(* ================================================================== *)
(** ** Facts about the runtime pieces *)

Section CollectionFacts.
Context {K : Type} (eqb : K -> K -> bool).
Hypothesis eqb_spec : forall x y, eqb x y = true <-> x = y.

Lemma Set_has_In (s : list K) (x : K) : Set_has eqb s x = true <-> In x s.
Proof.
  unfold Set_has. rewrite existsb_exists. split.
  - intros [y [Hy He]]. apply eqb_spec in He. now subst.
  - intros Hx. exists x. split; [assumption | now apply eqb_spec].
Qed.

Lemma Set_has_false (s : list K) (x : K) : Set_has eqb s x = false <-> ~ In x s.
Proof.
  rewrite <- Set_has_In. destruct (Set_has eqb s x); intuition congruence.
Qed.

Lemma Set_fold_In (xs acc : list K) (x : K) :
  In x (fold_left (Set_add eqb) xs acc) <-> In x acc \/ In x xs.
Proof.
  revert acc. induction xs as [|y ys IH]; intros acc; simpl.
  - tauto.
  - rewrite IH. unfold Set_add. destruct (Set_has eqb acc y) eqn:Hy.
    + apply Set_has_In in Hy. intuition (subst; auto).
    + rewrite in_app_iff. simpl. intuition (subst; auto).
Qed.

Lemma Set_fold_NoDup (xs acc : list K) :
  NoDup acc -> NoDup (fold_left (Set_add eqb) xs acc).
Proof.
  revert acc. induction xs as [|y ys IH]; intros acc Hacc; simpl.
  - assumption.
  - apply IH. unfold Set_add. destruct (Set_has eqb acc y) eqn:Hy.
    + assumption.
    + apply Set_has_false in Hy.
      apply NoDup_app; [assumption | repeat constructor; auto | ].
      intros z Hz [->|[]]. contradiction.
Qed.

Lemma Set_from_In (xs : list K) (x : K) : In x (Set_from eqb xs) <-> In x xs.
Proof. unfold Set_from. rewrite Set_fold_In. simpl. tauto. Qed.

Lemma Set_from_NoDup (xs : list K) : NoDup (Set_from eqb xs).
Proof. apply Set_fold_NoDup. constructor. Qed.

(** Two sets with the same members have the same size. *)
Lemma Set_from_size (xs ys : list K) :
  (forall x, In x xs <-> In x ys) ->
  List.length (Set_from eqb xs) = List.length (Set_from eqb ys).
Proof.
  intros H. apply Permutation_length, NoDup_Permutation;
    try apply Set_from_NoDup.
  intros x. rewrite !Set_from_In. apply H.
Qed.
End CollectionFacts.

Lemma filter_none {A} (f : A -> bool) (xs : list A) :
  (forall x, In x xs -> f x = false) -> filter f xs = [].
Proof.
  induction xs as [|x rest IH]; simpl; intros H; [reflexivity|].
  rewrite (H x (or_introl eq_refl)). apply IH. intros y Hy. apply H. now right.
Qed.

Lemma filter_all {A} (f : A -> bool) (xs : list A) :
  (forall x, In x xs -> f x = true) -> filter f xs = xs.
Proof.
  induction xs as [|x rest IH]; simpl; intros H; [reflexivity|].
  rewrite (H x (or_introl eq_refl)). f_equal. apply IH. intros y Hy. apply H. now right.
Qed.

(* ================================================================== *)
(** ** [jaccardSimilarity] *)

Section Jaccard.
Import TextUtils.

Local Abbreviation has_In := (Set_has_In String.eqb String.eqb_eq).
Local Abbreviation has_false := (Set_has_false String.eqb String.eqb_eq).
Local Abbreviation from_In := (Set_from_In String.eqb String.eqb_eq).
Local Abbreviation from_size := (Set_from_size String.eqb String.eqb_eq).

Lemma jaccard_intersection_disjoint (A B : list string) :
  (forall x, In x A -> ~ In x B) ->
  filter (fun x => Set_has String.eqb (Set_from String.eqb B) x)
    (Set_from String.eqb A) = [].
Proof.
  intros Hdis. apply filter_none. intros x Hx. apply (proj1 (from_In _ _)) in Hx.
  apply has_false. rewrite from_In. exact (Hdis x Hx).
Qed.

Lemma jaccard_intersection_equal (A B : list string) :
  (forall x, In x A <-> In x B) ->
  filter (fun x => Set_has String.eqb (Set_from String.eqb B) x)
    (Set_from String.eqb A) = Set_from String.eqb A.
Proof.
  intros Heq. apply filter_all. intros x Hx. apply (proj1 (from_In _ _)) in Hx.
  apply has_In. rewrite from_In. exact (proj1 (Heq x) Hx).
Qed.

Lemma Set_from_nonempty (A : list string) :
  A <> [] -> List.length (Set_from String.eqb A) <> 0%nat.
Proof.
  destruct A as [|a rest]; [congruence|]. intros _ Hlen.
  apply length_zero_iff_nil in Hlen.
  assert (Ha : In a (Set_from String.eqb (a :: rest))) by (apply (proj2 (from_In _ _)); now left).
  rewrite Hlen in Ha. destruct Ha.
Qed.

(** C8, as the code has it.  Disjoint token lists score [0]; token lists
    with the same members score [1], provided there is a token at all: two
    empty lists have an empty union and score [0]. *)
Theorem jaccardSimilarity_disjoint_equal (A B : list string) :
  ((forall x, In x A -> ~ In x B) -> (jaccardSimilarity A B == 0)%Q) /\
  ((forall x, In x A <-> In x B) -> A <> [] -> (jaccardSimilarity A B == 1)%Q).
Proof.
  split.
  - intros Hdis. unfold jaccardSimilarity.
    rewrite (jaccard_intersection_disjoint _ _ Hdis).
    destruct (Nat.eqb _ 0); [reflexivity|].
    change (List.length (Set_from String.eqb (@nil string))) with 0%nat.
    unfold Qdiv. apply Qmult_0_l.
  - intros Heq Hne. unfold jaccardSimilarity.
    rewrite (jaccard_intersection_equal _ _ Heq).
    assert (Hi : List.length (Set_from String.eqb (Set_from String.eqb A))
                 = List.length (Set_from String.eqb A)).
    { apply from_size. intros x. apply from_In. }
    assert (Hu : List.length (Set_from String.eqb
                   (Set_from String.eqb A ++ Set_from String.eqb B))
                 = List.length (Set_from String.eqb A)).
    { apply from_size. intros x. rewrite in_app_iff, !from_In.
      specialize (Heq x). tauto. }
    rewrite Hi, Hu.
    pose proof (Set_from_nonempty Hne) as Hn.
    destruct (Nat.eqb_spec (List.length (Set_from String.eqb A)) 0) as [E|_];
      [contradiction|].
    apply Qmult_inv_r. intros H0. unfold Qeq in H0. simpl in H0. lia.
Qed.

(** The theorem above at two one-token lists. *)
Lemma jaccardSimilarity_disjoint_equal_witness :
  (jaccardSimilarity ["id"] ["name"] == 0)%Q /\
  (jaccardSimilarity ["id"; "id"] ["id"] == 1)%Q.
Proof.
  split.
  - apply (proj1 (jaccardSimilarity_disjoint_equal ["id"] ["name"])).
    intros x [<-|[]] [H|[]]. discriminate H.
  - apply (proj2 (jaccardSimilarity_disjoint_equal ["id"; "id"] ["id"])).
    + intros x. simpl. tauto.
    + discriminate.
Defined.

(** C8 as stated fails when both token lists are empty: the token sets are
    equal, and the score is [0]. *)
Lemma jaccardSimilarity_empty_counterexample :
  (forall x : string, In x [] <-> In x []) /\
  jaccardSimilarity [] [] = 0%Q /\ ~ (jaccardSimilarity [] [] == 1)%Q.
Proof.
  split; [tauto|]. split; [reflexivity|]. vm_compute. discriminate.
Qed.

End Jaccard.

Lemma find_append {A} (f : A -> bool) (xs ys : list A) :
  find f (xs ++ ys) = match find f xs with Some x => Some x | None => find f ys end.
Proof.
  induction xs as [|x rest IH]; simpl; [reflexivity|]. now destruct (f x).
Qed.

Section MapFacts.
Context {K V : Type} (eqb : K -> K -> bool).
Hypothesis eqb_spec : forall x y, eqb x y = true <-> x = y.

Lemma eqb_same (k : K) : eqb k k = true.
Proof. now apply eqb_spec. Qed.

Lemma eqb_differ (k k' : K) : k <> k' -> eqb k k' = false.
Proof.
  intros Hne. destruct (eqb k k') eqn:E; [|reflexivity].
  apply eqb_spec in E. contradiction.
Qed.

Lemma Map_get_set (m : list (K * V)) (k k' : K) (v : V) :
  Map_get eqb (Map_set eqb m k v) k'
  = if eqb k' k then Some v else Map_get eqb m k'.
Proof.
  induction m as [|[k0 v0] rest IH]; simpl.
  - reflexivity.
  - destruct (eqb k k0) eqn:Ek; simpl.
    + apply eqb_spec in Ek. subst k0. now destruct (eqb k' k).
    + rewrite IH. destruct (eqb k' k0) eqn:E0; [|reflexivity].
      apply eqb_spec in E0. subst k0.
      destruct (eqb k' k) eqn:E1; [|reflexivity].
      apply eqb_spec in E1. subst k'. rewrite eqb_same in Ek. discriminate.
Qed.


(** Setting a key adds it to the key list exactly as [Set.add] would. *)
Lemma Map_keys_set (m : list (K * V)) (k : K) (v : V) :
  Map_keys (Map_set eqb m k v) = Set_add eqb (Map_keys m) k.
Proof.
  unfold Set_add, Set_has. induction m as [|[k0 v0] rest IH]; simpl.
  - reflexivity.
  - destruct (eqb k k0); simpl; [reflexivity|].
    rewrite IH. now destruct (existsb (eqb k) (Map_keys rest)).
Qed.

Lemma Map_get_In (m : list (K * V)) (k : K) (v : V) :
  Map_get eqb m k = Some v -> In (k, v) m.
Proof.
  induction m as [|[k0 v0] rest IH]; simpl; [discriminate|].
  destruct (eqb k k0) eqn:E.
  - apply eqb_spec in E. subst k0. intros [= ->]. now left.
  - intros H. right. now apply IH.
Qed.

Lemma Map_get_None (m : list (K * V)) (k : K) :
  Map_get eqb m k = None <-> ~ In k (Map_keys m).
Proof.
  induction m as [|[k0 v0] rest IH]; simpl; [tauto|].
  destruct (eqb k k0) eqn:E.
  - apply eqb_spec in E. subst k0. split; [discriminate | intros H; exfalso; auto].
  - rewrite IH. split.
    + intros H [H0|H0]; [|contradiction].
      subst k0. rewrite eqb_same in E. discriminate.
    + tauto.
Qed.

Lemma In_Map_get (m : list (K * V)) (k : K) (v : V) :
  NoDup (Map_keys m) -> In (k, v) m -> Map_get eqb m k = Some v.
Proof.
  induction m as [|[k0 v0] rest IH]; simpl; [tauto|].
  intros Hnd [Heq|Hin].
  - injection Heq as -> ->. now rewrite eqb_same.
  - inversion Hnd as [|? ? Hnot Hrest]; subst.
    destruct (eqb k k0) eqn:E.
    + apply eqb_spec in E. subst k0. exfalso. apply Hnot.
      change k with (fst (k, v)). now apply in_map.
    + now apply IH.
Qed.

(** A map filled by a loop of [set]: its keys are the [Set] of the keys
    written, and a key holds the value written last under it. *)
Section Filled.
Context {X : Type} (key : X -> K) (val : X -> V).

Lemma fill_keys (xs : list X) (m : list (K * V)) :
  Map_keys (Map_fill eqb key val m xs) = fold_left (Set_add eqb) (map key xs) (Map_keys m).
Proof.
  revert m. induction xs as [|x rest IH]; intros m; simpl; [reflexivity|].
  unfold Map_fill in *. simpl. rewrite IH, Map_keys_set. reflexivity.
Qed.

Lemma fill_get (xs : list X) (m : list (K * V)) (k : K) :
  Map_get eqb (Map_fill eqb key val m xs) k
  = match find (fun x => eqb k (key x)) (rev xs) with
    | Some x => Some (val x)
    | None => Map_get eqb m k
    end.
Proof.
  revert m. induction xs as [|x rest IH]; intros m; simpl; [reflexivity|].
  unfold Map_fill in *. simpl. rewrite IH, find_append.
  destruct (find (fun x0 => eqb k (key x0)) (rev rest)); [reflexivity|].
  simpl. rewrite Map_get_set. now destruct (eqb k (key x)).
Qed.

End Filled.
End MapFacts.

(* ================================================================== *)
(** ** The key-based join *)

Section JoinFacts.
Context {B : Builtins}.
Import DataMerger.

Local Abbreviation strings_eqb := String.eqb_eq.

Lemma lookupMap_keys (i : nat) (data : list (list (cell B))) :
  Map_keys (lookupMap i data) = Set_from String.eqb (map (joinKeyOf i) data).
Proof.
  unfold lookupMap.
  apply (fill_keys String.eqb (joinKeyOf i) (fun row => row) data []).
Qed.


Lemma lookupMap_NoDup (i : nat) (data : list (list (cell B))) :
  NoDup (Map_keys (lookupMap i data)).
Proof. rewrite lookupMap_keys. apply Set_from_NoDup, strings_eqb. Qed.

Lemma Map_keys_length {V} (m : list (string * V)) :
  List.length (Map_keys m) = List.length m.
Proof. apply length_map. Qed.

(** Closed forms of the four loops. *)
Lemma innerStep_loop rightMap headers entries st :
  let final := fold_left (innerStep rightMap headers) entries st in
  List.length (join_result final)
  = (List.length (join_result st)
     + List.length (filter (fun k => Map_has String.eqb rightMap k) (map fst entries)))%nat
  /\ join_dropped final
     = (join_dropped st
        + Z.of_nat (List.length
            (filter (fun k => negb (Map_has String.eqb rightMap k)) (map fst entries))))%Z.
Proof.
  revert st. induction entries as [|[key leftRow] rest IH]; intros st;
    cbn [fold_left List.length map filter fst].
  - cbv zeta. simpl. split; lia.
  - destruct (IH (innerStep rightMap headers st (key, leftRow))) as [IH1 IH2].
    cbv zeta in *. rewrite IH1, IH2. unfold innerStep, Map_has.
    destruct (Map_get String.eqb rightMap key); simpl;
      rewrite ?length_app; simpl; split; lia.
Qed.

Lemma leftStep_loop rightMap headers entries st :
  let final := fold_left (leftStep rightMap headers) entries st in
  List.length (join_result final)
  = (List.length (join_result st) + List.length entries)%nat
  /\ join_dropped final = join_dropped st
  /\ processedKeys final
     = fold_left (Set_add String.eqb) (map fst entries) (processedKeys st).
Proof.
  revert st. induction entries as [|[key leftRow] rest IH]; intros st; simpl.
  - auto.
  - specialize (IH (leftStep rightMap headers st (key, leftRow))).
    simpl in IH. destruct IH as (IH1 & IH2 & IH3).
    rewrite IH1, IH2, IH3. simpl. rewrite length_app. simpl. repeat split. lia.
Qed.





End JoinFacts.

(* ================================================================== *)
(** ** Duplicate handling *)

Lemma JsonToken_eqb_eq (a b : DataMerger.JsonToken) :
  DataMerger.JsonToken_eqb a b = true <-> a = b.
Proof.
  destruct a, b; simpl; split; intros H; try discriminate; try reflexivity.
  - apply String.eqb_eq in H. now subst.
  - injection H as ->. apply String.eqb_refl.
  - apply String.eqb_eq in H. now subst.
  - injection H as ->. apply String.eqb_refl.
  - apply Bool.eqb_prop in H. now subst.
  - injection H as ->. apply Bool.eqb_reflx.
Qed.

Lemma tokens_eqb_eq (xs ys : list DataMerger.JsonToken) :
  DataMerger.tokens_eqb xs ys = true <-> xs = ys.
Proof.
  revert ys. induction xs as [|x xs IH]; intros [|y ys]; simpl;
    try (split; [discriminate | discriminate]); [tauto|].
  rewrite andb_true_iff, JsonToken_eqb_eq, IH.
  split; [intros [-> ->]; reflexivity | intros [= -> ->]; auto].
Qed.

Lemma update_same {A} (xs : list A) (i : nat) (x : A) :
  nth_error xs i = Some x -> update xs i x = xs.
Proof.
  revert i. induction xs as [|y rest IH]; intros [|i]; simpl; try discriminate.
  - now intros [= ->].
  - intros H. f_equal. now apply IH.
Qed.

Lemma update_map {A C} (f : A -> C) (xs : list A) (i : nat) (x : A) :
  map f (update xs i x) = update (map f xs) i (f x).
Proof.
  revert i. induction xs as [|y rest IH]; intros [|i]; simpl; try reflexivity.
  f_equal. apply IH.
Qed.

Section DedupFacts.
Context {B : Builtins}.
Import DataMerger.

Lemma dedupStep_seen_ok strategy st row :
  seen_ok st -> seen_ok (dedupStep strategy st row).
Proof.
  intros Hok key index. unfold dedupStep.
  destruct (Map_get tokens_eqb (seen st) (JSON_stringify row)) as [prev|] eqn:Hseen;
    cbn [seen dedup_result].
  - intros Hget. pose proof (Hok _ _ Hget) as Hk.
    destruct strategy; try exact Hk.
    rewrite update_map, update_same; [exact Hk | now apply Hok].
  - rewrite (Map_get_set tokens_eqb tokens_eqb_eq).
    rewrite map_app. cbn [map].
    destruct (tokens_eqb key (JSON_stringify row)) eqn:Ekey.
    + apply tokens_eqb_eq in Ekey. subst key. intros [= <-].
      rewrite nth_error_app2; rewrite length_map; [|lia].
      now rewrite Nat.sub_diag.
    + intros Hget. specialize (Hok _ _ Hget).
      rewrite nth_error_app1; [exact Hok|].
      apply nth_error_Some. congruence.
Qed.





End DedupFacts.

(* ================================================================== *)
(** ** Type detection *)

Lemma nth_error_mapi_from {A C} (f : nat -> A -> C) (xs : list A) (start i : nat) :
  nth_error (mapi_from start f xs) i = option_map (f (start + i)%nat) (nth_error xs i).
Proof.
  revert start i. induction xs as [|x rest IH]; intros start [|i]; simpl;
    try reflexivity.
  - now rewrite Nat.add_0_r.
  - rewrite IH. now rewrite Nat.add_succ_r.
Qed.

Lemma nth_error_mapi {A C} (f : nat -> A -> C) (xs : list A) (i : nat) :
  nth_error (mapi f xs) i = option_map (f i) (nth_error xs i).
Proof. unfold mapi. now rewrite nth_error_mapi_from. Qed.

Lemma Qlt_bool_iff (x y : Q) : Qlt_bool x y = true <-> (x < y)%Q.
Proof.
  unfold Qlt_bool. rewrite negb_true_iff. split.
  - intros H. apply Qnot_le_lt. intros Hle. apply Qle_bool_iff in Hle. congruence.
  - intros H. destruct (Qle_bool y x) eqn:E; [|reflexivity].
    apply Qle_bool_iff in E. exfalso. exact (Qlt_not_le _ _ H E).
Qed.

Section DetectFacts.
Context {B : Builtins}.
Import FileUtils.

(** The counters count the cells of each runtime type. *)
Lemma typeCounts_from (values : list (cell B)) (tc : TypeCounts) :
  let final := fold_left countValue values tc in
  count_string final
  = (count_string tc + List.length (filter DataMerger.isStr values))%nat
  /\ count_number final
     = (count_number tc + List.length (filter DataMerger.isNum values))%nat
  /\ count_date final
     = (count_date tc + List.length (filter DataMerger.isDate values))%nat.
Proof.
  revert tc. induction values as [|v rest IH]; intros tc; cbn [fold_left].
  - cbv zeta. simpl. lia.
  - destruct (IH (countValue tc v)) as (H1 & H2 & H3). cbv zeta in *.
    rewrite H1, H2, H3. destruct v; simpl; lia.
Qed.

(** The dominant count is the largest of the four counters, and the
    dominant type is one of the four runtime types. *)
Lemma dominant_max (tc : TypeCounts) :
  snd (dominant tc)
  = Nat.max (count_string tc)
      (Nat.max (count_number tc) (Nat.max (count_date tc) (count_boolean tc)))
  /\ fst (dominant tc) <> TMixed /\ fst (dominant tc) <> TUnknown.
Proof.
  destruct tc as [cs cn cd cb]. unfold dominant, entries.
  simpl. rewrite Nat.ltb_irrefl. simpl.
  repeat match goal with
         | |- context [(?a <? ?b)%nat] =>
             is_var a; is_var b; destruct (Nat.ltb_spec a b); simpl
         end; repeat split; try discriminate; lia.
Qed.

Lemma columnData_all_null (rows : list (list (cell B))) (index : nat) :
  (forall row, In row rows -> at_index row index = Null) ->
  columnData rows index = [].
Proof.
  intros Hnull. unfold columnData. apply filter_none. intros c Hc.
  apply in_map_iff in Hc. destruct Hc as (row & <- & Hrow).
  now rewrite (Hnull row Hrow).
Qed.

(** C3 on the parse-time detector: a column whose cells are all null is
    typed [string] with confidence 0, and counts every row as null.  (The
    merger's own detector, below, is the one that answers [unknown].) *)
Theorem detectColumnTypes_all_null (headers : list string)
  (rows : list (list (cell B))) (index : nat) (header : string) :
  nth_error headers index = Some header ->
  (forall row, In row rows -> at_index row index = Null) ->
  exists ct,
    nth_error (detectColumnTypes headers rows) index = Some ct
    /\ name ct = header /\ type ct = TString /\ confidence ct = 0%Q
    /\ nullCount ct = Z.of_nat (List.length rows).
Proof.
  intros Hheader Hnull. unfold detectColumnTypes.
  rewrite nth_error_mapi, Hheader. cbn [option_map].
  eexists. split; [reflexivity|].
  unfold detectColumn. rewrite (columnData_all_null _ _ Hnull).
  cbn. repeat split. lia.
Qed.

(** The parse-time detector never answers [unknown]. *)
Lemma detectColumnTypes_never_unknown (headers : list string)
  (rows : list (list (cell B))) (ct : ColumnType B) :
  In ct (detectColumnTypes headers rows) -> type ct <> TUnknown.
Proof.
  intros Hin. apply In_nth_error in Hin. destruct Hin as [index Hnth].
  unfold detectColumnTypes in Hnth. rewrite nth_error_mapi in Hnth.
  destruct (nth_error headers index) as [header|]; [|discriminate].
  injection Hnth as <-. unfold detectColumn.
  pose proof (dominant_max (typeCounts (columnData rows index))) as (_ & _ & Hd).
  destruct (dominant (typeCounts (columnData rows index))) as [dt mx].
  cbn [fst] in Hd.
  destruct (Qlt_bool _ _ && _); cbn [type]; [discriminate | exact Hd].
Qed.

(** C4, as the code has it.  A column with more than five non-null cells
    whose dominant count is below 0.8 of them is typed [mixed] with
    confidence 0.5. *)
Theorem detectColumnTypes_mixed (headers : list string)
  (rows : list (list (cell B))) (index : nat) (ct : ColumnType B) :
  nth_error (detectColumnTypes headers rows) index = Some ct ->
  let values := columnData rows index in
  (5 < List.length values)%nat ->
  (ratio (snd (dominant (typeCounts values))) (List.length values) < 8 # 10)%Q ->
  type ct = TMixed /\ confidence ct = (1 # 2)%Q.
Proof.
  intros Hnth values Hlen Hratio. unfold detectColumnTypes in Hnth.
  rewrite nth_error_mapi in Hnth.
  destruct (nth_error headers index) as [header|]; [|discriminate].
  injection Hnth as <-. unfold detectColumn. fold values.
  destruct (dominant (typeCounts values)) as [dt mx]. cbn [snd] in Hratio.
  assert (H0 : (0 <? List.length values)%nat = true) by (apply Nat.ltb_lt; lia).
  assert (H5 : (5 <? List.length values)%nat = true) by (now apply Nat.ltb_lt).
  rewrite H0, H5. apply Qlt_bool_iff in Hratio. rewrite Hratio.
  split; reflexivity.
Qed.

(** The merger's own detector answers [unknown], with confidence 0, exactly
    on the columns without a non-null cell. *)
Lemma merged_detectColumn_unknown (data : list (list (cell B))) (index : nat)
  (header : string) :
  type (DataMerger.detectColumn data index header) = TUnknown
  <-> columnData data index = [].
Proof.
  unfold DataMerger.detectColumn. fold (columnData data index).
  destruct (columnData data index) as [|c rest]; cbn [List.length Nat.eqb].
  - split; reflexivity.
  - split; [|discriminate].
    repeat match goal with
           | |- context [if ?b then _ else _] => destruct b
           end; discriminate.
Qed.

End DetectFacts.

(* ================================================================== *)
(** ** Mapping validation *)

Lemma flat_map_nil {A C} (f : A -> list C) (xs : list A) :
  (forall x, In x xs -> f x = []) -> flat_map f xs = [].
Proof.
  induction xs as [|x rest IH]; simpl; intros H; [reflexivity|].
  rewrite (H x (or_introl eq_refl)). apply IH. intros y Hy. apply H. now right.
Qed.

Lemma includes_In (xs : list string) (x : string) :
  includes xs x = true <-> In x xs.
Proof. apply (Set_has_In String.eqb String.eqb_eq). Qed.

Section ValidateFacts.
Context {B : Builtins}.
Import MappingGenerator.

Lemma countTargets_loop_get (entries : list (MappingEntry B))
  (counts : list (string * nat)) (column : string) :
  Map_get String.eqb (fold_left countStep entries counts) column
  = match Map_get String.eqb counts column with
    | Some c => Some (c + occurrences column entries)%nat
    | None =>
        if (occurrences column entries =? 0)%nat then None
        else Some (occurrences column entries)
    end.
Proof.
  revert counts. induction entries as [|map rest IH]; intros counts.
  - unfold occurrences. simpl.
    destruct (Map_get String.eqb counts column); [f_equal; lia | reflexivity].
  - cbn [fold_left]. rewrite IH. unfold countStep.
    rewrite (Map_get_set String.eqb String.eqb_eq).
    unfold occurrences. cbn [filter].
    destruct (String.eqb column (targetColumn map)) eqn:E; cbn [List.length].
    + apply String.eqb_eq in E. subst column.
      destruct (Map_get String.eqb counts (targetColumn map));
        cbn [Nat.eqb]; f_equal; lia.
    + reflexivity.
Qed.

Lemma countTargets_loop_keys (entries : list (MappingEntry B))
  (counts : list (string * nat)) :
  Map_keys (fold_left countStep entries counts)
  = fold_left (Set_add String.eqb) (map (fun map => targetColumn map) entries)
      (Map_keys counts).
Proof.
  revert counts. induction entries as [|map rest IH]; intros counts;
    [reflexivity|].
  cbn [fold_left List.map]. rewrite IH. unfold countStep.
  now rewrite (Map_keys_set String.eqb).
Qed.

Lemma countTargets_get (entries : list (MappingEntry B)) (column : string) :
  Map_get String.eqb (countTargets entries) column
  = if (occurrences column entries =? 0)%nat then None
    else Some (occurrences column entries).
Proof. apply (countTargets_loop_get entries [] column). Qed.

Lemma countTargets_In (entries : list (MappingEntry B)) (column : string) (n : nat) :
  In (column, n) (countTargets entries) -> n = occurrences column entries.
Proof.
  intros Hin.
  assert (Hnd : NoDup (Map_keys (countTargets entries))).
  { unfold countTargets. rewrite countTargets_loop_keys.
    apply Set_fold_NoDup; [apply String.eqb_eq | constructor]. }
  apply (In_Map_get String.eqb String.eqb_eq _ _ _ Hnd) in Hin.
  rewrite countTargets_get in Hin.
  destruct (occurrences column entries =? 0)%nat; congruence.
Qed.

Lemma occurrences_NoDup (entries : list (MappingEntry B)) (column : string) :
  NoDup (map (fun map => targetColumn map) entries) ->
  (occurrences column entries <= 1)%nat.
Proof.
  unfold occurrences. induction entries as [|map rest IH]; simpl; [lia|].
  intros Hnd. inversion Hnd as [|? ? Hnot Hrest]; subst.
  destruct (String.eqb column (targetColumn map)) eqn:E; [|now apply IH].
  apply String.eqb_eq in E. subst column. simpl.
  assert (Hnone : filter (fun m => String.eqb (targetColumn map) (targetColumn m)) rest = []).
  { apply filter_none. intros m Hm.
    destruct (String.eqb (targetColumn map) (targetColumn m)) eqn:E; [|reflexivity].
    apply String.eqb_eq in E. exfalso. apply Hnot. rewrite E.
    apply in_map_iff. now exists m. }
  rewrite Hnone. simpl. lia.
Qed.

(** C6, as the code has it.  [validateMapping] is a total function to a
    list of messages.  On a source file without parsed data it answers that
    one fact and checks nothing else.  On a parsed source file: every entry
    whose source column is not a header is named in an error; every target
    column mapped by more than one entry is reported as mapped multiple
    times; and a mapping that passes the three checks yields no error. *)
Theorem validateMapping_reports (mapping : ColumnMapping B)
  (sourceFile : ProcessedFile B) (targetFile : option (ProcessedFile B)) :
  (parsedData sourceFile = None ->
   validateMapping mapping sourceFile targetFile = ["Source file has no parsed data"])
  /\ (forall source, parsedData sourceFile = Some source ->
      let errors := validateMapping mapping sourceFile targetFile in
      (forall map, In map (mappings mapping) ->
                   ~ In (sourceColumn map) (headers source) ->
                   In (sourceMissing (sourceColumn map)) errors)
      /\ (forall column, (1 < occurrences column (mappings mapping))%nat ->
                         In (mappedTwice column) errors)
      /\ ((forall map, In map (mappings mapping) ->
                       In (sourceColumn map) (headers source)) ->
          (forall tf target, targetFile = Some tf -> parsedData tf = Some target ->
                             forall map, In map (mappings mapping) ->
                                         In (targetColumn map) (headers target)) ->
          NoDup (map (fun map => targetColumn map) (mappings mapping)) ->
          errors = [])).
Proof.
  unfold validateMapping. split.
  - intros Hnone. now rewrite Hnone.
  - intros source Hsource. rewrite Hsource. cbv zeta. split; [|split].
    + intros map Hin Hmissing. apply in_or_app. left.
      apply in_flat_map. exists map. split; [assumption|].
      destruct (includes (headers source) (sourceColumn map)) eqn:E.
      * apply includes_In in E. contradiction.
      * now left.
    + intros column Hmany. apply in_or_app. right. apply in_or_app. right.
      apply in_flat_map. exists (column, occurrences column (mappings mapping)).
      split.
      * apply (Map_get_In String.eqb String.eqb_eq).
        rewrite countTargets_get.
        destruct (Nat.eqb_spec (occurrences column (mappings mapping)) 0);
          [lia | reflexivity].
      * apply Nat.ltb_lt in Hmany. rewrite Hmany. now left.
    + intros Hsources Htargets Hnodup.
      rewrite flat_map_nil.
      2:{ intros map Hin. apply Hsources, includes_In in Hin. now rewrite Hin. }
      rewrite flat_map_nil.
      2:{ intros [column n] Hin. apply countTargets_In in Hin. subst n.
          pose proof (@occurrences_NoDup (mappings mapping) column Hnodup) as Hle.
          destruct (Nat.ltb_spec 1 (occurrences column (mappings mapping)));
            [lia | reflexivity]. }
      rewrite app_nil_r. simpl.
      destruct targetFile as [tf|]; [|reflexivity].
      destruct (parsedData tf) as [target|] eqn:Htarget; [|reflexivity].
      apply flat_map_nil. intros map Hin.
      pose proof (Htargets tf target eq_refl Htarget map Hin) as Hhas.
      apply includes_In in Hhas. now rewrite Hhas.
Qed.

End ValidateFacts.

(* ================================================================== *)
(** ** The merge *)

Section MergeFacts.
Context {B : Builtins}.
Import DataMerger Fixtures Examples.

(** C1, as the code has it.  The inner join of the example emits the one
    row of key [1], with the left file's value, and drops nothing: only a
    left key without a partner counts as dropped, and the left file has
    none.  The right file's unmatched key [2] is counted nowhere. *)
Theorem mergeFiles_inner_join_example (clock : Clock) :
  let r := mergeFiles clock joinFiles joinMappings
             (options Inner (Some "k") keep_first None) in
  errors r = []
  /\ dataset_rowCount (dataset r) = 1%nat
  /\ fields_k_v (data (dataset r)) = [(Some (Str "1"), Some (Str "a"))]
  /\ totalRows (stats r) = 3%Z
  /\ mergedRows (stats r) = 1%Z
  /\ droppedRows (stats r) = 0%Z.
Proof.
  destruct B. vm_compute.
  (* the one call of the collation decides the order of the two headers *)
  match goal with
  | |- context [match ?collate "k" "v" with _ => _ end] => destruct (collate "k" "v")
  end; repeat split.
Qed.

(** C2 on its failing input.  Without a cap the inner join keeps two rows
    and drops two of the six input rows.  With [maxRows = 1] the cap removes
    one row, and the dropped count grows by five, the number of input rows
    less the cap, to seven. *)
Theorem mergeFiles_maxRows_counts_input_rows (clock : Clock) :
  let uncapped := mergeFiles clock cappedFiles cappedMappings
                    (options Inner (Some "k") keep_first None) in
  let capped := mergeFiles clock cappedFiles cappedMappings
                  (options Inner (Some "k") keep_first (Some 1%Z)) in
  (totalRows (stats uncapped) = 6%Z
   /\ mergedRows (stats uncapped) = 2%Z
   /\ droppedRows (stats uncapped) = 2%Z)
  /\ (totalRows (stats capped) = 6%Z
      /\ mergedRows (stats capped) = 1%Z
      /\ droppedRows (stats capped) = 7%Z).
Proof. destruct B. vm_compute. repeat split. Qed.

(** The example of the specification: a hundred rows capped at ten. *)
Lemma mergeFiles_hundred_rows_capped (clock : Clock) :
  let r := mergeFiles clock hundredRows hundredMappings
             (options Full None keep_first (Some 10%Z)) in
  mergedRows (stats r) = 10%Z /\ droppedRows (stats r) = 90%Z
  /\ dataset_rowCount (dataset r) = 10%nat.
Proof. destruct B. vm_compute. repeat split. Qed.

(** What the cap does in general: the rows are cut to the first [limit],
    and the dropped count grows by the number of input rows less [limit]. *)
Lemma performMerge_cap (transformedFiles : list (TransformedFile B))
  (unifiedHeaders : list string) (options : MergeOptions) (limit : Z)
  (uncapped : list (list (cell B))) (st : Stats) :
  performMerge transformedFiles unifiedHeaders (withMaxRows options None)
  = Ok (uncapped, st) ->
  limit <> 0%Z -> (limit < Z.of_nat (List.length uncapped))%Z ->
  performMerge transformedFiles unifiedHeaders (withMaxRows options (Some limit))
  = Ok (slice0 uncapped limit,
        {| totalRows := totalRows st;
           mergedRows := Z.of_nat (List.length (slice0 uncapped limit));
           droppedRows := droppedRows st + (totalRows st - limit);
           duplicateRows := duplicateRows st;
           nullValues := nullValues st |}).
Proof.
  unfold performMerge, withMaxRows, joinKey_given. cbn [joinType joinKey
    handleDuplicates_option maxRows].
  intros Hrun Hnz Hlt.
  match type of Hrun with
  | bind ?first _ = _ => destruct first as [state|message]; [|discriminate]
  end.
  cbn [bind] in *.
  destruct (handleDuplicates_option options);
    try (destruct (handleDuplicates (mergedData state) _) as [deduped duplicates]);
    injection Hrun as <- <-; cbn [totalRows droppedRows duplicateRows nullValues];
    destruct (Z.eqb_spec limit 0); try contradiction;
    apply Z.ltb_lt in Hlt; rewrite Hlt; reflexivity.
Qed.

(** The result of a merge that threw: the message, no rows, no headers,
    zeroed statistics. *)
Lemma failedMerge_shape (clock : Clock) (files : list (ProcessedFile B))
  (ws : list string) (message : string) :
  let r := failedMerge clock files ws message in
  errors r = [message] /\ warnings r = ws
  /\ dataset_headers (dataset r) = [] /\ data (dataset r) = []
  /\ dataset_columnTypes (dataset r) = [] /\ dataset_rowCount (dataset r) = 0%nat
  /\ stats r = zeroStats.
Proof. repeat split. Qed.

(** C5.  [mergeFiles] is a total function to a [MergeResult]: whatever the
    [try] block throws, its own errors or an exception of a transformation,
    comes back as the failed-merge result carrying the message.  An empty
    file list and an empty mapping list are the first two such errors. *)
Theorem mergeFiles_never_raises (clock : Clock) (files : list (ProcessedFile B))
  (mappings : list (ColumnMapping B)) (options : MergeOptions) :
  let r := mergeFiles clock files mappings options in
  ((exists ws, tryMerge clock files mappings options = (ws, Ok r) /\ errors r = [])
   \/ (exists ws message,
         tryMerge clock files mappings options = (ws, Throw message)
         /\ r = failedMerge clock files ws message
         /\ errors r = [message]
         /\ dataset_headers (dataset r) = [] /\ data (dataset r) = []
         /\ dataset_rowCount (dataset r) = 0%nat /\ stats r = zeroStats))
  /\ mergeFiles clock [] mappings options
     = failedMerge clock [] [] "No files provided for merging"
  /\ (forall file,
        mergeFiles clock (file :: files) [] options
        = failedMerge clock (file :: files) [] "No column mappings provided").
Proof.
  cbv zeta. split; [|split; [reflexivity | intros file; reflexivity]].
  unfold mergeFiles.
  destruct (tryMerge clock files mappings options) as [ws [ok|message]] eqn:Htry.
  - left. exists ws. split; [reflexivity|].
    unfold tryMerge in Htry.
    destruct files as [|f fs]; [discriminate|].
    destruct mappings as [|m ms]; [discriminate|].
    destruct (transformFiles (f :: fs) (m :: ms) [] []) as [ws' [tfs|msg]];
      [|discriminate].
    cbn [bind] in Htry. destruct tfs as [|tf tfs]; [discriminate|].
    destruct (performMerge (tf :: tfs) _ options) as [merged|msg];
      [|discriminate].
    cbn [bind] in Htry. injection Htry as _ <-. reflexivity.
  - right. exists ws, message. repeat split.
Qed.

(** C9.  The wall clock is the only thing a merge reads besides its
    arguments, and it reaches the dataset's [id] and [createdAt] only: two
    merges of the same files, mappings and options, at any two times, agree
    on everything else. *)
Theorem mergeFiles_deterministic (clock1 clock2 : Clock)
  (files : list (ProcessedFile B)) (mappings : list (ColumnMapping B))
  (options : MergeOptions) :
  let r1 := mergeFiles clock1 files mappings options in
  let r2 := mergeFiles clock2 files mappings options in
  dataset_headers (dataset r1) = dataset_headers (dataset r2)
  /\ data (dataset r1) = data (dataset r2)
  /\ dataset_rowCount (dataset r1) = dataset_rowCount (dataset r2)
  /\ dataset_columnTypes (dataset r1) = dataset_columnTypes (dataset r2)
  /\ dataset_name (dataset r1) = dataset_name (dataset r2)
  /\ sourceFiles (dataset r1) = sourceFiles (dataset r2)
  /\ stats r1 = stats r2
  /\ warnings r1 = warnings r2
  /\ errors r1 = errors r2.
Proof.
  cbv zeta. unfold mergeFiles, tryMerge.
  destruct files as [|f fs]; [repeat split|].
  destruct mappings as [|m ms]; [repeat split|].
  destruct (transformFiles (f :: fs) (m :: ms) [] []) as [ws [tfs|msg]];
    [|repeat split].
  cbn [bind]. destruct tfs as [|tf tfs]; [repeat split|].
  destruct (performMerge (tf :: tfs) _ options) as [merged|msg];
    repeat split.
Qed.

End MergeFacts.

(* ================================================================== *)
(** ** The theorems at concrete inputs *)

Section Worked.
Import AsciiHost DataMerger Fixtures Examples.

(** C1 as stated fails: the example drops no row. *)
Lemma mergeFiles_inner_join_dropped_counterexample :
  dataset_rowCount
    (dataset (mergeFiles (B := host) clock joinFiles joinMappings
                (options Inner (Some "k") keep_first None))) = 1%nat
  /\ droppedRows
       (stats (mergeFiles (B := host) clock joinFiles joinMappings
                 (options Inner (Some "k") keep_first None))) = 0%Z
  /\ droppedRows
       (stats (mergeFiles (B := host) clock joinFiles joinMappings
                 (options Inner (Some "k") keep_first None))) <> 1%Z.
Proof. vm_compute. repeat split. discriminate. Qed.

(** C3 at a column of two nulls. *)
Lemma detectColumnTypes_all_null_witness :
  exists ct,
    nth_error (FileUtils.detectColumnTypes (B := host) ["c"] [[Null]; [Null]]) 0
    = Some ct
    /\ name ct = "c" /\ type ct = TString /\ confidence ct = 0%Q
    /\ nullCount ct = 2%Z.
Proof.
  apply (detectColumnTypes_all_null (B := host) ["c"] [[Null]; [Null]] 0).
  - reflexivity.
  - intros row [<-|[<-|[]]]; reflexivity.
Defined.

(** C4 at five strings and five numbers. *)
Lemma detectColumnTypes_mixed_witness :
  type (FileUtils.detectColumn tenValues 0 "c") = TMixed
  /\ confidence (FileUtils.detectColumn tenValues 0 "c") = (1 # 2)%Q.
Proof.
  apply (detectColumnTypes_mixed (B := host) ["c"] tenValues 0).
  - reflexivity.
  - vm_compute. lia.
  - vm_compute. reflexivity.
Defined.

(** C4 as stated fails at exactly five non-null values: three of five is
    below 0.8, and the column stays [string] with confidence 3/5. *)
Lemma detectColumnTypes_five_values_counterexample :
  List.length (FileUtils.columnData fiveValues 0) = 5%nat
  /\ Qlt_bool
       (ratio (snd (FileUtils.dominant
                      (FileUtils.typeCounts (FileUtils.columnData fiveValues 0))))
          (List.length (FileUtils.columnData fiveValues 0)))
       (8 # 10) = true
  /\ map (fun ct => (type ct, confidence ct))
       (FileUtils.detectColumnTypes ["c"] fiveValues) = [(TString, (3 # 5)%Q)].
Proof. vm_compute. repeat split. Qed.

(** C6 on a parsed file with the one header [a]. *)
Lemma validateMapping_reports_witness :
  In (MappingGenerator.sourceMissing "x")
    (MappingGenerator.validateMapping clashingMapping (file "orders" ["a"] []) None)
  /\ In (MappingGenerator.mappedTwice "id")
       (MappingGenerator.validateMapping clashingMapping (file "orders" ["a"] []) None).
Proof.
  destruct (proj2 (validateMapping_reports clashingMapping
                     (file (B := host) "orders" ["a"] []) None)
              _ eq_refl) as (Hsource & Htarget & _).
  split.
  - apply (Hsource (entry "x" "id")).
    + now left.
    + intros [H|[]]. discriminate H.
  - apply Htarget. vm_compute. lia.
Defined.

(** C6 as stated fails on a file whose processing failed: the duplicate
    target is not reported. *)
Lemma validateMapping_unparsed_counterexample :
  MappingGenerator.validateMapping clashingMapping (failedFile "orders") None
  = ["Source file has no parsed data"]
  /\ occurrences "id" (mappings clashingMapping) = 2%nat
  /\ ~ In (MappingGenerator.mappedTwice "id")
         (MappingGenerator.validateMapping clashingMapping (failedFile "orders") None).
Proof.
  split; [reflexivity|]. split; [reflexivity|].
  intros [H|[]]. vm_compute in H. discriminate H.
Qed.




(** The cap at three rows and a limit of two: one row goes, and the
    dropped count is the three input rows less two. *)
Lemma performMerge_cap_witness :
  performMerge threeRows ["n"]
    (withMaxRows (options Full None keep_first None) (Some 2%Z))
  = Ok ([[Str "a"]; [Str "b"]],
        {| totalRows := 3; mergedRows := 2; droppedRows := 1;
           duplicateRows := 0; nullValues := 0 |}).
Proof.
  apply (performMerge_cap (B := host) threeRows ["n"]
           (options Full None keep_first None) (limit := 2)
           (uncapped := [[Str "a"]; [Str "b"]; [Str "c"]])
           (st := {| totalRows := 3; mergedRows := 3; droppedRows := 0;
                     duplicateRows := 0; nullValues := 0 |})).
  - reflexivity.
  - discriminate.
  - vm_compute. reflexivity.
Defined.

(** The parse-time detector on a column of one null. *)
Lemma detectColumnTypes_never_unknown_witness :
  In (FileUtils.detectColumn (B := host) [[Null]] 0 "c")
    (FileUtils.detectColumnTypes ["c"] [[Null]])
  /\ type (FileUtils.detectColumn (B := host) [[Null]] 0 "c") <> TUnknown.
Proof.
  split; [now left|].
  apply (detectColumnTypes_never_unknown (B := host) ["c"] [[Null]]).
  now left.
Defined.

End Worked.

(** Such rows reach [handleDuplicates]: a file with a short row merges to a
    row that ends in [undefined], and the two strategies then report
    different null counts. *)
Lemma mergeFiles_ragged_rows {B : Builtins} (clock : DataMerger.Clock) :
  DataMerger.nullValues
    (DataMerger.stats
       (DataMerger.mergeFiles clock Examples.raggedFiles Examples.raggedMappings
          (Fixtures.options Full None DataMerger.merge_values None))) = 1%Z
  /\ DataMerger.nullValues
       (DataMerger.stats
          (DataMerger.mergeFiles clock Examples.raggedFiles Examples.raggedMappings
             (Fixtures.options Full None DataMerger.keep_last None))) = 0%Z.
Proof.
  destruct B. vm_compute.
  match goal with
  | |- context [match ?collate "a" "b" with _ => _ end] => destruct (collate "a" "b")
  end; split; reflexivity.
Qed.

(* ================================================================== *)
(** ** String distances *)

Lemma list_ascii_length (s : string) :
  List.length (list_ascii_of_string s) = String.length s.
Proof. induction s as [|c s IH]; simpl; congruence. Qed.

Lemma list_ascii_inj (s t : string) :
  list_ascii_of_string s = list_ascii_of_string t -> s = t.
Proof.
  intros H. rewrite <- (string_of_list_ascii_of_string s).
  rewrite <- (string_of_list_ascii_of_string t). now rewrite H.
Qed.

Lemma editDistance_nil_r (a : list ascii) : editDistance a [] = List.length a.
Proof. now destruct a. Qed.

Lemma editDistance_nil_l (b : list ascii) : editDistance [] b = List.length b.
Proof. now destruct b. Qed.

Lemma editDistance_cons (x y : ascii) (a b : list ascii) :
  editDistance (x :: a) (y :: b)
  = if Ascii.eqb x y then editDistance a b
    else S (Nat.min (editDistance a b)
              (Nat.min (editDistance (x :: a) b) (editDistance a (y :: b)))).
Proof. reflexivity. Qed.

Lemma editDistance_same (a : list ascii) : editDistance a a = 0%nat.
Proof.
  induction a as [|x a IH]; [reflexivity|].
  now rewrite editDistance_cons, Ascii.eqb_refl.
Qed.

Lemma editDistance_sym (a b : list ascii) : editDistance a b = editDistance b a.
Proof.
  revert b. induction a as [|x a IHa]; intros b.
  - now rewrite editDistance_nil_r, editDistance_nil_l.
  - induction b as [|y b IHb]; [reflexivity|].
    rewrite !editDistance_cons, (Ascii.eqb_sym y x), IHb, !IHa.
    destruct (Ascii.eqb x y); [reflexivity|]. f_equal. lia.
Qed.

Lemma editDistance_bounds (a b : list ascii) :
  (editDistance a b <= Nat.max (List.length a) (List.length b)
   /\ List.length a <= editDistance a b + List.length b
   /\ List.length b <= editDistance a b + List.length a)%nat.
Proof.
  revert b. induction a as [|x a IHa]; intros b.
  - rewrite editDistance_nil_l. simpl. lia.
  - induction b as [|y b IHb]; [simpl; lia|].
    rewrite editDistance_cons. cbn [List.length].
    pose proof (IHa b). pose proof (IHa (y :: b)). cbn [List.length] in *.
    destruct (Ascii.eqb x y); lia.
Qed.

Lemma editDistance_zero (a b : list ascii) : editDistance a b = 0%nat -> a = b.
Proof.
  revert b. induction a as [|x a IHa]; intros [|y b]; simpl; try discriminate.
  - reflexivity.
  - destruct (Ascii.eqb x y) eqn:E; [|discriminate].
    apply Ascii.eqb_eq in E. subst y. intros H. f_equal. now apply IHa.
Qed.

Lemma distanceRow_nil (r1 rest : list ascii) :
  distanceRow [] r1 rest = seq (List.length r1) (S (List.length rest)).
Proof.
  revert r1. induction rest as [|c rest IH]; intros r1;
    cbn [distanceRow List.length seq]; rewrite editDistance_nil_l;
    [reflexivity|].
  f_equal. apply (IH (c :: r1)).
Qed.

Lemma distanceRow_last (r2 r1 rest : list ascii) :
  last (distanceRow r2 r1 rest) 0%nat = editDistance r2 (rev rest ++ r1).
Proof.
  revert r1. induction rest as [|c rest IH]; intros r1; [reflexivity|].
  cbn [distanceRow rev]. rewrite <- app_assoc. cbn [app].
  rewrite <- IH. now destruct rest.
Qed.

Lemma fillRow_distanceRow (c2 : ascii) (r2 r1 rest : list ascii) :
  TextMetrics.fillRow c2 rest (distanceRow r2 r1 rest) (editDistance (c2 :: r2) r1)
  = tl (distanceRow (c2 :: r2) r1 rest).
Proof.
  revert r1. induction rest as [|c1 rest IH]; intros r1; [reflexivity|].
  cbn [distanceRow TextMetrics.fillRow tl].
  destruct rest as [|c rest'] eqn:Hrest.
  - cbn [distanceRow TextMetrics.fillRow]. rewrite editDistance_cons.
    destruct (Ascii.eqb c2 c1); f_equal; lia.
  - rewrite <- Hrest in *.
    assert (Hrow : exists up above'',
               distanceRow r2 (c1 :: r1) rest = up :: above''
               /\ up = editDistance r2 (c1 :: r1)).
    { subst rest. cbn [distanceRow]. eauto. }
    destruct Hrow as (up & above'' & Hrow & Hup).
    rewrite Hrow. rewrite <- Hrow.
    replace (if Ascii.eqb c2 c1 then editDistance r2 r1
             else Nat.min (editDistance r2 r1 + 1)
                    (Nat.min (editDistance (c2 :: r2) r1 + 1) (up + 1)))
      with (editDistance (c2 :: r2) (c1 :: r1)).
    2:{ rewrite editDistance_cons, Hup. destruct (Ascii.eqb c2 c1); lia. }
    rewrite IH. subst rest. reflexivity.
Qed.

Lemma fillMatrix_distanceRow (str1 r2 str2 : list ascii) :
  TextMetrics.fillMatrix str1 (distanceRow r2 [] str1) (S (List.length r2)) str2
  = distanceRow (rev str2 ++ r2) [] str1.
Proof.
  revert r2. induction str2 as [|c2 rest IH]; intros r2; [reflexivity|].
  cbn [TextMetrics.fillMatrix rev]. rewrite <- app_assoc. cbn [app].
  rewrite <- (IH (c2 :: r2)). f_equal.
  change (S (List.length r2)) with (editDistance (c2 :: r2) []).
  rewrite fillRow_distanceRow. now destruct str1.
Qed.

(** The matrix computes the edit distance of the two strings. *)
Lemma levenshteinDistance_editDistance (str1 str2 : string) :
  TextMetrics.levenshteinDistance str1 str2
  = editDistance (rev (list_ascii_of_string str2)) (rev (list_ascii_of_string str1)).
Proof.
  unfold TextMetrics.levenshteinDistance. cbv zeta.
  change (seq 0 (S (List.length (list_ascii_of_string str1))))
    with (seq (List.length (@nil ascii)) (S (List.length (list_ascii_of_string str1)))).
  rewrite <- (distanceRow_nil [] (list_ascii_of_string str1)).
  change 1%nat with (S (List.length (@nil ascii))).
  rewrite (fillMatrix_distanceRow _ [] _), distanceRow_last, !app_nil_r.
  reflexivity.
Qed.

(** [levenshteinDistance] is zero on equal strings and on no others. *)
Lemma levenshteinDistance_zero_iff (str1 str2 : string) :
  TextMetrics.levenshteinDistance str1 str2 = 0%nat <-> str1 = str2.
Proof.
  rewrite levenshteinDistance_editDistance. split.
  - intros H. apply editDistance_zero in H.
    apply (f_equal (@rev ascii)) in H. rewrite !rev_involutive in H.
    symmetry. now apply list_ascii_inj.
  - intros ->. apply editDistance_same.
Qed.

(** [levenshteinDistance] lies between the difference of the two lengths
    and the longer length; against the empty string it is the length. *)
Lemma levenshteinDistance_bounds (str1 str2 : string) :
  (TextMetrics.levenshteinDistance str1 str2
   <= Nat.max (String.length str1) (String.length str2)
   /\ String.length str1 <= TextMetrics.levenshteinDistance str1 str2 + String.length str2
   /\ String.length str2 <= TextMetrics.levenshteinDistance str1 str2 + String.length str1
   /\ TextMetrics.levenshteinDistance str1 "" = String.length str1
   /\ TextMetrics.levenshteinDistance "" str2 = String.length str2)%nat.
Proof.
  rewrite !levenshteinDistance_editDistance.
  pose proof (editDistance_bounds (rev (list_ascii_of_string str2))
                (rev (list_ascii_of_string str1))) as H.
  rewrite !length_rev, !list_ascii_length in H.
  repeat split; try lia.
  - cbn [list_ascii_of_string rev]. rewrite editDistance_nil_l, length_rev.
    apply list_ascii_length.
  - cbn [list_ascii_of_string rev]. rewrite editDistance_nil_r, length_rev.
    apply list_ascii_length.
Qed.

(** [levenshteinDistance] does not depend on the order of its arguments. *)
Lemma levenshteinDistance_sym (str1 str2 : string) :
  TextMetrics.levenshteinDistance str1 str2 = TextMetrics.levenshteinDistance str2 str1.
Proof. rewrite !levenshteinDistance_editDistance. apply editDistance_sym. Qed.

(** [levenshteinDistance] computes a distance between strings: it is zero
    on equal strings and on no others; it does not depend on the order of
    its arguments; it is at least the difference of the two lengths and at
    most the longer length; and against the empty string it is the length
    of the other string. *)
Theorem levenshteinDistance_metric (str1 str2 : string) :
  (TextMetrics.levenshteinDistance str1 str2 = 0%nat <-> str1 = str2)
  /\ TextMetrics.levenshteinDistance str1 str2
     = TextMetrics.levenshteinDistance str2 str1
  /\ (TextMetrics.levenshteinDistance str1 str2
      <= Nat.max (String.length str1) (String.length str2))%nat
  /\ (String.length str1
      <= TextMetrics.levenshteinDistance str1 str2 + String.length str2)%nat
  /\ (String.length str2
      <= TextMetrics.levenshteinDistance str1 str2 + String.length str1)%nat
  /\ TextMetrics.levenshteinDistance str1 "" = String.length str1
  /\ TextMetrics.levenshteinDistance "" str2 = String.length str2.
Proof.
  split; [apply levenshteinDistance_zero_iff|].
  split; [apply levenshteinDistance_sym|].
  apply levenshteinDistance_bounds.
Qed.

(** [calculateSimilarity] of a string with itself is 1, and the score does
    not depend on the order of the two strings. *)
Theorem calculateSimilarity_same_sym {B : Builtins} (str1 str2 : string) :
  (TextMetrics.calculateSimilarity str1 str1 == 1)%Q
  /\ TextMetrics.calculateSimilarity str1 str2
     = TextMetrics.calculateSimilarity str2 str1.
Proof.
  unfold TextMetrics.calculateSimilarity. split.
  - rewrite Nat.max_id.
    destruct (Nat.eqb_spec (String.length str1) 0) as [_|Hlen]; [reflexivity|].
    rewrite (proj2 (levenshteinDistance_zero_iff _ _) eq_refl).
    rewrite Z.sub_0_r. apply Qmult_inv_r.
    intros H0. unfold Qeq in H0. simpl in H0. lia.
  - now rewrite (Nat.max_comm (String.length str2)), (levenshteinDistance_sym
                  (toLowerCase str2)).
Qed.

(** When lower-casing keeps the length of the two strings,
    [calculateSimilarity] lies between 0 and 1. *)
Theorem calculateSimilarity_range {B : Builtins} (str1 str2 : string) :
  String.length (toLowerCase str1) = String.length str1 ->
  String.length (toLowerCase str2) = String.length str2 ->
  (0 <= TextMetrics.calculateSimilarity str1 str2
   /\ TextMetrics.calculateSimilarity str1 str2 <= 1)%Q.
Proof.
  intros H1 H2. unfold TextMetrics.calculateSimilarity.
  set (n := Nat.max (String.length str1) (String.length str2)).
  destruct (Nat.eqb_spec n 0) as [_|Hn]; [split; [discriminate | apply Qle_refl]|].
  pose proof (levenshteinDistance_bounds (toLowerCase str1) (toLowerCase str2))
    as (Hle & _).
  rewrite H1, H2 in Hle. fold n in Hle.
  set (d := TextMetrics.levenshteinDistance (toLowerCase str1) (toLowerCase str2)) in *.
  assert (Hpos : (0 < inject_Z (Z.of_nat n))%Q).
  { unfold Qlt. simpl. lia. }
  split.
  - apply Qle_shift_div_l; [exact Hpos|]. rewrite Qmult_0_l.
    unfold Qle. simpl. lia.
  - apply Qle_shift_div_r; [exact Hpos|]. rewrite Qmult_1_l.
    unfold Qle. simpl. lia.
Qed.

Lemma commonLength_nil_l (b : list ascii) : commonLength [] b = 0%nat.
Proof. now destruct b. Qed.

Lemma commonLength_nil_r (a : list ascii) : commonLength a [] = 0%nat.
Proof. now destruct a. Qed.

Lemma commonLength_cons (x y : ascii) (a b : list ascii) :
  commonLength (x :: a) (y :: b)
  = if Ascii.eqb x y then S (commonLength a b)
    else Nat.max (commonLength a (y :: b)) (commonLength (x :: a) b).
Proof. reflexivity. Qed.

Lemma commonLength_same (a : list ascii) : commonLength a a = List.length a.
Proof.
  induction a as [|x a IH]; [reflexivity|].
  rewrite commonLength_cons, Ascii.eqb_refl. simpl. congruence.
Qed.

Lemma commonLength_sym (a b : list ascii) : commonLength a b = commonLength b a.
Proof.
  revert b. induction a as [|x a IHa]; intros b.
  - now rewrite commonLength_nil_r, commonLength_nil_l.
  - induction b as [|y b IHb]; [reflexivity|].
    rewrite !commonLength_cons, (Ascii.eqb_sym y x), IHb, !IHa.
    destruct (Ascii.eqb x y); [reflexivity|]. lia.
Qed.

Lemma commonLength_bound (a b : list ascii) :
  (commonLength a b <= Nat.min (List.length a) (List.length b))%nat.
Proof.
  revert b. induction a as [|x a IHa]; intros b.
  - rewrite commonLength_nil_l. lia.
  - induction b as [|y b IHb]; [simpl; lia|].
    rewrite commonLength_cons. cbn [List.length].
    pose proof (IHa b). pose proof (IHa (y :: b)). cbn [List.length] in *.
    destruct (Ascii.eqb x y); lia.
Qed.

Lemma commonRow_nil (r2 rest : list ascii) :
  commonRow [] r2 rest = repeat 0%nat (S (List.length rest)).
Proof.
  revert r2. induction rest as [|c rest IH]; intros r2;
    cbn [commonRow List.length repeat]; rewrite commonLength_nil_l;
    [reflexivity|].
  f_equal. apply (IH (c :: r2)).
Qed.

Lemma commonRow_last (r1 r2 rest : list ascii) :
  last (commonRow r1 r2 rest) 0%nat = commonLength r1 (rev rest ++ r2).
Proof.
  revert r2. induction rest as [|c rest IH]; intros r2; [reflexivity|].
  cbn [commonRow rev]. rewrite <- app_assoc. cbn [app].
  rewrite <- IH. now destruct rest.
Qed.

Lemma fillCommon_commonRow (c1 : ascii) (r1 r2 rest : list ascii) :
  TextMetrics.fillCommon c1 rest (commonRow r1 r2 rest) (commonLength (c1 :: r1) r2)
  = tl (commonRow (c1 :: r1) r2 rest).
Proof.
  revert r2. induction rest as [|c2 rest IH]; intros r2; [reflexivity|].
  cbn [commonRow TextMetrics.fillCommon tl].
  destruct rest as [|c rest'] eqn:Hrest.
  - cbn [commonRow TextMetrics.fillCommon]. rewrite commonLength_cons.
    destruct (Ascii.eqb c1 c2); f_equal; lia.
  - rewrite <- Hrest in *.
    assert (Hrow : exists up above'',
               commonRow r1 (c2 :: r2) rest = up :: above''
               /\ up = commonLength r1 (c2 :: r2)).
    { subst rest. cbn [commonRow]. eauto. }
    destruct Hrow as (up & above'' & Hrow & Hup).
    rewrite Hrow. rewrite <- Hrow.
    replace (if Ascii.eqb c1 c2 then (commonLength r1 r2 + 1)%nat
             else Nat.max up (commonLength (c1 :: r1) r2))
      with (commonLength (c1 :: r1) (c2 :: r2)).
    2:{ rewrite commonLength_cons, Hup. destruct (Ascii.eqb c1 c2); lia. }
    rewrite IH. subst rest. reflexivity.
Qed.

Lemma fillTable_commonRow (str2 r1 str1 : list ascii) :
  TextMetrics.fillTable str2 (commonRow r1 [] str2) str1
  = commonRow (rev str1 ++ r1) [] str2.
Proof.
  revert r1. induction str1 as [|c1 rest IH]; intros r1; [reflexivity|].
  cbn [TextMetrics.fillTable rev]. rewrite <- app_assoc. cbn [app].
  rewrite <- (IH (c1 :: r1)). f_equal.
  change 0%nat with (commonLength (c1 :: r1) []) at 1 2.
  rewrite fillCommon_commonRow. now destruct str2.
Qed.

(** The table computes the length of a longest common subsequence. *)
Lemma longestCommonSubsequence_commonLength (str1 str2 : string) :
  TextMetrics.longestCommonSubsequence str1 str2
  = commonLength (rev (list_ascii_of_string str1)) (rev (list_ascii_of_string str2)).
Proof.
  unfold TextMetrics.longestCommonSubsequence. cbv zeta.
  rewrite <- (commonRow_nil [] (list_ascii_of_string str2)).
  rewrite (fillTable_commonRow _ [] _), commonRow_last, !app_nil_r.
  reflexivity.
Qed.

(** [longestCommonSubsequence] of a string with itself is its length; of
    two strings it is at most the shorter length, it is 0 against the empty
    string, and it does not depend on the order of the two strings. *)
Theorem longestCommonSubsequence_properties (str1 str2 : string) :
  TextMetrics.longestCommonSubsequence str1 str1 = String.length str1
  /\ (TextMetrics.longestCommonSubsequence str1 str2
      <= Nat.min (String.length str1) (String.length str2))%nat
  /\ TextMetrics.longestCommonSubsequence str1 "" = 0%nat
  /\ TextMetrics.longestCommonSubsequence str1 str2
     = TextMetrics.longestCommonSubsequence str2 str1.
Proof.
  rewrite !longestCommonSubsequence_commonLength.
  pose proof (commonLength_bound (rev (list_ascii_of_string str1))
                (rev (list_ascii_of_string str2))) as H.
  rewrite !length_rev, !list_ascii_length in H.
  repeat split.
  - rewrite commonLength_same, length_rev. apply list_ascii_length.
  - exact H.
  - cbn [list_ascii_of_string rev]. apply commonLength_nil_r.
  - apply commonLength_sym.
Qed.

(* ================================================================== *)
(** ** Type compatibility *)

(** [areTypesCompatible] holds exactly for: a type with itself; any source
    with the target [mixed] or [unknown]; the source [mixed] or [unknown]
    with any target; [number], [date] and [boolean] to [string]; and
    [boolean] to [number].  In particular [string] is compatible with none
    of [number], [date], [boolean], while each of them is with [string]. *)
Theorem areTypesCompatible_cases (sourceType targetType : DataType) :
  DataTypeDetector.areTypesCompatible sourceType targetType = true
  <-> (sourceType = targetType
       \/ targetType = TMixed \/ targetType = TUnknown
       \/ sourceType = TMixed \/ sourceType = TUnknown
       \/ (targetType = TString
           /\ (sourceType = TNumber \/ sourceType = TDate \/ sourceType = TBoolean))
       \/ (sourceType = TBoolean /\ targetType = TNumber)).
Proof.
  destruct sourceType, targetType; vm_compute; intuition congruence.
Qed.

(** [getConversionConfidence] is 1 on a type with itself and on no other
    pair, lies between 0.3 and 1, and is the default 0.3 on every pair that
    [areTypesCompatible] rejects. *)
Theorem getConversionConfidence_compatible (sourceType targetType : DataType) :
  ((DataTypeDetector.getConversionConfidence sourceType targetType == 1)%Q
   <-> sourceType = targetType)
  /\ (3 # 10 <= DataTypeDetector.getConversionConfidence sourceType targetType)%Q
  /\ (DataTypeDetector.getConversionConfidence sourceType targetType <= 1)%Q
  /\ (DataTypeDetector.areTypesCompatible sourceType targetType = true
      \/ DataTypeDetector.getConversionConfidence sourceType targetType = 3 # 10).
Proof.
  destruct sourceType, targetType; vm_compute; intuition discriminate.
Qed.

(** [getRecommendedTransform] answers [date_format] exactly for [date] to
    [string] and [number_format] exactly for [number] to [string], and
    [none] otherwise; the two pairs are ones [areTypesCompatible] accepts.
    [suggestTransformation] answers [null] exactly on a type with itself. *)
Theorem getRecommendedTransform_cases (sourceType targetType : DataType) :
  (DataTypeDetector.getRecommendedTransform sourceType targetType = date_format
   <-> sourceType = TDate /\ targetType = TString)
  /\ (DataTypeDetector.getRecommendedTransform sourceType targetType = number_format
      <-> sourceType = TNumber /\ targetType = TString)
  /\ (DataTypeDetector.getRecommendedTransform sourceType targetType = none
      \/ DataTypeDetector.areTypesCompatible sourceType targetType = true)
  /\ DataTypeDetector.getRecommendedTransform sourceType targetType <> uppercase
  /\ DataTypeDetector.getRecommendedTransform sourceType targetType <> lowercase
  /\ (DataTypeDetector.suggestTransformation sourceType targetType = None
      <-> sourceType = targetType).
Proof.
  destruct sourceType, targetType; vm_compute; intuition congruence.
Qed.

(* ================================================================== *)
(** ** Delimiters and default headers *)

Lemma occurrencesOf_length (c : ascii) (sample : string) :
  (FileParsing.occurrencesOf c sample <= String.length sample)%nat.
Proof.
  induction sample as [|d rest IH]; simpl; [lia|].
  destruct (Ascii.eqb c d); lia.
Qed.

(** [detectDelimiter] answers the bar for every sample: as a pattern the
    bar matches the empty string at every position, one more time than the
    sample is long, which no count of a character can reach. *)
Theorem detectDelimiter_always_bar (sample : string) :
  FileParsing.detectDelimiter sample = "|".
Proof.
  unfold FileParsing.detectDelimiter, FileParsing.delimiters, FileParsing.tab.
  pose proof (occurrencesOf_length "," sample) as H1.
  pose proof (occurrencesOf_length ";" sample) as H2.
  pose proof (occurrencesOf_length (ascii_of_nat 9) sample) as H3.
  cbn [fold_left]. unfold FileParsing.matchCount.
  change (Ascii.eqb "," "|") with false.
  change (Ascii.eqb ";" "|") with false.
  change (Ascii.eqb (ascii_of_nat 9) "|") with false.
  change (Ascii.eqb "|" "|") with true. cbv iota.
  set (c1 := FileParsing.occurrencesOf "," sample) in *.
  set (c2 := FileParsing.occurrencesOf ";" sample) in *.
  set (c3 := FileParsing.occurrencesOf (ascii_of_nat 9) sample) in *.
  set (n := String.length sample) in *.
  cbn [fst snd].
  destruct (Nat.ltb_spec 0 c1); cbn [fst snd];
    [destruct (Nat.ltb_spec c1 c2) | destruct (Nat.ltb_spec 0 c2)]; cbn [fst snd];
    match goal with
    | |- context [(?a <? c3)%nat] => destruct (Nat.ltb_spec a c3); cbn [fst snd]
    end;
    match goal with
    | |- context [(?a <? S n)%nat] =>
        destruct (Nat.ltb_spec a (S n)); [reflexivity | lia]
    end.
Qed.

Lemma String_of_nat_inj (n m : nat) : String_of_nat n = String_of_nat m -> n = m.
Proof.
  unfold String_of_nat. intros H.
  apply (f_equal NilZero.uint_of_string) in H.
  assert (Hnil : forall k, Nat.to_uint k <> Decimal.Nil).
  { intros k Hk.
    assert (k = 0%nat) as ->.
    { rewrite <- (DecimalNat.Unsigned.of_to k), Hk. reflexivity. }
    discriminate Hk. }
  rewrite !NilZero.usu in H by apply Hnil.
  injection H as H. now apply DecimalNat.Unsigned.to_uint_inj.
Qed.

(** [generateHeaders] gives as many headers as asked, the [i]-th one named
    after [i + 1], and no two of them alike. *)
Theorem generateHeaders_distinct (columnCount : nat) :
  List.length (FileParsing.generateHeaders columnCount) = columnCount
  /\ NoDup (FileParsing.generateHeaders columnCount)
  /\ (forall i, nth_error (FileParsing.generateHeaders columnCount) i
                = if (i <? columnCount)%nat
                  then Some ("Column " ++ String_of_nat (i + 1))%string
                  else None).
Proof.
  unfold FileParsing.generateHeaders. split; [|split].
  - now rewrite length_map, length_seq.
  - apply Injective_map_NoDup; [|apply seq_NoDup].
    intros i j H. simpl in H. injection H as H.
    apply String_of_nat_inj in H. lia.
  - intros i. rewrite nth_error_map.
    destruct (Nat.ltb_spec i columnCount) as [Hlt|Hge].
    + rewrite nth_error_seq. apply Nat.ltb_lt in Hlt. now rewrite Hlt.
    + rewrite (proj2 (nth_error_None _ _)); [reflexivity|].
      now rewrite length_seq.
Qed.

(* ================================================================== *)
(** ** The unified schema *)

Section SortFacts.
Context {A : Type} (compareFn : A -> A -> Z).

Lemma sort_insert_Permutation (x : A) (xs : list A) :
  Permutation (sort_insert compareFn x xs) (x :: xs).
Proof.
  induction xs as [|y rest IH]; simpl; [reflexivity|].
  destruct (compareFn x y <=? 0)%Z; [reflexivity|].
  rewrite IH. apply perm_swap.
Qed.

Lemma sort_Permutation (xs : list A) : Permutation (sort compareFn xs) xs.
Proof.
  induction xs as [|x rest IH]; simpl; [reflexivity|].
  rewrite sort_insert_Permutation. now constructor.
Qed.

(** The sort orders by any transitive relation the comparator decides. *)
Lemma sort_StronglySorted (R : A -> A -> Prop) (xs : list A) :
  (forall x y z, R x y -> R y z -> R x z) ->
  (forall x y, (compareFn x y <= 0)%Z -> R x y) ->
  (forall x y, (0 < compareFn x y)%Z -> R y x) ->
  StronglySorted R (sort compareFn xs).
Proof.
  intros Htrans Hle Hgt.
  assert (Hinsert : forall x sorted, StronglySorted R sorted ->
                                     StronglySorted R (sort_insert compareFn x sorted)).
  { intros x sorted. induction 1 as [|y rest Hrest IH Hall]; simpl.
    - repeat constructor.
    - destruct (Z.leb_spec (compareFn x y) 0) as [Hc|Hc].
      + constructor; [now constructor|]. constructor; [now apply Hle|].
        eapply Forall_impl; [|exact Hall]. intros z Hz.
        eapply Htrans; [apply Hle; exact Hc | exact Hz].
      + constructor; [exact IH|].
        eapply Permutation_Forall; [symmetry; apply sort_insert_Permutation|].
        constructor; [now apply Hgt | exact Hall]. }
  induction xs as [|x rest IH]; simpl; [constructor | now apply Hinsert].
Qed.

End SortFacts.

Lemma fold_left_concat {A C} (f : A -> C -> A) (ls : list (list C)) (a : A) :
  fold_left (fun acc l => fold_left f l acc) ls a = fold_left f (List.concat ls) a.
Proof.
  revert a. induction ls as [|l rest IH]; intros a; simpl; [reflexivity|].
  now rewrite IH, fold_left_app.
Qed.


Section SchemaFacts.
Context {B : Builtins}.
Import DataMerger.

(** The body of the inner loop of [columnCounts]. *)
Local Abbreviation countColumn :=
  (fun (counts : list (string * nat)) (column : string) =>
     Map_set String.eqb counts column
       (match Map_get String.eqb counts column with
        | Some c => c
        | None => 0%nat
        end + 1)%nat).

Lemma countColumn_get (columns : list string) (counts : list (string * nat))
  (column : string) :
  Map_get String.eqb (fold_left countColumn columns counts) column
  = match Map_get String.eqb counts column with
    | Some c => Some (c + count_occ string_dec columns column)%nat
    | None =>
        if (count_occ string_dec columns column =? 0)%nat then None
        else Some (count_occ string_dec columns column)
    end.
Proof.
  revert counts. induction columns as [|x rest IH]; intros counts.
  - simpl. destruct (Map_get String.eqb counts column); [f_equal; lia | reflexivity].
  - cbn [fold_left]. rewrite IH, (Map_get_set String.eqb String.eqb_eq).
    cbn [count_occ]. destruct (string_dec x column) as [->|Hne].
    + rewrite String.eqb_refl.
      destruct (Map_get String.eqb counts column); cbn [Nat.eqb]; f_equal; lia.
    + rewrite (proj2 (String.eqb_neq column x)) by congruence. reflexivity.
Qed.

Lemma countColumn_keys (columns : list string) (counts : list (string * nat)) :
  Map_keys (fold_left countColumn columns counts)
  = fold_left (Set_add String.eqb) columns (Map_keys counts).
Proof.
  revert counts. induction columns as [|x rest IH]; intros counts;
    [reflexivity|].
  cbn [fold_left]. now rewrite IH, (Map_keys_set String.eqb).
Qed.

Lemma columnCounts_flat (schemas : list (list string)) :
  columnCounts schemas = fold_left countColumn (List.concat schemas) [].
Proof. unfold columnCounts. apply fold_left_concat. Qed.

Lemma countOf_columnCounts (schemas : list (list string)) (column : string) :
  countOf (columnCounts schemas) column
  = Z.of_nat (count_occ string_dec (List.concat schemas) column).
Proof.
  unfold countOf. rewrite columnCounts_flat, countColumn_get. simpl.
  destruct (Nat.eqb_spec (count_occ string_dec (List.concat schemas) column) 0);
    [lia | reflexivity].
Qed.

(** [createUnifiedSchema] lists every header of every schema exactly once,
    a header that occurs more often before one that occurs less often. *)
Theorem createUnifiedSchema_properties (schemas : list (list string)) :
  NoDup (createUnifiedSchema schemas)
  /\ (forall header, In header (createUnifiedSchema schemas)
                     <-> exists schema, In schema schemas /\ In header schema)
  /\ StronglySorted
       (fun a b => (count_occ string_dec (List.concat schemas) b
                    <= count_occ string_dec (List.concat schemas) a)%nat)
       (createUnifiedSchema schemas).
Proof.
  unfold createUnifiedSchema. cbv zeta.
  assert (Hkeys : Map_keys (columnCounts schemas)
                  = Set_from String.eqb (List.concat schemas)).
  { rewrite columnCounts_flat. apply countColumn_keys. }
  split; [|split].
  - eapply Permutation_NoDup; [symmetry; apply sort_Permutation|].
    rewrite Hkeys. apply Set_from_NoDup, String.eqb_eq.
  - intros header. split.
    + intros Hin. apply (Permutation_in _ (sort_Permutation _ _)) in Hin.
      rewrite Hkeys in Hin.
      apply (proj1 (Set_from_In String.eqb String.eqb_eq _ _)) in Hin.
      apply in_concat in Hin. destruct Hin as (schema & H1 & H2). eauto.
    + intros (schema & H1 & H2).
      apply (Permutation_in _ (Permutation_sym (sort_Permutation _ _))).
      rewrite Hkeys. apply (proj2 (Set_from_In String.eqb String.eqb_eq _ _)).
      apply in_concat. eauto.
  - apply sort_StronglySorted.
    + intros x y z Hxy Hyz. lia.
    + intros x y. rewrite !countOf_columnCounts.
      destruct (Z.eqb_spec (Z.of_nat (count_occ string_dec (List.concat schemas) y)
                            - Z.of_nat (count_occ string_dec (List.concat schemas) x)) 0);
        cbn [negb]; lia.
    + intros x y. rewrite !countOf_columnCounts.
      destruct (Z.eqb_spec (Z.of_nat (count_occ string_dec (List.concat schemas) y)
                            - Z.of_nat (count_occ string_dec (List.concat schemas) x)) 0);
        cbn [negb]; lia.
Qed.

End SchemaFacts.

(* ================================================================== *)
(** ** Projection of rows: transformation and alignment *)

Lemma fold_left_ext {A C} (f g : A -> C -> A) (xs : list C) (a : A) :
  (forall acc x, f acc x = g acc x) -> fold_left f xs a = fold_left g xs a.
Proof.
  intros H. revert a. induction xs as [|x rest IH]; intros a; simpl;
    [reflexivity|]. now rewrite H, IH.
Qed.

Lemma enumerate_In {A} (xs : list A) (i : nat) (x : A) :
  In (i, x) (enumerate xs) <-> nth_error xs i = Some x.
Proof.
  unfold enumerate. split.
  - intros Hin. apply In_nth_error in Hin. destruct Hin as [k Hk].
    rewrite nth_error_mapi in Hk.
    destruct (nth_error xs k) as [y|] eqn:Hy; [|discriminate].
    injection Hk as <- <-. exact Hy.
  - intros Hnth. apply (nth_error_In _ i). rewrite nth_error_mapi, Hnth.
    reflexivity.
Qed.

Lemma indexOf_from_Some (xs : list string) (x : string) (start k : nat) :
  indexOf_from start xs x = Some k ->
  (start <= k)%nat /\ nth_error xs (k - start) = Some x.
Proof.
  revert start. induction xs as [|y rest IH]; intros start; simpl;
    [discriminate|].
  destruct (String.eqb y x) eqn:E.
  - intros [= <-]. apply String.eqb_eq in E. subst y.
    rewrite Nat.sub_diag. auto.
  - intros H. apply IH in H. destruct H as [Hle Hnth]. split; [lia|].
    replace (k - start)%nat with (S (k - S start)) by lia. exact Hnth.
Qed.

Lemma indexOf_from_None (xs : list string) (x : string) (start : nat) :
  indexOf_from start xs x = None -> ~ In x xs.
Proof.
  revert start. induction xs as [|y rest IH]; intros start; simpl; [tauto|].
  destruct (String.eqb y x) eqn:E; [discriminate|].
  intros H [Hy|Hin]; [|exact (IH _ H Hin)].
  subst y. rewrite String.eqb_refl in E. discriminate.
Qed.

(** Among distinct headers [indexOf] finds the position of each. *)
Lemma indexOf_NoDup (xs : list string) (x : string) (i : nat) :
  NoDup xs -> nth_error xs i = Some x -> indexOf xs x = Some i.
Proof.
  intros Hnd Hnth. unfold indexOf.
  destruct (indexOf_from 0 xs x) as [k|] eqn:Hk.
  - apply indexOf_from_Some in Hk. destruct Hk as [_ Hk].
    rewrite Nat.sub_0_r in Hk. f_equal.
    apply (proj1 (NoDup_nth_error xs) Hnd); [|congruence].
    apply nth_error_Some. congruence.
  - apply indexOf_from_None in Hk. exfalso. apply Hk.
    eapply nth_error_In. exact Hnth.
Qed.

Lemma indexMap_fill (headers : list string) :
  DataTransformer.indexMap headers
  = Map_fill String.eqb (fun entry : nat * string => snd entry)
      (fun entry => fst entry) [] (enumerate headers).
Proof.
  unfold DataTransformer.indexMap, Map_fill. apply fold_left_ext.
  intros acc [index header]. reflexivity.
Qed.

(** Among distinct headers the index map is [indexOf]. *)
Lemma indexMap_indexOf (headers : list string) (header : string) :
  NoDup headers ->
  Map_get String.eqb (DataTransformer.indexMap headers) header
  = indexOf headers header.
Proof.
  intros Hnd. rewrite indexMap_fill.
  rewrite (fill_get String.eqb String.eqb_eq). cbn [Map_get].
  destruct (find (fun x : nat * string => String.eqb header (snd x))
              (rev (enumerate headers))) as [[i h]|] eqn:Hfind.
  - apply find_some in Hfind. destruct Hfind as [Hin Heq].
    apply in_rev in Hin. apply enumerate_In in Hin.
    cbn [snd] in Heq. apply String.eqb_eq in Heq. subst h. cbn [fst].
    symmetry. now apply indexOf_NoDup.
  - destruct (indexOf headers header) as [k|] eqn:Hk; [|reflexivity].
    apply indexOf_from_Some in Hk. destruct Hk as [_ Hk].
    rewrite Nat.sub_0_r in Hk. apply enumerate_In in Hk.
    apply in_rev in Hk.
    pose proof (find_none _ _ Hfind _ Hk) as Hno. cbn [snd] in Hno.
    rewrite String.eqb_refl in Hno. discriminate.
Qed.

(** A header that is not among the headers has no index. *)
Lemma indexMap_absent (headers : list string) (header : string) :
  ~ In header headers ->
  Map_get String.eqb (DataTransformer.indexMap headers) header = None.
Proof.
  intros Hnot. rewrite indexMap_fill.
  rewrite (fill_get String.eqb String.eqb_eq). cbn [Map_get].
  destruct (find (fun x : nat * string => String.eqb header (snd x))
              (rev (enumerate headers))) as [[i h]|] eqn:Hfind; [|reflexivity].
  apply find_some in Hfind. destruct Hfind as [Hin Heq].
  apply in_rev in Hin. apply enumerate_In in Hin.
  cbn [snd] in Heq. apply String.eqb_eq in Heq. subst h.
  exfalso. apply Hnot. eapply nth_error_In. exact Hin.
Qed.

Lemma mapM_Ok {A C} (f : A -> result C) (g : A -> C) (xs : list A) :
  (forall x, In x xs -> f x = Ok (g x)) -> mapM f xs = Ok (map g xs).
Proof.
  induction xs as [|x rest IH]; intros H; simpl; [reflexivity|].
  rewrite (H x (or_introl eq_refl)). cbn [bind].
  rewrite IH by (intros y Hy; apply H; now right). reflexivity.
Qed.

Section ProjectionFacts.
Context {B : Builtins}.

(** The cell a header selects in a row: the cell at the header's position,
    [null] when the header is not there. *)
Local Abbreviation cellOf :=
  (fun (headers : list string) (row : list (cell B)) (header : string) =>
     match indexOf headers header with
     | Some index => at_index row index
     | None => Null
     end).

(** Selecting every header of a row of that width gives the row back. *)
Lemma project_same (headers : list string) (row : list (cell B)) :
  NoDup headers -> List.length row = List.length headers ->
  map (cellOf headers row) headers = row.
Proof.
  intros Hnd Hlen. apply (nth_ext _ _ Null Undefined).
  - now rewrite length_map.
  - intros j Hj. rewrite length_map in Hj.
    destruct (nth_error headers j) as [h|] eqn:Hh;
      [|apply nth_error_None in Hh; lia].
    rewrite (nth_indep _ Null (cellOf headers row h)) by (rewrite length_map; lia).
    rewrite (map_nth (cellOf headers row)).
    rewrite (nth_error_nth _ _ h Hh).
    now rewrite (indexOf_NoDup _ Hnd Hh).
Qed.

Lemma applyTransformation_none (value : cell B)
  (params : option (list (string * ParamValue number))) :
  DataTransformer.applyTransformation value none params = Ok value.
Proof. now destruct value. Qed.

(** Under the transform [none], or none at all, [transformData] does not
    throw and moves cells unchanged: the output headers are the target
    columns, and each output row holds, entry by entry, the cell of the
    entry's source column, [null] where the file has no such column. *)
Theorem transformData_none (data : list (list (cell B))) (headers : list string)
  (entries : list (MappingEntry B)) :
  NoDup headers ->
  (forall entry, In entry entries ->
                 transform entry = None \/ transform entry = Some none) ->
  DataTransformer.transformData data headers entries
  = Ok (map (fun entry => targetColumn entry) entries,
        map (fun row =>
               map (fun entry => cellOf headers row (sourceColumn entry)) entries)
          data).
Proof.
  intros Hnd Hnone. unfold DataTransformer.transformData. cbv zeta.
  rewrite (mapM_Ok _
             (fun row =>
                map (fun entry => cellOf headers row (sourceColumn entry)) entries));
    [reflexivity|].
  intros row _. apply mapM_Ok. intros entry Hentry.
  rewrite (indexMap_indexOf _ Hnd).
  destruct (Hnone entry Hentry) as [-> | ->]; [reflexivity|].
  rewrite applyTransformation_none.
  now destruct (negb (isNull _)).
Qed.

(** [alignDataToSchema] keeps the number of rows and gives every row one
    cell per header of the schema; a header the file does not have is a
    column of nulls; and a file with distinct headers and rows of that
    width, aligned to its own headers, is unchanged. *)
Theorem alignDataToSchema_properties (data : list (list (cell B)))
  (currentHeaders unifiedHeaders : list string) :
  List.length (DataMerger.alignDataToSchema data currentHeaders unifiedHeaders)
  = List.length data
  /\ Forall (fun row => List.length row = List.length unifiedHeaders)
       (DataMerger.alignDataToSchema data currentHeaders unifiedHeaders)
  /\ (forall row j header,
        In row (DataMerger.alignDataToSchema data currentHeaders unifiedHeaders) ->
        nth_error unifiedHeaders j = Some header ->
        ~ In header currentHeaders ->
        nth_error row j = Some Null)
  /\ (NoDup currentHeaders ->
      Forall (fun row => List.length row = List.length currentHeaders) data ->
      DataMerger.alignDataToSchema data currentHeaders currentHeaders = data).
Proof.
  unfold DataMerger.alignDataToSchema. cbv zeta. split; [|split; [|split]].
  - apply length_map.
  - apply Forall_map, Forall_forall. intros row _. apply length_map.
  - intros row j header Hin Hj Hnot. apply in_map_iff in Hin.
    destruct Hin as (source & <- & _).
    rewrite nth_error_map, Hj. cbn [option_map].
    now rewrite (indexMap_absent _ _ Hnot).
  - intros Hnd Hrows. rewrite <- (map_id data) at 2.
    apply map_ext_in. intros row Hrow.
    rewrite Forall_forall in Hrows.
    etransitivity; [|exact (@project_same currentHeaders row Hnd (Hrows row Hrow))].
    apply map_ext. intros header. now rewrite (indexMap_indexOf _ Hnd).
Qed.

End ProjectionFacts.

(* ================================================================== *)
(** ** Merging two rows *)

Lemma update_length {A} (xs : list A) (i : nat) (v : A) :
  List.length (update xs i v) = List.length xs.
Proof.
  revert i. induction xs as [|x rest IH]; intros [|i]; simpl; auto.
Qed.

Lemma update_nth {A} (xs : list A) (i j : nat) (v d : A) :
  nth j (update xs i v) d
  = if (j =? i)%nat && (i <? List.length xs)%nat then v else nth j xs d.
Proof.
  revert i j. induction xs as [|x rest IH]; intros i j.
  - destruct i, j; simpl; try reflexivity; now rewrite andb_false_r.
  - destruct i as [|i], j as [|j]; cbn [update nth List.length]; try reflexivity.
    rewrite IH. reflexivity.
Qed.

Section MergeRowsFacts.
Context {B : Builtins}.

(** The first loop of [mergeRows], from the cell [start] of the row. *)
Lemma overlay_left (row : list (cell B)) (start : nat) (init : list (cell B)) :
  let result :=
    fold_left
      (fun result (entry : nat * cell B) =>
         let '(index, value) := entry in
         if (index <? List.length result)%nat
         then update result index value else result)
      (mapi_from start (fun index value => (index, value)) row) init in
  List.length result = List.length init
  /\ forall j,
      nth j result Null
      = if (start <=? j)%nat && (j <? start + List.length row)%nat
           && (j <? List.length init)%nat
        then nth (j - start) row Null else nth j init Null.
Proof.
  revert start init. induction row as [|v rest IH]; intros start init;
    cbn [mapi_from fold_left List.length].
  - cbv zeta. split; [reflexivity|]. intros j.
    destruct (start <=? j)%nat eqn:E1; [|reflexivity].
    destruct (Nat.ltb_spec j (start + 0)); [|reflexivity].
    apply Nat.leb_le in E1. lia.
  - specialize (IH (S start)
                  (if (start <? List.length init)%nat
                   then update init start v else init)).
    cbv zeta in IH |- *. destruct IH as [IHlen IHnth].
    assert (Hlen : List.length (if (start <? List.length init)%nat
                                then update init start v else init)
                   = List.length init).
    { destruct (start <? List.length init)%nat; [apply update_length | reflexivity]. }
    split; [congruence|]. intros j. rewrite IHnth, Hlen.
    destruct (Nat.leb_spec (S start) j) as [H1|H1];
      destruct (Nat.leb_spec start j) as [H2|H2]; try lia;
      destruct (Nat.ltb_spec j (S start + List.length rest)) as [H3|H3];
      destruct (Nat.ltb_spec j (start + S (List.length rest))) as [H4|H4]; try lia;
      destruct (Nat.ltb_spec j (List.length init)) as [H5|H5]; cbn [andb];
      destruct (Nat.ltb_spec start (List.length init)) as [H6|H6];
      rewrite ?update_nth;
      try (replace (j - start)%nat with (S (j - S start)) by lia; reflexivity);
      try (destruct (Nat.eqb_spec j start); try lia;
           destruct (Nat.ltb_spec start (List.length init)); try lia;
           cbn [andb]; subst; rewrite ?Nat.sub_diag; reflexivity);
      try (rewrite !nth_overflow by lia; reflexivity);
      try reflexivity.
Qed.

(** The second loop of [mergeRows]: it writes over nulls only. *)
Lemma overlay_right (row : list (cell B)) (start : nat) (init : list (cell B)) :
  let result :=
    fold_left
      (fun result (entry : nat * cell B) =>
         let '(index, value) := entry in
         if (index <? List.length result)%nat && isNull (at_index result index)
         then update result index value else result)
      (mapi_from start (fun index value => (index, value)) row) init in
  List.length result = List.length init
  /\ forall j,
      nth j result Null
      = if (start <=? j)%nat && (j <? start + List.length row)%nat
           && (j <? List.length init)%nat && isNull (nth j init Null)
        then nth (j - start) row Null else nth j init Null.
Proof.
  revert start init. induction row as [|v rest IH]; intros start init;
    cbn [mapi_from fold_left List.length].
  - cbv zeta. split; [reflexivity|]. intros j.
    destruct (start <=? j)%nat eqn:E1; [|reflexivity].
    destruct (Nat.ltb_spec j (start + 0)); [|reflexivity].
    apply Nat.leb_le in E1. lia.
  - set (init' := if (start <? List.length init)%nat
                     && isNull (at_index init start)
                  then update init start v else init).
    specialize (IH (S start) init').
    cbv zeta in IH |- *. destruct IH as [IHlen IHnth].
    assert (Hlen : List.length init' = List.length init).
    { unfold init'. destruct (_ && _); [apply update_length | reflexivity]. }
    assert (Hother : forall j, j <> start -> nth j init' Null = nth j init Null).
    { intros j Hj. unfold init'. destruct (_ && _); [|reflexivity].
      rewrite update_nth. destruct (Nat.eqb_spec j start); [contradiction|].
      reflexivity. }
    assert (Hstart : nth start init' Null
                     = if (start <? List.length init)%nat
                          && isNull (nth start init Null)
                       then v else nth start init Null).
    { unfold init', at_index.
      destruct (Nat.ltb_spec start (List.length init)) as [Hin|Hout]; cbn [andb].
      - rewrite (nth_indep init Undefined Null Hin).
        destruct (isNull (nth start init Null)); [|reflexivity].
        rewrite update_nth, Nat.eqb_refl.
        destruct (Nat.ltb_spec start (List.length init)); [reflexivity | lia].
      - reflexivity. }
    split; [congruence|]. intros j. rewrite IHnth, Hlen.
    destruct (Nat.eq_dec j start) as [->|Hne].
    + destruct (Nat.leb_spec (S start) start); [lia|]. cbn [andb].
      rewrite Hstart, Nat.leb_refl, Nat.sub_diag.
      destruct (Nat.ltb_spec start (start + S (List.length rest))); [|lia].
      reflexivity.
    + rewrite (Hother j Hne).
      destruct (Nat.leb_spec (S start) j) as [H1|H1];
        destruct (Nat.leb_spec start j) as [H2|H2]; try lia; cbn [andb];
        [|reflexivity].
      destruct (Nat.ltb_spec j (S start + List.length rest)) as [H3|H3];
        destruct (Nat.ltb_spec j (start + S (List.length rest))) as [H4|H4];
        try lia; cbn [andb]; [|reflexivity].
      replace (j - start)%nat with (S (j - S start)) by lia. reflexivity.
Qed.

(** [mergeRows] gives a row of the width of the schema.  A cell is the
    left row's cell when the left row has one there that is not null, and
    the right row's cell otherwise, null when that is missing too. *)
Theorem mergeRows_cells (leftRow rightRow : option (list (cell B)))
  (headers : list string) :
  List.length (DataMerger.mergeRows leftRow rightRow headers) = List.length headers
  /\ forall j, (j < List.length headers)%nat ->
      nth j (DataMerger.mergeRows leftRow rightRow headers) Null
      = let leftCell :=
          match leftRow with Some row => nth j row Null | None => Null end in
        if isNull leftCell
        then match rightRow with Some row => nth j row Null | None => Null end
        else leftCell.
Proof.
  unfold DataMerger.mergeRows. cbv zeta.
  set (blank := repeat (@Null B) (List.length headers)).
  assert (Hblank : List.length blank = List.length headers) by apply repeat_length.
  assert (Hnull : forall j, nth j blank Null = Null).
  { intros j. unfold blank. apply nth_repeat. }
  set (afterLeft :=
         match leftRow with
         | Some row =>
             fold_left
               (fun result (entry : nat * cell B) =>
                  let '(index, value) := entry in
                  if (index <? List.length result)%nat
                  then update result index value else result)
               (enumerate row) blank
         | None => blank
         end).
  assert (Hleft : List.length afterLeft = List.length headers
                  /\ forall j, (j < List.length headers)%nat ->
                       nth j afterLeft Null
                       = match leftRow with
                         | Some row => nth j row Null
                         | None => Null
                         end).
  { unfold afterLeft. destruct leftRow as [row|]; [|split; auto].
    destruct (overlay_left row 0 blank) as [Hlen Hnth]. cbv zeta in Hlen, Hnth.
    split; [unfold enumerate, mapi; congruence|]. intros j Hj.
    unfold enumerate, mapi. rewrite Hnth, Hblank, Hnull, Nat.sub_0_r.
    cbn [Nat.leb andb].
    destruct (Nat.ltb_spec j (0 + List.length row)); cbn [andb];
      destruct (Nat.ltb_spec j (List.length headers)); try lia;
      [reflexivity | now rewrite nth_overflow by lia]. }
  destruct Hleft as [Hlen1 Hnth1].
  destruct rightRow as [row|].
  - destruct (overlay_right row 0 afterLeft) as [Hlen Hnth].
    cbv zeta in Hlen, Hnth. unfold enumerate, mapi in *.
    split; [congruence|]. intros j Hj.
    rewrite Hnth, Hlen1, (Hnth1 j Hj), Nat.sub_0_r. cbn [Nat.leb andb].
    set (leftCell := match leftRow with Some r => nth j r Null | None => Null end).
    destruct (Nat.ltb_spec j (List.length headers)); [|lia].
    rewrite andb_true_r.
    destruct (Nat.ltb_spec j (0 + List.length row)); cbn [andb].
    + reflexivity.
    + destruct (isNull leftCell) eqn:E; [|reflexivity].
      rewrite nth_overflow by lia. now destruct leftCell.
  - split; [exact Hlen1|]. intros j Hj. rewrite (Hnth1 j Hj).
    set (leftCell := match leftRow with Some r => nth j r Null | None => Null end).
    destruct (isNull leftCell) eqn:E; [now destruct leftCell | reflexivity].
Qed.

End MergeRowsFacts.

(* ================================================================== *)
(** ** Rows kept by the duplicate handling *)

Lemma update_In {A} (xs : list A) (i : nat) (v x : A) :
  In x (update xs i v) -> x = v \/ In x xs.
Proof.
  revert i. induction xs as [|y rest IH]; intros [|i]; simpl; auto.
  - intros [<-|H]; auto.
  - intros [<-|H]; auto. destruct (IH i H); auto.
Qed.

Section DedupInvariant.
Context {B : Builtins}.
Import DataMerger.

Lemma dedupStep_inv strategy done st row :
  strategy <> keep_first ->
  dedup_inv done st -> dedup_inv (done ++ [row]) (dedupStep strategy st row).
Proof.
  intros Hstrategy (Hok & Hnone & Hnodup & Hcount & Hpos & Htexts & Hincl).
  assert (Hok' : seen_ok (dedupStep strategy st row))
    by now apply dedupStep_seen_ok.
  unfold dedup_inv. split; [exact Hok'|]. clear Hok'.
  unfold dedupStep.
  destruct (Map_get tokens_eqb (seen st) (JSON_stringify row)) as [prev|] eqn:Hget;
    cbn [seen dedup_result duplicatesRemoved].
  - pose proof (Hok _ _ Hget) as Hprev.
    assert (Hsame : map JSON_stringify
                      (match strategy with
                       | keep_last => update (dedup_result st) prev row
                       | _ => dedup_result st
                       end)
                    = map JSON_stringify (dedup_result st)).
    { destruct strategy; try reflexivity.
      rewrite update_map. now apply update_same. }
    assert (Hlen : List.length
                     (match strategy with
                      | keep_last => update (dedup_result st) prev row
                      | _ => dedup_result st
                      end)
                   = List.length (dedup_result st)).
    { destruct strategy; try reflexivity. apply update_length. }
    rewrite Hsame, Hlen, length_app, map_app. cbn [List.length map].
    repeat split; try assumption; try lia.
    + intros Hin. apply in_or_app. left. now apply Htexts.
    + intros Hin. apply in_app_or in Hin. destruct Hin as [Hin|[<-|[]]].
      * now apply Htexts.
      * eapply nth_error_In. exact Hprev.
    + intros r Hr. apply in_or_app. destruct strategy.
      * left. now apply Hincl.
      * apply update_In in Hr. destruct Hr as [->|Hr];
          [right; now left | left; now apply Hincl].
      * left. now apply Hincl.
  - rewrite !map_app, !length_app. cbn [map List.length].
    repeat split; try assumption; try lia.
    + intros key. rewrite (Map_get_set tokens_eqb tokens_eqb_eq).
      destruct (tokens_eqb key (JSON_stringify row)) eqn:Ekey; [discriminate|].
      intros Hkey Hin. apply in_app_or in Hin. destruct Hin as [Hin|[<-|[]]].
      * now apply (Hnone key).
      * assert (tokens_eqb (JSON_stringify row) (JSON_stringify row) = true)
          by now apply tokens_eqb_eq.
        congruence.
    + apply NoDup_app.
      * exact Hnodup.
      * constructor; [intros [] | constructor].
      * intros text Hin [<-|[]]. now apply (Hnone (JSON_stringify row)).
    + intros Hin. apply in_or_app. apply in_app_or in Hin.
      destruct Hin as [Hin|Hin]; [left; now apply Htexts | now right].
    + intros Hin. apply in_or_app. apply in_app_or in Hin.
      destruct Hin as [Hin|Hin]; [left; now apply Htexts | now right].
    + intros r Hr. apply in_or_app. apply in_app_or in Hr.
      destruct Hr as [Hr|Hr]; [left; now apply Hincl | now right].
Qed.

Lemma dedup_loop_inv strategy data done st :
  strategy <> keep_first ->
  dedup_inv done st ->
  dedup_inv (done ++ data) (fold_left (dedupStep strategy) data st).
Proof.
  intros Hstrategy. revert done st.
  induction data as [|row rest IH]; intros done st Hinv.
  - now rewrite app_nil_r.
  - cbn [fold_left].
    replace (done ++ row :: rest) with ((done ++ [row]) ++ rest)
      by now rewrite <- app_assoc.
    apply IH. now apply dedupStep_inv.
Qed.

(** Under [keep_last] and [merge_values] the rows [handleDuplicates] returns
    are rows of the input with pairwise different JSON texts, one for every
    text of the input, and the count it returns is the number of rows it
    left out. *)
Theorem handleDuplicates_distinct (data : list (list (cell B)))
  (strategy : DuplicateStrategy) :
  strategy <> keep_first ->
  NoDup (map JSON_stringify (fst (handleDuplicates data strategy)))
  /\ (forall text,
        In text (map JSON_stringify (fst (handleDuplicates data strategy)))
        <-> In text (map JSON_stringify data))
  /\ incl (fst (handleDuplicates data strategy)) data
  /\ (0 <= snd (handleDuplicates data strategy))%Z
  /\ (Z.of_nat (List.length (fst (handleDuplicates data strategy)))
      + snd (handleDuplicates data strategy)
      = Z.of_nat (List.length data))%Z.
Proof.
  intros Hstrategy.
  set (start := {| seen := []; dedup_result := []; duplicatesRemoved := 0 |}).
  assert (Hstart : dedup_inv [] start).
  { unfold dedup_inv, start. cbn.
    repeat split; try constructor; try tauto; try lia; try discriminate.
    intros r []. }
  pose proof (dedup_loop_inv data Hstrategy Hstart) as Hinv.
  cbn [app] in Hinv.
  destruct Hinv as (_ & _ & Hnodup & Hcount & Hpos & Htexts & Hincl).
  assert (Hrun : handleDuplicates data strategy
                 = (dedup_result (fold_left (dedupStep strategy) data start),
                    duplicatesRemoved (fold_left (dedupStep strategy) data start))).
  { unfold handleDuplicates. destruct strategy; try reflexivity. contradiction. }
  rewrite Hrun. cbn [fst snd]. tauto.
Qed.

End DedupInvariant.

(* ================================================================== *)
(** ** The shape of a merge *)

Lemma fold_left_invariant {A C} (P : A -> Prop) (f : A -> C -> A)
  (xs : list C) (a : A) :
  (forall acc x, P acc -> P (f acc x)) -> P a -> P (fold_left f xs a).
Proof.
  intros Hstep. revert a. induction xs as [|x rest IH]; intros a Ha; simpl;
    [exact Ha|]. apply IH, Hstep, Ha.
Qed.

Lemma fold_left_invariant_done {A C} (P : list C -> A -> Prop) (f : A -> C -> A)
  (xs done : list C) (a : A) :
  (forall done acc x, P done acc -> P (done ++ [x]) (f acc x)) ->
  P done a -> P (done ++ xs) (fold_left f xs a).
Proof.
  intros Hstep. revert done a.
  induction xs as [|x rest IH]; intros done a Ha; simpl.
  - now rewrite app_nil_r.
  - replace (done ++ x :: rest) with ((done ++ [x]) ++ rest)
      by now rewrite <- app_assoc.
    apply IH, Hstep, Ha.
Qed.

Lemma Set_fold_length {K} (eqb : K -> K -> bool) (xs acc : list K) :
  (List.length (fold_left (Set_add eqb) xs acc)
   <= List.length acc + List.length xs)%nat.
Proof.
  revert acc. induction xs as [|x rest IH]; intros acc; simpl; [lia|].
  specialize (IH (Set_add eqb acc x)).
  assert (List.length (Set_add eqb acc x) <= S (List.length acc))%nat.
  { unfold Set_add. destruct (Set_has eqb acc x); rewrite ?length_app; simpl; lia. }
  lia.
Qed.

Lemma slice0_incl {A} (xs : list A) (e : Z) : incl (slice0 xs e) xs.
Proof.
  assert (H : forall n, incl (firstn n xs) xs).
  { intros n x Hx. rewrite <- (firstn_skipn n xs). apply in_or_app. now left. }
  unfold slice0. destruct (e <? 0)%Z; apply H.
Qed.

Lemma slice0_length {A} (xs : list A) (e : Z) :
  (List.length (slice0 xs e) <= List.length xs)%nat.
Proof. unfold slice0. destruct (e <? 0)%Z; rewrite length_firstn; lia. Qed.

Section MergeShape.
Context {B : Builtins}.
Import DataMerger.

Lemma mergeRows_length (leftRow rightRow : option (list (cell B)))
  (headers : list string) :
  List.length (mergeRows leftRow rightRow headers) = List.length headers.
Proof.
  unfold mergeRows. cbv zeta.
  assert (Hleft :
    forall result : list (cell B),
      List.length result = List.length headers ->
      List.length
        (match leftRow with
         | Some leftRow =>
             fold_left
               (fun result (entry : nat * cell B) =>
                  let '(index, value) := entry in
                  if (index <? List.length result)%nat
                  then update result index value else result)
               (enumerate leftRow) result
         | None => result
         end) = List.length headers).
  { intros result Hresult. destruct leftRow as [row|]; [|exact Hresult].
    apply (fold_left_invariant
             (fun result : list (cell B) => List.length result = List.length headers));
      [|exact Hresult].
    intros acc [index value] Hacc.
    destruct (index <? List.length acc)%nat; [now rewrite update_length | exact Hacc]. }
  destruct rightRow as [row|].
  - apply (fold_left_invariant
             (fun result : list (cell B) => List.length result = List.length headers)).
    + intros acc [index value] Hacc.
      destruct (_ && _); [now rewrite update_length | exact Hacc].
    + apply Hleft, repeat_length.
  - apply Hleft, repeat_length.
Qed.

Lemma lookupMap_length (i : nat) (data : list (list (cell B))) :
  (List.length (lookupMap i data) <= List.length data)%nat.
Proof.
  rewrite <- Map_keys_length, lookupMap_keys. unfold Set_from.
  pose proof (Set_fold_length String.eqb (map (joinKeyOf i) data) []) as H.
  rewrite length_map in H. exact H.
Qed.

Lemma performKeyBasedJoin_width (leftData rightData : list (list (cell B)))
  (headers : list string) (key : string) (joinType : JoinType) :
  Forall (fun row => List.length row = List.length headers) leftData ->
  Forall (fun row => List.length row = List.length headers) rightData ->
  Forall (fun row => List.length row = List.length headers)
    (fst (performKeyBasedJoin leftData rightData headers key joinType)).
Proof.
  intros Hl Hr. unfold performKeyBasedJoin.
  destruct (indexOf headers key) as [i|]; cbn [fst];
    [|apply Forall_app; auto].
  assert (Hadd : forall rows l r,
             Forall (fun row => List.length row = List.length headers) rows ->
             Forall (fun row => List.length row = List.length headers)
               (rows ++ [mergeRows l r headers])).
  { intros rows l r Hrows. apply Forall_app. split; [exact Hrows|].
    constructor; [apply mergeRows_length | constructor]. }
  destruct joinType;
    repeat apply (fold_left_invariant
             (fun st => Forall (fun row => List.length row = List.length headers)
                          (join_result st)));
    try (cbn [join_result]; constructor);
    intros st [k row] Hst;
    unfold innerStep, leftStep, rightStep, fullRestStep, emit.
  - destruct (Map_get String.eqb (lookupMap i rightData) k);
      cbn [join_result]; auto.
  - cbn [join_result]; auto.
  - cbn [join_result]; auto.
  - destruct (negb _); cbn [join_result]; auto.
  - cbn [join_result]; auto.
Qed.

Lemma performKeyBasedJoin_length (leftData rightData : list (list (cell B)))
  (headers : list string) (key : string) (joinType : JoinType) :
  joinType = Inner \/ joinType = Left ->
  (List.length (fst (performKeyBasedJoin leftData rightData headers key joinType))
   <= List.length leftData + List.length rightData)%nat
  /\ (0 <= snd (performKeyBasedJoin leftData rightData headers key joinType))%Z.
Proof.
  intros Hjoin. unfold performKeyBasedJoin.
  destruct (indexOf headers key) as [i|]; cbn [fst snd];
    [|rewrite length_app; lia].
  pose proof (lookupMap_length i leftData) as Hleft.
  destruct Hjoin as [-> | ->].
  - destruct (innerStep_loop (lookupMap i rightData) headers (lookupMap i leftData)
                {| join_result := []; processedKeys := []; join_dropped := 0 |})
      as [Hlen Hdrop].
    cbv zeta in Hlen, Hdrop. rewrite Hlen, Hdrop. cbn [join_result join_dropped].
    pose proof (filter_length_le
                  (fun k => Map_has String.eqb (lookupMap i rightData) k)
                  (map fst (lookupMap i leftData))) as Hfilter.
    rewrite length_map in Hfilter. simpl. lia.
  - destruct (leftStep_loop (lookupMap i rightData) headers (lookupMap i leftData)
                {| join_result := []; processedKeys := []; join_dropped := 0 |})
      as (Hlen & Hdrop & _).
    cbv zeta in Hlen, Hdrop. rewrite Hlen, Hdrop. cbn [join_result join_dropped].
    simpl. lia.
Qed.

(** The rows [handleDuplicates] returns are rows of its input, and the two
    numbers add up to the size of the input. *)
Lemma handleDuplicates_shape (data : list (list (cell B)))
  (strategy : DuplicateStrategy) :
  incl (fst (handleDuplicates data strategy)) data
  /\ (0 <= snd (handleDuplicates data strategy))%Z
  /\ (Z.of_nat (List.length (fst (handleDuplicates data strategy)))
      + snd (handleDuplicates data strategy)
      = Z.of_nat (List.length data))%Z.
Proof.
  assert (Hdec : strategy = keep_first \/ strategy <> keep_first)
    by (destruct strategy; [now left | right; discriminate | right; discriminate]).
  destruct Hdec as [->|Hstrategy].
  - cbn. split; [apply incl_refl | lia].
  - set (start := {| seen := []; dedup_result := []; duplicatesRemoved := 0 |}).
    assert (Hstart : dedup_inv [] start).
    { unfold dedup_inv, start. cbn.
      repeat split; try constructor; try tauto; try lia; try discriminate.
      intros r []. }
    pose proof (dedup_loop_inv data Hstrategy Hstart) as Hinv.
    cbn [app] in Hinv.
    destruct Hinv as (_ & _ & _ & Hcount & Hpos & _ & Hincl).
    assert (Hrun : handleDuplicates data strategy
                   = (dedup_result (fold_left (dedupStep strategy) data start),
                      duplicatesRemoved (fold_left (dedupStep strategy) data start))).
    { unfold handleDuplicates. destruct strategy; try reflexivity. contradiction. }
    rewrite Hrun. cbn [fst snd]. tauto.
Qed.

End MergeShape.

Section MergeResultShape.
Context {B : Builtins}.
Import DataMerger.

Lemma concat_data_app (done : list (TransformedFile B)) (file : TransformedFile B) :
  List.length (List.concat (map (fun tf => tf_data tf) (done ++ [file])))
  = (List.length (List.concat (map (fun tf => tf_data tf) done))
     + List.length (tf_data file))%nat.
Proof.
  rewrite map_app, concat_app, length_app. cbn [map List.concat].
  now rewrite app_nil_r.
Qed.

Lemma alignDataToSchema_width (data : list (list (cell B)))
  (currentHeaders unifiedHeaders : list string) :
  Forall (fun row => List.length row = List.length unifiedHeaders)
    (alignDataToSchema data currentHeaders unifiedHeaders)
  /\ List.length (alignDataToSchema data currentHeaders unifiedHeaders)
     = List.length data.
Proof.
  unfold alignDataToSchema. cbv zeta. split; [|apply length_map].
  apply Forall_map, Forall_forall. intros row _. apply length_map.
Qed.

(** The loop of a right or full merge, and of a merge without a join key. *)
Lemma append_step_inv (unifiedHeaders : list string)
  (done : list (TransformedFile B)) (st : MergeState) (file : TransformedFile B) :
  merge_inv unifiedHeaders done st ->
  merge_inv unifiedHeaders (done ++ [file])
    {| mergedData :=
         mergedData st
         ++ alignDataToSchema (tf_data file) (tf_headers file) unifiedHeaders;
       merge_totalRows := merge_totalRows st + Z.of_nat (List.length (tf_data file));
       merge_droppedRows := merge_droppedRows st |}.
Proof.
  intros (Hwidth & Hlen & Htotal & Hdropped).
  destruct (alignDataToSchema_width (tf_data file) (tf_headers file) unifiedHeaders)
    as [Hw Hl].
  unfold merge_inv. cbn [mergedData merge_totalRows merge_droppedRows].
  rewrite concat_data_app, length_app, Hl.
  repeat split; [apply Forall_app; auto | lia | lia | exact Hdropped].
Qed.

(** The loop of an inner or left merge with a join key. *)
Lemma join_step_inv (unifiedHeaders : list string) (key : string)
  (joinType : JoinType) (done : list (TransformedFile B)) (st : MergeState)
  (file : TransformedFile B) :
  joinType = Inner \/ joinType = Left ->
  merge_inv unifiedHeaders done st ->
  merge_inv unifiedHeaders (done ++ [file])
    (let '(joined, dropped) :=
       performKeyBasedJoin (mergedData st)
         (alignDataToSchema (tf_data file) (tf_headers file) unifiedHeaders)
         unifiedHeaders key joinType in
     {| mergedData := joined;
        merge_totalRows := merge_totalRows st + Z.of_nat (List.length (tf_data file));
        merge_droppedRows := merge_droppedRows st + dropped |}).
Proof.
  intros Hjoin (Hwidth & Hlen & Htotal & Hdropped).
  destruct (alignDataToSchema_width (tf_data file) (tf_headers file) unifiedHeaders)
    as [Hw Hl].
  pose proof (@performKeyBasedJoin_width B _ _ unifiedHeaders key joinType Hwidth Hw)
    as Hjw.
  pose proof (@performKeyBasedJoin_length B (mergedData st)
                (alignDataToSchema (tf_data file) (tf_headers file) unifiedHeaders)
                unifiedHeaders key joinType Hjoin) as [Hjl Hjd].
  destruct (performKeyBasedJoin _ _ _ _ _) as [joined dropped].
  cbn [fst snd] in Hjw, Hjl, Hjd.
  unfold merge_inv. cbn [mergedData merge_totalRows merge_droppedRows].
  rewrite concat_data_app. rewrite Hl in Hjl.
  repeat split; [exact Hjw | lia | lia | lia].
Qed.

(** [performMerge] throws on one input only: an inner or left merge of no
    file.  Otherwise every row it returns has one cell per header of the
    schema; [mergedRows] is the number of rows returned; [totalRows] is the
    number of rows of all the files; the rows returned and the duplicates
    removed together are at most [totalRows]; and no count is negative. *)
Theorem performMerge_well_formed (transformedFiles : list (TransformedFile B))
  (unifiedHeaders : list string) (options : MergeOptions) :
  match performMerge transformedFiles unifiedHeaders options with
  | Throw _ =>
      transformedFiles = []
      /\ (joinType options = Inner \/ joinType options = Left)
  | Ok (rows, stats) =>
      (transformedFiles <> []
       \/ joinType options = Right \/ joinType options = Full)
      /\ Forall (fun row => List.length row = List.length unifiedHeaders) rows
      /\ mergedRows stats = Z.of_nat (List.length rows)
      /\ totalRows stats
         = Z.of_nat
             (List.length (List.concat (map (fun tf => tf_data tf) transformedFiles)))
      /\ (mergedRows stats + duplicateRows stats <= totalRows stats)%Z
      /\ (0 <= droppedRows stats)%Z
      /\ (0 <= duplicateRows stats)%Z
      /\ (0 <= nullValues stats)%Z
  end.
Proof.
  unfold performMerge.
  match goal with
  | |- context [bind ?first _] =>
      assert (Hfirst :
        match first with
        | Throw _ =>
            transformedFiles = []
            /\ (joinType options = Inner \/ joinType options = Left)
        | Ok st =>
            (transformedFiles <> []
             \/ joinType options = Right \/ joinType options = Full)
            /\ merge_inv unifiedHeaders transformedFiles st
        end);
      [|destruct first as [st|message]; [|exact Hfirst]]
  end.
  { assert (Hstart : merge_inv unifiedHeaders []
                       {| mergedData := []; merge_totalRows := 0;
                          merge_droppedRows := 0 |}).
    { unfold merge_inv. cbn. repeat split; try constructor; lia. }
    assert (Hbase : forall baseFile,
               merge_inv unifiedHeaders [baseFile]
                 {| mergedData :=
                      alignDataToSchema (tf_data baseFile) (tf_headers baseFile)
                        unifiedHeaders;
                    merge_totalRows := Z.of_nat (List.length (tf_data baseFile));
                    merge_droppedRows := 0 |}).
    { intros baseFile.
      pose proof (append_step_inv baseFile Hstart) as H.
      cbn [app mergedData merge_totalRows merge_droppedRows Z.add] in H.
      exact H. }
    assert (Hjoined : forall joinType baseFile others,
               joinType = Inner \/ joinType = Left ->
               merge_inv unifiedHeaders (baseFile :: others)
                 (fold_left
                    (fun st currentFile =>
                       let alignedData :=
                         alignDataToSchema (tf_data currentFile)
                           (tf_headers currentFile) unifiedHeaders in
                       match joinKey_given options with
                       | Some key =>
                           let '(joined, dropped) :=
                             performKeyBasedJoin (mergedData st) alignedData
                               unifiedHeaders key joinType in
                           {| mergedData := joined;
                              merge_totalRows :=
                                merge_totalRows st
                                + Z.of_nat (List.length (tf_data currentFile));
                              merge_droppedRows := merge_droppedRows st + dropped |}
                       | None =>
                           {| mergedData := mergedData st ++ alignedData;
                              merge_totalRows :=
                                merge_totalRows st
                                + Z.of_nat (List.length (tf_data currentFile));
                              merge_droppedRows := merge_droppedRows st |}
                       end)
                    others
                    {| mergedData :=
                         alignDataToSchema (tf_data baseFile) (tf_headers baseFile)
                           unifiedHeaders;
                       merge_totalRows := Z.of_nat (List.length (tf_data baseFile));
                       merge_droppedRows := 0 |})).
    { intros joinType baseFile others Hjoin.
      change (baseFile :: others) with ([baseFile] ++ others).
      apply (fold_left_invariant_done (merge_inv unifiedHeaders)); [|apply Hbase].
      intros done acc file Hacc. cbv zeta.
      destruct (joinKey_given options) as [key|].
      - now apply join_step_inv.
      - now apply append_step_inv. }
    assert (Happended :
               merge_inv unifiedHeaders transformedFiles
                 (fold_left
                    (fun st file =>
                       {| mergedData :=
                            mergedData st
                            ++ alignDataToSchema (tf_data file) (tf_headers file)
                                 unifiedHeaders;
                          merge_totalRows :=
                            merge_totalRows st + Z.of_nat (List.length (tf_data file));
                          merge_droppedRows := merge_droppedRows st |})
                    transformedFiles
                    {| mergedData := []; merge_totalRows := 0;
                       merge_droppedRows := 0 |})).
    { change transformedFiles with ([] ++ transformedFiles) at 1.
      apply (fold_left_invariant_done (merge_inv unifiedHeaders)); [|exact Hstart].
      intros done acc file Hacc. now apply append_step_inv. }
    destruct (joinType options) eqn:Hjt.
    - destruct transformedFiles as [|baseFile others]; [split; auto|].
      split; [left; discriminate | apply Hjoined; auto].
    - destruct transformedFiles as [|baseFile others]; [split; auto|].
      split; [left; discriminate | apply Hjoined; auto].
    - split; [auto | exact Happended].
    - split; [auto | exact Happended]. }
  destruct Hfirst as [Hthrows (Hwidth & Hlen & Htotal & Hdropped)].
  cbn [bind]. cbv zeta.
  assert (Hsame :
            match handleDuplicates_option options with
            | keep_first => (mergedData st, 0%Z)
            | keep_last => handleDuplicates (mergedData st) keep_last
            | merge_values => handleDuplicates (mergedData st) merge_values
            end
            = handleDuplicates (mergedData st) (handleDuplicates_option options))
    by now destruct (handleDuplicates_option options).
  rewrite Hsame. clear Hsame.
  destruct (handleDuplicates_shape (mergedData st) (handleDuplicates_option options))
    as (Hincl & Hdup & Hcount).
  destruct (handleDuplicates (mergedData st) (handleDuplicates_option options))
    as [deduped duplicates].
  cbn [fst snd] in Hincl, Hdup, Hcount.
  assert (Hnulls :
            (0 <= fold_left
                    (fun count row =>
                       count + Z.of_nat (List.length (filter isNull row)))
                    deduped 0)%Z).
  { apply (fold_left_invariant (fun count => (0 <= count)%Z)); [|lia].
    intros count row Hcount'. lia. }
  assert (Hdeduped : Forall (fun row => List.length row = List.length unifiedHeaders)
                       deduped).
  { rewrite Forall_forall in *. intros row Hrow. apply Hwidth, Hincl, Hrow. }
  destruct (maxRows options) as [limit|].
  - destruct (negb (limit =? 0)%Z && (limit <? Z.of_nat (List.length deduped))%Z)
      eqn:Hcap;
      cbn [totalRows mergedRows droppedRows duplicateRows nullValues].
    + apply andb_true_iff in Hcap. destruct Hcap as [_ Hcap].
      apply Z.ltb_lt in Hcap.
      pose proof (slice0_length deduped limit) as Hslice.
      repeat split; try assumption; try lia.
      rewrite Forall_forall in *. intros row Hrow.
      apply Hdeduped, (slice0_incl deduped limit), Hrow.
    + repeat split; try assumption; lia.
  - cbn [totalRows mergedRows droppedRows duplicateRows nullValues].
    repeat split; try assumption; lia.
Qed.

End MergeResultShape.

(* ================================================================== *)
(** ** The errors of a mapping validation, exactly *)

Section ValidateExact.
Context {B : Builtins}.
Import MappingGenerator.

Lemma In_guarded {A} (guard : bool) (message e : A) :
  In e (if guard then [message] else []) <-> guard = true /\ e = message.
Proof. destruct guard; simpl; intuition congruence. Qed.

(** On a parsed source file the errors of [validateMapping] are these and no
    others: one naming each source column that is not a header of the source
    file; when a target file is given and parsed, one naming each target
    column that is not a header of it; and one for each target column that
    more than one entry maps to.  A target file without parsed data is not
    checked. *)
Theorem validateMapping_errors (mapping : ColumnMapping B)
  (sourceFile : ProcessedFile B) (targetFile : option (ProcessedFile B)) :
  match parsedData sourceFile with
  | None =>
      validateMapping mapping sourceFile targetFile
      = ["Source file has no parsed data"]
  | Some source =>
      forall e,
        In e (validateMapping mapping sourceFile targetFile)
        <-> (exists map, In map (mappings mapping)
                         /\ ~ In (sourceColumn map) (headers source)
                         /\ e = sourceMissing (sourceColumn map))
            \/ (exists tf target map,
                   targetFile = Some tf /\ parsedData tf = Some target
                   /\ In map (mappings mapping)
                   /\ ~ In (targetColumn map) (headers target)
                   /\ e = targetMissing (targetColumn map))
            \/ (exists column,
                   (1 < occurrences column (mappings mapping))%nat
                   /\ e = mappedTwice column)
  end.
Proof.
  unfold validateMapping.
  destruct (parsedData sourceFile) as [source|]; [|reflexivity].
  cbv zeta. intros e. rewrite !in_app_iff.
  assert (Hmissing : forall (columns : list string) (column : MappingEntry B -> string)
                       (message : string -> string),
             In e (flat_map
                     (fun map =>
                        if negb (includes columns (column map))
                        then [message (column map)] else [])
                     (mappings mapping))
             <-> exists map, In map (mappings mapping)
                             /\ ~ In (column map) columns
                             /\ e = message (column map)).
  { intros columns column message. rewrite in_flat_map.
    split; intros (map & Hin & H); exists map; (split; [exact Hin|]).
    - apply In_guarded in H. destruct H as [Hguard ->].
      split; [|reflexivity].
      apply negb_true_iff in Hguard. intros Hcol.
      apply includes_In in Hcol. congruence.
    - apply In_guarded. destruct H as [Hnot ->]. split; [|reflexivity].
      apply negb_true_iff. destruct (includes columns (column map)) eqn:E;
        [|reflexivity].
      apply includes_In in E. contradiction. }
  rewrite (Hmissing (headers source) (fun map => sourceColumn map) sourceMissing).
  apply or_iff_compat_l.
  match goal with
  | |- ?a \/ ?b <-> ?c \/ ?d => cut ((a <-> c) /\ (b <-> d)); [tauto | split]
  end.
  - destruct targetFile as [tf|].
    + destruct (parsedData tf) as [target|] eqn:Htarget.
      * rewrite (Hmissing (headers target) (fun map => targetColumn map)
                   targetMissing).
        split.
        -- intros (map & H). exists tf, target, map. tauto.
        -- intros (tf' & target' & map & [= <-] & Hparsed & H).
           rewrite Htarget in Hparsed. injection Hparsed as <-.
           exists map. exact H.
      * split; [intros [] |].
        intros (tf' & target' & map & [= <-] & Hparsed & _). congruence.
    + split; [intros [] |]. intros (tf' & target' & map & Hsome & _).
      discriminate.
  - rewrite in_flat_map. split.
    + intros ([column count] & Hin & H). apply In_guarded in H.
      destruct H as [Hguard ->]. exists column. split; [|reflexivity].
      apply countTargets_In in Hin. subst count. now apply Nat.ltb_lt.
    + intros (column & Hmany & ->).
      exists (column, occurrences column (mappings mapping)). split.
      * apply (Map_get_In String.eqb String.eqb_eq).
        rewrite countTargets_get.
        destruct (Nat.eqb_spec (occurrences column (mappings mapping)) 0);
          [lia | reflexivity].
      * apply In_guarded. split; [now apply Nat.ltb_lt | reflexivity].
Qed.

End ValidateExact.

(* ================================================================== *)
(** ** The dataset of a merge *)

Section DatasetShape.
Context {B : Builtins}.
Import DataMerger.







(** The loop of [mergeFiles] over the mappings, when no transformation
    throws: one warning per mapping skipped, in the order of the mappings,
    and one transformed file per mapping kept. *)
Lemma transformFiles_Ok (files : list (ProcessedFile B))
  (mappings : list (ColumnMapping B)) (ws : list string)
  (tfs : list (TransformedFile B)) ws' tfs' :
  transformFiles files mappings ws tfs = (ws', Ok tfs') ->
  ws' = ws ++ map notFoundWarning (filter (unavailable files) mappings)
  /\ List.length tfs'
     = (List.length tfs
        + List.length (filter (fun m => negb (unavailable files m)) mappings))%nat.
Proof.
  revert ws tfs. induction mappings as [|m rest IH]; intros ws tfs;
    cbn [transformFiles filter map].
  - intros [= <- <-]. rewrite app_nil_r. simpl. split; [reflexivity | lia].
  - destruct (unavailable files m) eqn:Hm; cbn [negb map]; unfold unavailable in Hm.
    + destruct (findFile files (sourceFileId m)) as [file|];
        [destruct (parsedData file); [discriminate|]|];
        intros Hrun; apply IH in Hrun; destruct Hrun as [-> ->];
        (split; [now rewrite <- app_assoc | reflexivity]).
    + destruct (findFile files (sourceFileId m)) as [file|]; [|discriminate].
      destruct (parsedData file) as [parsed|]; [|discriminate].
      destruct (DataTransformer.transformData _ _ _) as [[hs rows]|msg];
        [|discriminate].
      intros Hrun. apply IH in Hrun. destruct Hrun as [-> ->].
      split; [reflexivity|]. rewrite length_app. cbn [List.length]. lia.
Qed.

Lemma transformFiles_unavailable (files : list (ProcessedFile B))
  (mappings : list (ColumnMapping B)) (ws : list string)
  (tfs : list (TransformedFile B)) :
  (forall m, In m mappings -> unavailable files m = true) ->
  transformFiles files mappings ws tfs
  = (ws ++ map notFoundWarning mappings, Ok tfs).
Proof.
  revert ws. induction mappings as [|m rest IH]; intros ws Hall;
    cbn [transformFiles map].
  - now rewrite app_nil_r.
  - pose proof (Hall m (or_introl eq_refl)) as Hm. unfold unavailable in Hm.
    rewrite IH by (intros m' Hm'; apply Hall; now right).
    rewrite <- app_assoc. cbn [app].
    destruct (findFile files (sourceFileId m)) as [file|]; [|reflexivity].
    destruct (parsedData file); [discriminate | reflexivity].
Qed.

(** A merge that reports no error warns about exactly the mappings whose
    file is not among the files given or carries no parsed data, once per
    such mapping and in the order of the mappings; at least one mapping has
    a usable file. *)
Theorem mergeFiles_warnings (clock : Clock) (files : list (ProcessedFile B))
  (mappings : list (ColumnMapping B)) (options : MergeOptions) :
  errors (mergeFiles clock files mappings options) = [] ->
  warnings (mergeFiles clock files mappings options)
  = map notFoundWarning (filter (unavailable files) mappings)
  /\ filter (fun m => negb (unavailable files m)) mappings <> [].
Proof.
  unfold mergeFiles, tryMerge.
  destruct files as [|f fs]; [discriminate|].
  destruct mappings as [|m ms]; [discriminate|].
  destruct (transformFiles (f :: fs) (m :: ms) [] []) as [ws [tfs|msg]] eqn:Hrun;
    [|discriminate].
  apply transformFiles_Ok in Hrun. destruct Hrun as [-> Hcount].
  cbn [bind]. destruct tfs as [|tf tfs]; [discriminate|].
  destruct (performMerge (tf :: tfs) _ options) as [merged|msg]; [|discriminate].
  cbn [bind warnings app]. intros _. split; [reflexivity|].
  intros Hnone. rewrite Hnone in Hcount. discriminate.
Qed.

(** When no mapping has a usable file the merge fails with the error
    [No valid files to merge after transformation], and still carries one
    warning per mapping. *)
Theorem mergeFiles_no_valid_files (clock : Clock) (files : list (ProcessedFile B))
  (mappings : list (ColumnMapping B)) (options : MergeOptions) :
  files <> [] -> mappings <> [] ->
  (forall m, In m mappings -> unavailable files m = true) ->
  mergeFiles clock files mappings options
  = failedMerge clock files (map notFoundWarning mappings)
      "No valid files to merge after transformation".
Proof.
  intros Hfiles Hmappings Hall. unfold mergeFiles, tryMerge.
  destruct files as [|f fs]; [contradiction|].
  destruct mappings as [|m ms]; [contradiction|].
  rewrite (transformFiles_unavailable _ _ [] [] Hall). reflexivity.
Qed.

End DatasetShape.

(* ================================================================== *)
(** ** The shape of a transformation *)

Lemma mapM_Forall2 {A C} (f : A -> result C) (xs : list A) (ys : list C) :
  mapM f xs = Ok ys -> Forall2 (fun x y => f x = Ok y) xs ys.
Proof.
  revert ys. induction xs as [|x rest IH]; intros ys; simpl.
  - intros [= <-]. constructor.
  - destruct (f x) as [y|message] eqn:Hx; cbn [bind]; [|discriminate].
    destruct (mapM f rest) as [ys'|message]; cbn [bind]; [|discriminate].
    intros [= <-]. constructor; [exact Hx | now apply IH].
Qed.

Lemma mapM_Throw {A C} (f : A -> result C) (xs : list A) (message : string) :
  mapM f xs = Throw message -> exists x message', In x xs /\ f x = Throw message'.
Proof.
  revert message. induction xs as [|x rest IH]; intros message; simpl;
    [discriminate|].
  destruct (f x) as [y|message'] eqn:Hx; cbn [bind].
  - destruct (mapM f rest) as [ys'|message']; cbn [bind]; [discriminate|].
    intros _. destruct (IH message' eq_refl) as (x' & m' & Hin & Hf).
    exists x', m'. split; [now right | exact Hf].
  - intros _. exists x, message'. split; [now left | exact Hx].
Qed.

Lemma Forall2_nth_error_l {A C} (R : A -> C -> Prop) (xs : list A) (ys : list C)
  (j : nat) (x : A) :
  Forall2 R xs ys -> nth_error xs j = Some x ->
  exists y, nth_error ys j = Some y /\ R x y.
Proof.
  intros H. revert j. induction H as [|x0 y0 xs ys Hxy _ IH]; intros [|j]; simpl;
    try discriminate.
  - intros [= <-]. now exists y0.
  - apply IH.
Qed.

Section TransformShape.
Context {B : Builtins}.

Lemma applyTransformation_Throw (value : cell B) (transform : Transform)
  (params : option (list (string * ParamValue number))) (message : string) :
  DataTransformer.applyTransformation value transform params = Throw message ->
  transform = date_format \/ transform = number_format.
Proof.
  destruct transform; [| | | now left | now right];
    destruct value; simpl; discriminate.
Qed.

(** [transformData] gives the target columns as headers, one row per input
    row and one cell per mapping entry.  An entry whose source column is not
    a header of the file raises nothing: its column is all nulls.  The
    function throws only when an entry asks for [date_format] or
    [number_format]. *)
Theorem transformData_shape (data : list (list (cell B))) (headers : list string)
  (mapping : list (MappingEntry B)) :
  match DataTransformer.transformData data headers mapping with
  | Ok (transformedHeaders, transformedData) =>
      transformedHeaders = map (fun map => targetColumn map) mapping
      /\ List.length transformedData = List.length data
      /\ Forall (fun row => List.length row = List.length mapping) transformedData
      /\ (forall j map row,
            nth_error mapping j = Some map ->
            ~ In (sourceColumn map) headers ->
            In row transformedData ->
            nth_error row j = Some Null)
  | Throw _ =>
      exists map,
        In map mapping
        /\ (transform map = Some date_format \/ transform map = Some number_format)
  end.
Proof.
  unfold DataTransformer.transformData. cbv zeta.
  match goal with
  | |- context [mapM ?perRow data] =>
      destruct (mapM perRow data) as [rows|message] eqn:Hrows
  end; cbn [bind].
  - apply mapM_Forall2 in Hrows.
    split; [reflexivity|].
    split; [symmetry; eapply Forall2_length; exact Hrows|].
    assert (Heach : forall newRow, In newRow rows ->
              exists row, Forall2
                (fun map cell =>
                   match transform map with
                   | Some t =>
                       if negb (isNull
                                  match Map_get String.eqb
                                          (DataTransformer.indexMap headers)
                                          (sourceColumn map) with
                                  | Some sourceIndex => at_index row sourceIndex
                                  | None => Null
                                  end)
                       then DataTransformer.applyTransformation
                              match Map_get String.eqb
                                      (DataTransformer.indexMap headers)
                                      (sourceColumn map) with
                              | Some sourceIndex => at_index row sourceIndex
                              | None => Null
                              end t (transformParams map)
                       else Ok match Map_get String.eqb
                                       (DataTransformer.indexMap headers)
                                       (sourceColumn map) with
                               | Some sourceIndex => at_index row sourceIndex
                               | None => Null
                               end
                   | None =>
                       Ok match Map_get String.eqb
                                  (DataTransformer.indexMap headers)
                                  (sourceColumn map) with
                          | Some sourceIndex => at_index row sourceIndex
                          | None => Null
                          end
                   end = Ok cell) mapping newRow).
    { clear - Hrows. induction Hrows as [|row newRow data rows Hrow _ IH];
        intros r Hin; [destruct Hin|].
      destruct Hin as [<-|Hin]; [|now apply IH].
      exists row. now apply mapM_Forall2. }
    split.
    + apply Forall_forall. intros newRow Hin.
      destruct (Heach newRow Hin) as [row Hrow].
      symmetry. eapply Forall2_length. exact Hrow.
    + intros j map newRow Hj Hnot Hin.
      destruct (Heach newRow Hin) as [row Hrow].
      destruct (Forall2_nth_error_l _ Hrow Hj) as (cell & Hcell & Hvalue).
      rewrite Hcell. f_equal.
      rewrite (indexMap_absent _ _ Hnot) in Hvalue. cbn [isNull negb] in Hvalue.
      destruct (transform map); congruence.
  - apply mapM_Throw in Hrows. destruct Hrows as (row & message' & _ & Hrow).
    apply mapM_Throw in Hrow. destruct Hrow as (map & message'' & Hin & Hmap).
    exists map. split; [exact Hin|].
    destruct (transform map) as [t|]; [|discriminate].
    destruct (negb _); [|discriminate].
    apply applyTransformation_Throw in Hmap. destruct Hmap as [-> | ->]; auto.
Qed.

(** A row that is too short for a source column has [undefined] there, not
    [null], so the transformation is applied to it: under [uppercase] the
    missing cell becomes the text of [undefined] in capitals, and under
    [lowercase] the text [undefined] in small letters. *)
Theorem transformData_short_row (row : list (cell B)) (headers : list string)
  (entry : MappingEntry B) (index : nat) :
  NoDup headers ->
  indexOf headers (sourceColumn entry) = Some index ->
  (List.length row <= index)%nat ->
  (transform entry = Some uppercase ->
   DataTransformer.transformData [row] headers [entry]
   = Ok ([targetColumn entry], [[Str (toUpperCase "undefined")]]))
  /\ (transform entry = Some lowercase ->
      DataTransformer.transformData [row] headers [entry]
      = Ok ([targetColumn entry], [[Str (toLowerCase "undefined")]])).
Proof.
  intros Hnd Hindex Hshort. unfold DataTransformer.transformData. cbv zeta.
  cbn [mapM map]. rewrite (indexMap_indexOf _ Hnd), Hindex.
  unfold at_index. rewrite (nth_overflow row Undefined Hshort).
  split; intros ->; reflexivity.
Qed.

End TransformShape.

(* ================================================================== *)
(** ** The two type detectors compared *)

Lemma ratio_gt (count total : nat) :
  (0 < total)%nat ->
  ((8 # 10 < ratio count total)%Q <-> (8 * total < 10 * count)%nat).
Proof.
  intros Hpos. unfold ratio.
  destruct total as [|t]; [lia|].
  unfold Qlt, Qdiv, Qmult, Qinv, inject_Z.
  cbn [Z.of_nat Qnum Qden]. cbn [Qnum Qden].
  rewrite !Z.mul_1_r, !Pos.mul_1_l. lia.
Qed.

Lemma ratio_le_1 (count total : nat) :
  (count <= total)%nat -> (0 < total)%nat -> (ratio count total <= 1)%Q.
Proof.
  intros Hle Hpos. unfold ratio.
  destruct total as [|t]; [lia|].
  unfold Qle, Qdiv, Qmult, Qinv, inject_Z.
  cbn [Z.of_nat Qnum Qden]. cbn [Qnum Qden].
  rewrite !Z.mul_1_r, !Pos.mul_1_l. lia.
Qed.

Section DetectorsCompared.
Context {B : Builtins}.
Import FileUtils.

Lemma typeCounts_total (values : list (cell B)) (tc : TypeCounts) :
  let final := fold_left countValue values tc in
  (count_string final + count_number final + count_date final + count_boolean final
   <= count_string tc + count_number tc + count_date tc + count_boolean tc
      + List.length values)%nat.
Proof.
  revert tc. induction values as [|v rest IH]; intros tc; cbn [fold_left].
  - cbv zeta. simpl. lia.
  - specialize (IH (countValue tc v)). cbv zeta in *.
    etransitivity; [exact IH|]. destruct v; simpl; lia.
Qed.

(** A counter above 0.8 of the total is the dominant one. *)
Lemma dominant_clear (tc : TypeCounts) (total : nat) :
  (count_string tc + count_number tc + count_date tc + count_boolean tc
   <= total)%nat ->
  ((8 * total < 10 * count_string tc)%nat ->
   dominant tc = (TString, count_string tc))
  /\ ((8 * total < 10 * count_number tc)%nat ->
      dominant tc = (TNumber, count_number tc))
  /\ ((8 * total < 10 * count_date tc)%nat ->
      dominant tc = (TDate, count_date tc)).
Proof.
  destruct tc as [cs cn cd cb]. unfold dominant, entries.
  cbn [count_string count_number count_date count_boolean fold_left snd].
  intros Hsum. rewrite Nat.ltb_irrefl.
  repeat split; intros Hclear; cbn [snd];
    repeat match goal with
           | |- context [(?a <? ?b)%nat] =>
               is_var a; is_var b; destruct (Nat.ltb_spec a b); cbn [snd]
           end; try reflexivity; lia.
Qed.

(** Where the merger's detector names a type -- more than 0.8 of the
    non-null cells are numbers, or dates, or strings -- the parse-time
    detector describes the column in the same way: same type, same
    confidence, same samples and counts. *)
Theorem detectColumn_agree (data : list (list (cell B))) (index : nat)
  (header : string) :
  type (DataMerger.detectColumn data index header) <> TMixed ->
  type (DataMerger.detectColumn data index header) <> TUnknown ->
  detectColumn data index header = DataMerger.detectColumn data index header.
Proof.
  unfold detectColumn, DataMerger.detectColumn. fold (columnData data index).
  set (values := columnData data index). cbv zeta.
  pose proof (typeCounts_from values
                {| count_string := 0; count_number := 0; count_date := 0;
                   count_boolean := 0 |}) as (Hs & Hn & Hd).
  pose proof (typeCounts_total values
                {| count_string := 0; count_number := 0; count_date := 0;
                   count_boolean := 0 |}) as Htotal.
  cbv zeta in Hs, Hn, Hd, Htotal. fold (typeCounts values) in Hs, Hn, Hd, Htotal.
  cbn [count_string count_number count_date count_boolean Nat.add] in *.
  destruct (dominant_clear (typeCounts values) Htotal) as (Hcs & Hcn & Hcd).
  rewrite Hs in Hcs. rewrite Hn in Hcn. rewrite Hd in Hcd.
  destruct (Nat.eqb_spec (List.length values) 0) as [Hnone|Hsome];
    [intros _ Hunknown; now contradiction Hunknown|].
  assert (Hpos : (0 < List.length values)%nat) by lia.
  assert (Hfirst : (0 <? List.length values)%nat = true) by now apply Nat.ltb_lt.
  assert (Hkeep : forall count,
             (8 # 10 < ratio count (List.length values))%Q ->
             Qlt_bool (ratio count (List.length values)) (8 # 10) = false).
  { intros count Hgt. destruct (Qlt_bool _ _) eqn:E; [|reflexivity].
    apply Qlt_bool_iff in E. exfalso.
    exact (Qlt_irrefl _ (Qlt_trans _ _ _ Hgt E)). }
  destruct (Qlt_bool (8 # 10)
              (ratio (List.length (filter DataMerger.isNum values))
                 (List.length values))) eqn:Enum.
  - intros _ _. apply Qlt_bool_iff in Enum.
    rewrite (Hcn (proj1 (ratio_gt _ Hpos) Enum)), Hfirst, (Hkeep _ Enum).
    reflexivity.
  - destruct (Qlt_bool (8 # 10)
                (ratio (List.length (filter DataMerger.isDate values))
                   (List.length values))) eqn:Edate.
    + intros _ _. apply Qlt_bool_iff in Edate.
      rewrite (Hcd (proj1 (ratio_gt _ Hpos) Edate)), Hfirst, (Hkeep _ Edate).
      reflexivity.
    + destruct (Qlt_bool (8 # 10)
                  (ratio (List.length (filter DataMerger.isStr values))
                     (List.length values))) eqn:Estr.
      * intros _ _. apply Qlt_bool_iff in Estr.
        rewrite (Hcs (proj1 (ratio_gt _ Hpos) Estr)), Hfirst, (Hkeep _ Estr).
        reflexivity.
      * intros Hmixed. now contradiction Hmixed.
Qed.

(** What the merger's detector writes in a description: the header as the
    name; at most ten samples, none of them null; a null count between 0
    and the number of rows; no more unique values than non-null cells; and
    a confidence that goes with the type: above 0.8 and at most 1 for
    [number], [date] and [string], 0.5 for [mixed], 0 for [unknown].  It
    never answers [boolean]. *)
Theorem merged_detectColumn_descriptor (data : list (list (cell B)))
  (index : nat) (header : string) :
  let ct := DataMerger.detectColumn data index header in
  name ct = header
  /\ (List.length (samples ct) <= 10)%nat
  /\ Forall (fun value => value <> Null) (samples ct)
  /\ (0 <= nullCount ct <= Z.of_nat (List.length data))%Z
  /\ (Z.of_nat (uniqueCount ct) <= Z.of_nat (List.length data) - nullCount ct)%Z
  /\ match type ct with
     | TNumber | TDate | TString =>
         (8 # 10 < confidence ct)%Q /\ (confidence ct <= 1)%Q
     | TMixed => confidence ct = (1 # 2)%Q
     | TUnknown => confidence ct = 0%Q
     | TBoolean => False
     end.
Proof.
  cbv zeta. unfold DataMerger.detectColumn. fold (columnData data index).
  set (values := columnData data index).
  assert (Hvalues : (List.length values <= List.length data)%nat).
  { unfold values, columnData.
    etransitivity; [apply filter_length_le | now rewrite length_map]. }
  assert (Hnonnull : Forall (fun value : cell B => value <> Null) values).
  { apply Forall_forall. intros value Hin. unfold values, columnData in Hin.
    apply filter_In in Hin. destruct Hin as [_ Hin]. now destruct value. }
  assert (Hunique : (List.length (Set_from sameValueZero values)
                     <= List.length values)%nat).
  { unfold Set_from. apply (Set_fold_length sameValueZero values []). }
  assert (Hcount : forall p : cell B -> bool,
             (List.length (filter p values) <= List.length values)%nat)
    by (intros p; apply filter_length_le).
  assert (Hshape :
    forall detected : DataType * Q,
      match fst detected with
      | TNumber | TDate | TString =>
          (8 # 10 < snd detected)%Q /\ (snd detected <= 1)%Q
      | TMixed => snd detected = (1 # 2)%Q
      | TUnknown => snd detected = 0%Q
      | TBoolean => False
      end ->
      let ct :=
        let '(type, confidence) := detected in
        {| name := header; type := type; confidence := confidence;
           samples := firstn 10 values;
           nullCount := Z.of_nat (List.length data) - Z.of_nat (List.length values);
           uniqueCount := List.length (Set_from sameValueZero values) |} in
      name ct = header
      /\ (List.length (samples ct) <= 10)%nat
      /\ Forall (fun value => value <> Null) (samples ct)
      /\ (0 <= nullCount ct <= Z.of_nat (List.length data))%Z
      /\ (Z.of_nat (uniqueCount ct) <= Z.of_nat (List.length data) - nullCount ct)%Z
      /\ match type ct with
         | TNumber | TDate | TString =>
             (8 # 10 < confidence ct)%Q /\ (confidence ct <= 1)%Q
         | TMixed => confidence ct = (1 # 2)%Q
         | TUnknown => confidence ct = 0%Q
         | TBoolean => False
         end).
  { intros [t c] Hc. cbn [fst snd] in Hc.
    cbn [name samples nullCount uniqueCount type confidence].
    split; [reflexivity|].
    split; [rewrite length_firstn; lia|].
    split.
    { rewrite Forall_forall in *. intros value Hin. apply Hnonnull.
      rewrite <- (firstn_skipn 10 values). apply in_or_app. now left. }
    split; [lia|]. split; [lia | exact Hc]. }
  apply Hshape.
  destruct (Nat.eqb_spec (List.length values) 0) as [Hnone|Hsome];
    [reflexivity|].
  assert (Hpos : (0 < List.length values)%nat) by lia.
  repeat match goal with
         | |- context [Qlt_bool (8 # 10) ?r] =>
             let E := fresh "E" in
             destruct (Qlt_bool (8 # 10) r) eqn:E;
             [apply Qlt_bool_iff in E; cbn [fst snd];
              split; [exact E | apply ratio_le_1; [apply Hcount | exact Hpos]]|]
         end.
  reflexivity.
Qed.

End DetectorsCompared.

(* ================================================================== *)
(** ** Automatic mappings, for every matcher *)

Section AutoMappingFacts.
Context {B : Builtins}.
Variable score : Type.
Variable findMatches : list string -> string -> nat -> list (AutoMapping.ColumnSuggestion score).
Variable atLeast : score -> score -> bool.
Import AutoMapping DataTypeDetector.

Lemma entriesFor_In (source target : ParsedData B) (confidenceThreshold : score)
  (column : string) (entry : MappingEntry B) :
  In entry (entriesFor findMatches atLeast source target confidenceThreshold column) ->
  entriesFor findMatches atLeast source target confidenceThreshold column = [entry]
  /\ sourceColumn entry = column
  /\ exists sourceColType targetColType,
       In sourceColType (columnTypes source)
       /\ name sourceColType = sourceColumn entry
       /\ In targetColType (columnTypes target)
       /\ name targetColType = targetColumn entry
       /\ areTypesCompatible (type sourceColType) (type targetColType) = true
       /\ transform entry
          = Some (getRecommendedTransform (type sourceColType) (type targetColType)).
Proof.
  unfold entriesFor.
  destruct (findMatches (headers target) column 1) as [|bestMatch others];
    [intros []|].
  destruct (atLeast (similarity bestMatch) confidenceThreshold); [|intros []].
  destruct (find (fun c => String.eqb (name c) column) (columnTypes source))
    as [sourceColType|] eqn:Hsource; [|intros []].
  destruct (find (fun c => String.eqb (name c) (suggestion_targetColumn bestMatch))
              (columnTypes target)) as [targetColType|] eqn:Htarget; [|intros []].
  destruct (areTypesCompatible (type sourceColType) (type targetColType)) eqn:Hok;
    [|intros []].
  intros [<-|[]]. cbn [sourceColumn targetColumn transform].
  apply find_some in Hsource, Htarget.
  destruct Hsource as [Hs1 Hs2]. destruct Htarget as [Ht1 Ht2].
  apply String.eqb_eq in Hs2, Ht2.
  split; [reflexivity|]. split; [reflexivity|].
  exists sourceColType, targetColType. repeat split; assumption.
Qed.

Lemma entriesFor_NoDup (source target : ParsedData B) (confidenceThreshold : score)
  (columns : list string) :
  NoDup columns ->
  NoDup (map (fun entry => sourceColumn entry)
           (flat_map (entriesFor findMatches atLeast source target confidenceThreshold)
              columns)).
Proof.
  induction columns as [|column rest IH]; intros Hnd; cbn [flat_map map];
    [constructor|].
  inversion Hnd as [|? ? Hnot Hrest]; subst.
  rewrite map_app. apply NoDup_app.
  - destruct (entriesFor findMatches atLeast source target confidenceThreshold column)
      as [|entry others] eqn:Hentries; [constructor|].
    assert (Hin : In entry
                    (entriesFor findMatches atLeast source target
                       confidenceThreshold column))
      by (rewrite Hentries; now left).
    apply entriesFor_In in Hin. destruct Hin as [Hone _].
    rewrite Hentries in Hone. injection Hone as ->.
    cbn [map]. constructor; [intros [] | constructor].
  - now apply IH.
  - intros x Hleft Hright. apply in_map_iff in Hleft, Hright.
    destruct Hleft as (entry & <- & Hentry).
    destruct Hright as (entry' & Hsame & Hentry').
    apply entriesFor_In in Hentry. destruct Hentry as (_ & Hcolumn & _).
    apply in_flat_map in Hentry'. destruct Hentry' as (column' & Hcolumn' & Hentry').
    apply entriesFor_In in Hentry'. destruct Hentry' as (_ & Hcolumn'' & _).
    apply Hnot. congruence.
Qed.

(** Whatever the matcher suggests, [generateAutoMappings] throws exactly
    when one of the two files carries no parsed data.  Otherwise the mapping
    names the two files, and each of its entries maps a header of the source
    file to the name of a described column of the target file whose type is
    compatible with the source column's; its transform is the one
    recommended for the two types, so never [uppercase] or [lowercase].
    Distinct source headers get at most one entry each. *)
Theorem generateAutoMappings_entries (clock : DataMerger.Clock)
  (sourceFile targetFile : ProcessedFile B) (confidenceThreshold : score) :
  match generateAutoMappings findMatches atLeast clock sourceFile targetFile
          confidenceThreshold with
  | Throw message =>
      message = "Both files must have parsed data"
      /\ (parsedData sourceFile = None \/ parsedData targetFile = None)
  | Ok mapping =>
      exists source target,
        parsedData sourceFile = Some source
        /\ parsedData targetFile = Some target
        /\ sourceFileId mapping = file_id sourceFile
        /\ targetFileId mapping = Some (file_id targetFile)
        /\ (forall entry, In entry (mappings mapping) ->
              In (sourceColumn entry) (headers source)
              /\ (exists sourceColType targetColType,
                     In sourceColType (columnTypes source)
                     /\ name sourceColType = sourceColumn entry
                     /\ In targetColType (columnTypes target)
                     /\ name targetColType = targetColumn entry
                     /\ areTypesCompatible (type sourceColType) (type targetColType)
                        = true
                     /\ transform entry
                        = Some (getRecommendedTransform (type sourceColType)
                                  (type targetColType)))
              /\ transform entry <> Some uppercase
              /\ transform entry <> Some lowercase
              /\ transform entry <> None)
        /\ (NoDup (headers source) ->
            NoDup (map (fun entry => sourceColumn entry) (mappings mapping)))
  end.
Proof.
  unfold generateAutoMappings.
  destruct (parsedData sourceFile) as [source|]; [|split; auto].
  destruct (parsedData targetFile) as [target|]; [|split; auto].
  exists source, target. cbn [sourceFileId targetFileId mappings].
  repeat split; try reflexivity.
  - apply in_flat_map in H. destruct H as (column & Hcolumn & Hentry).
    apply entriesFor_In in Hentry. destruct Hentry as (_ & <- & _). exact Hcolumn.
  - apply in_flat_map in H. destruct H as (column & Hcolumn & Hentry).
    apply entriesFor_In in Hentry. destruct Hentry as (_ & _ & Htypes).
    exact Htypes.
  - apply in_flat_map in H. destruct H as (column & Hcolumn & Hentry).
    apply entriesFor_In in Hentry.
    destruct Hentry as (_ & _ & s & t & _ & _ & _ & _ & _ & ->).
    destruct (type s), (type t); vm_compute; discriminate.
  - apply in_flat_map in H. destruct H as (column & Hcolumn & Hentry).
    apply entriesFor_In in Hentry.
    destruct Hentry as (_ & _ & s & t & _ & _ & _ & _ & _ & ->).
    destruct (type s), (type t); vm_compute; discriminate.
  - apply in_flat_map in H. destruct H as (column & Hcolumn & Hentry).
    apply entriesFor_In in Hentry.
    destruct Hentry as (_ & _ & s & t & _ & _ & _ & _ & _ & ->). discriminate.
  - apply entriesFor_NoDup.
Qed.

(** An automatic mapping, validated against its own source file, can fail
    in one way only: a target column that several source columns were
    matched to.  No source column of it is unknown to the file. *)
Theorem validateMapping_generateAutoMappings (clock : DataMerger.Clock)
  (sourceFile targetFile : ProcessedFile B) (confidenceThreshold : score) :
  match generateAutoMappings findMatches atLeast clock sourceFile targetFile
          confidenceThreshold with
  | Ok mapping =>
      forall e,
        In e (MappingGenerator.validateMapping mapping sourceFile None) ->
        exists column,
          e = MappingGenerator.mappedTwice column
          /\ (1 < occurrences column (mappings mapping))%nat
  | Throw _ => parsedData sourceFile = None \/ parsedData targetFile = None
  end.
Proof.
  unfold generateAutoMappings.
  destruct (parsedData sourceFile) as [source|] eqn:Hsource; [|now left].
  destruct (parsedData targetFile) as [target|]; [|now right].
  intros e. unfold MappingGenerator.validateMapping.
  rewrite Hsource. cbv zeta. cbn [mappings app].
  rewrite flat_map_nil.
  2:{ intros entry Hentry. apply in_flat_map in Hentry.
      destruct Hentry as (column & Hcolumn & Hentry).
      apply entriesFor_In in Hentry. destruct Hentry as (_ & <- & _).
      apply includes_In in Hcolumn. now rewrite Hcolumn. }
  cbn [app]. intros Hin. apply in_flat_map in Hin.
  destruct Hin as ([column count] & Hcount & He).
  apply countTargets_In in Hcount. subst count.
  destruct (Nat.ltb_spec 1
              (occurrences column
                 (flat_map
                    (entriesFor findMatches atLeast source target confidenceThreshold)
                    (headers source)))) as [Hmany|Hfew]; [|destruct He].
  destruct He as [<-|[]]. exists column. split; [reflexivity | exact Hmany].
Qed.

End AutoMappingFacts.

(* ================================================================== *)
(** ** The Jaccard similarity, in full *)

Lemma ratio_nonneg (count total : nat) : (0 <= ratio count total)%Q.
Proof.
  unfold ratio. destruct total as [|t].
  - unfold Qle, Qdiv, Qmult, Qinv, inject_Z. cbn. lia.
  - unfold Qle, Qdiv, Qmult, Qinv, inject_Z.
    cbn [Z.of_nat Qnum Qden]. cbn [Qnum Qden]. lia.
Qed.

Lemma ratio_one (count total : nat) :
  (0 < total)%nat -> ((ratio count total == 1)%Q <-> count = total).
Proof.
  intros Hpos. unfold ratio. destruct total as [|t]; [lia|].
  unfold Qeq, Qdiv, Qmult, Qinv, inject_Z.
  cbn [Z.of_nat Qnum Qden]. cbn [Qnum Qden].
  rewrite !Z.mul_1_r, !Pos.mul_1_l. lia.
Qed.

Lemma ratio_zero (count total : nat) :
  (0 < total)%nat -> ((ratio count total == 0)%Q <-> count = 0%nat).
Proof.
  intros Hpos. unfold ratio. destruct total as [|t]; [lia|].
  unfold Qeq, Qdiv, Qmult, Qinv, inject_Z.
  cbn [Z.of_nat Qnum Qden]. cbn [Qnum Qden].
  rewrite !Z.mul_1_r. lia.
Qed.

Section JaccardFacts.
Import TextUtils.

Local Abbreviation common words1 words2 :=
  (Set_from String.eqb
     (filter (fun x => Set_has String.eqb (Set_from String.eqb words2) x)
        (Set_from String.eqb words1))).
Local Abbreviation either words1 words2 :=
  (Set_from String.eqb (Set_from String.eqb words1 ++ Set_from String.eqb words2)).

Lemma common_In (words1 words2 : list string) (x : string) :
  In x (common words1 words2) <-> In x words1 /\ In x words2.
Proof.
  rewrite (Set_from_In String.eqb String.eqb_eq), filter_In.
  rewrite (Set_has_In String.eqb String.eqb_eq).
  rewrite !(Set_from_In String.eqb String.eqb_eq). tauto.
Qed.

Lemma either_In (words1 words2 : list string) (x : string) :
  In x (either words1 words2) <-> In x words1 \/ In x words2.
Proof.
  rewrite (Set_from_In String.eqb String.eqb_eq), in_app_iff.
  rewrite !(Set_from_In String.eqb String.eqb_eq). tauto.
Qed.

Lemma jaccardSimilarity_ratio (words1 words2 : list string) :
  jaccardSimilarity words1 words2
  = if Nat.eqb (List.length (either words1 words2)) 0 then 0%Q
    else ratio (List.length (common words1 words2))
           (List.length (either words1 words2)).
Proof. reflexivity. Qed.

(** The Jaccard similarity lies between 0 and 1 and does not depend on the
    order of its arguments.  It is 0 exactly when the two lists share no
    word, and 1 exactly when they hold the same words and are not empty. *)
Theorem jaccardSimilarity_range (words1 words2 : list string) :
  (0 <= jaccardSimilarity words1 words2)%Q
  /\ (jaccardSimilarity words1 words2 <= 1)%Q
  /\ jaccardSimilarity words1 words2 = jaccardSimilarity words2 words1
  /\ ((jaccardSimilarity words1 words2 == 0)%Q
      <-> forall x, In x words1 -> ~ In x words2)
  /\ ((jaccardSimilarity words1 words2 == 1)%Q
      <-> words1 <> [] /\ forall x, In x words1 <-> In x words2).
Proof.
  assert (Hnd : forall a b, NoDup (common a b) /\ NoDup (either a b)).
  { intros a b. split; apply Set_from_NoDup, String.eqb_eq. }
  assert (Hle : (List.length (common words1 words2)
                 <= List.length (either words1 words2))%nat).
  { apply NoDup_incl_length; [apply Hnd|].
    intros x Hx. apply common_In in Hx. apply either_In. tauto. }
  assert (Hcommon : List.length (common words1 words2)
                    = List.length (common words2 words1)).
  { apply Permutation_length, NoDup_Permutation; try apply Hnd.
    intros x. rewrite !common_In. tauto. }
  assert (Heither : List.length (either words1 words2)
                    = List.length (either words2 words1)).
  { apply Permutation_length, NoDup_Permutation; try apply Hnd.
    intros x. rewrite !either_In. tauto. }
  assert (Hempty : List.length (either words1 words2) = 0%nat
                   -> words1 = [] /\ words2 = []).
  { intros H0. apply length_zero_iff_nil in H0.
    split.
    - destruct words1 as [|w rest]; [reflexivity|].
      assert (Hin : In w (either (w :: rest) words2))
        by (apply either_In; left; now left).
      rewrite H0 in Hin. destruct Hin.
    - destruct words2 as [|w rest]; [reflexivity|].
      assert (Hin : In w (either words1 (w :: rest)))
        by (apply either_In; right; now left).
      rewrite H0 in Hin. destruct Hin. }
  rewrite (jaccardSimilarity_ratio words2 words1), <- Hcommon, <- Heither.
  rewrite jaccardSimilarity_ratio.
  destruct (Nat.eqb_spec (List.length (either words1 words2)) 0) as [H0|Hsome].
  - destruct (Hempty H0) as [-> ->].
    repeat split; try reflexivity; try discriminate.
    + intros _ x [].
    + intros [Hne _]. now contradiction Hne.
  - assert (Hpos : (0 < List.length (either words1 words2))%nat) by lia.
    split; [apply ratio_nonneg|].
    split; [now apply ratio_le_1|].
    split; [reflexivity|].
    split.
    + rewrite (ratio_zero _ Hpos), length_zero_iff_nil. split.
      * intros Hnone x H1 H2.
        assert (Hin : In x (common words1 words2)) by (apply common_In; tauto).
        rewrite Hnone in Hin. destruct Hin.
      * intros Hdisjoint.
        destruct (common words1 words2) as [|x rest] eqn:Hc; [reflexivity|].
        assert (Hin : In x (common words1 words2)) by (rewrite Hc; now left).
        apply common_In in Hin. exfalso. exact (Hdisjoint x (proj1 Hin) (proj2 Hin)).
    + rewrite (ratio_one _ Hpos). split.
      * intros Hsame.
        assert (Hincl : incl (either words1 words2) (common words1 words2)).
        { apply NoDup_length_incl; [apply Hnd | lia |].
          intros x Hx. apply common_In in Hx. apply either_In. tauto. }
        assert (Hboth : forall x, In x words1 \/ In x words2 ->
                                  In x words1 /\ In x words2).
        { intros x Hx. apply common_In, Hincl, either_In, Hx. }
        split.
        -- intros ->. destruct words2 as [|w rest].
           ++ apply Hsome. reflexivity.
           ++ destruct (Hboth w (or_intror (or_introl eq_refl))) as [[] _].
        -- intros x. split; intros Hx; apply Hboth; tauto.
      * intros [_ Hsame].
        apply Permutation_length, NoDup_Permutation; try apply Hnd.
        intros x. rewrite common_In, either_In. specialize (Hsame x). tauto.
Qed.

End JaccardFacts.

(* ================================================================== *)
(** ** Word overlap *)

(** The word overlap of the matcher is not a fraction of a whole: a word
    the source repeats is counted each time, while the union counts it
    once.  On source words that are pairwise different the value is at most
    1; on a word written [n] times against that word alone it is [n]. *)
Theorem calculateWordOrderSimilarity_range :
  (forall sourceWords targetWords,
      sourceWords <> [] ->
      (0 <= ColumnMatcher.calculateWordOrderSimilarity sourceWords targetWords)%Q)
  /\ (forall sourceWords targetWords,
         sourceWords <> [] -> NoDup sourceWords ->
         (ColumnMatcher.calculateWordOrderSimilarity sourceWords targetWords <= 1)%Q)
  /\ (forall word n,
         (ColumnMatcher.calculateWordOrderSimilarity (repeat word (S n)) [word]
          == inject_Z (Z.of_nat (S n)))%Q).
Proof.
  unfold ColumnMatcher.calculateWordOrderSimilarity. cbv zeta.
  split; [|split].
  - intros sourceWords targetWords _. apply ratio_nonneg.
  - intros sourceWords targetWords Hne Hnd.
    assert (Hle : (List.length (filter (fun word => includes targetWords word)
                                  sourceWords)
                   <= List.length (Set_from String.eqb (sourceWords ++ targetWords)))%nat).
    { apply NoDup_incl_length; [now apply NoDup_filter|].
      intros x Hx. apply filter_In in Hx.
      apply (Set_from_In String.eqb String.eqb_eq), in_or_app. tauto. }
    apply ratio_le_1; [exact Hle|].
    destruct sourceWords as [|w rest]; [contradiction|].
    assert (Hin : In w (Set_from String.eqb ((w :: rest) ++ targetWords)))
      by (apply (Set_from_In String.eqb String.eqb_eq); now left).
    destruct (Set_from String.eqb ((w :: rest) ++ targetWords));
      [destruct Hin | simpl; lia].
  - intros word n.
    assert (Hall : filter (fun w => includes [word] w) (repeat word (S n))
                   = repeat word (S n)).
    { apply filter_all. intros w Hw. apply repeat_spec in Hw. subst w.
      apply includes_In. now left. }
    assert (Hone : List.length (Set_from String.eqb (repeat word (S n) ++ [word]))
                   = List.length (Set_from String.eqb [word])).
    { apply (Set_from_size String.eqb String.eqb_eq). intros x.
      rewrite in_app_iff. split.
      - intros [Hx|Hx]; [apply repeat_spec in Hx; subst x; now left | exact Hx].
      - intros Hx. now right. }
    rewrite Hall, Hone, repeat_length. cbn [Set_from fold_left List.length].
    unfold ratio, Qeq, Qdiv, Qmult, Qinv, inject_Z. cbn [Z.of_nat Qnum Qden].
    cbn. lia.
Qed.

(* ================================================================== *)
(** ** Further theorems at concrete inputs *)

Section WorkedFurther.
Import AsciiHost DataMerger Fixtures Examples.

(** The similarity of [Name] and [nam] on the host, whose lower-casing
    keeps lengths. *)
Lemma calculateSimilarity_range_witness :
  (0 <= TextMetrics.calculateSimilarity (B := host) "Name" "nam"
   /\ TextMetrics.calculateSimilarity (B := host) "Name" "nam" <= 1)%Q.
Proof.
  apply (calculateSimilarity_range (B := host) "Name" "nam"); reflexivity.
Defined.

(** One row, its column [v] kept under the name [value]. *)
Lemma transformData_none_witness :
  DataTransformer.transformData (B := host) [[Str "1"; Str "a"]] ["k"; "v"]
    [entry "v" "value"]
  = Ok (["value"], [[Str "a"]]).
Proof.
  apply (@transformData_none host [[Str "1"; Str "a"]] ["k"; "v"]
           [entry "v" "value"]).
  - repeat constructor; simpl; intuition discriminate.
  - intros e [<-|[]]. right. reflexivity.
Defined.

(** Three rows, the third repeating the first, under [keep_last]. *)
Lemma handleDuplicates_distinct_witness :
  NoDup (map JSON_stringify
           (fst (handleDuplicates (B := host) [[Str "a"]; [Str "b"]; [Str "a"]]
                   keep_last)))
  /\ (Z.of_nat (List.length
                  (fst (handleDuplicates (B := host)
                          [[Str "a"]; [Str "b"]; [Str "a"]] keep_last)))
      + snd (handleDuplicates (B := host) [[Str "a"]; [Str "b"]; [Str "a"]] keep_last)
      = 3)%Z.
Proof.
  destruct (@handleDuplicates_distinct host
              [[Str "a"]; [Str "b"]; [Str "a"]] keep_last)
    as (Hdistinct & _ & _ & _ & Hcount); [discriminate|].
  split; [exact Hdistinct | exact Hcount].
Defined.

(** The join example with a second mapping of a file that was not given. *)
Lemma mergeFiles_warnings_witness :
  warnings (mergeFiles (B := host) clock joinFiles partlyMissingMappings
              (options Inner (Some "k") keep_first None))
  = ["File gone not found or has no data"].
Proof.
  refine (proj1 (@mergeFiles_warnings host clock joinFiles
                   partlyMissingMappings (options Inner (Some "k") keep_first None)
                   _)).
  vm_compute. reflexivity.
Defined.

(** A failed file and a file that was not given. *)
Lemma mergeFiles_no_valid_files_witness :
  mergeFiles (B := host) clock unusableFiles unusableMappings
    (options Inner None keep_first None)
  = failedMerge clock unusableFiles
      ["File a not found or has no data"; "File b not found or has no data"]
      "No valid files to merge after transformation".
Proof.
  apply (@mergeFiles_no_valid_files host clock unusableFiles unusableMappings
           (options Inner None keep_first None)).
  - discriminate.
  - discriminate.
  - intros m [<-|[<-|[]]]; reflexivity.
Defined.

(** A row of one cell in a file of two columns: the second column is
    written in capitals. *)
Lemma transformData_short_row_witness :
  DataTransformer.transformData (B := host) [[Str "x"]] ["a"; "b"] [upperEntry]
  = Ok (["B"], [[Str "UNDEFINED"]]).
Proof.
  refine (proj1 (@transformData_short_row host [Str "x"] ["a"; "b"]
                   upperEntry 1 _ _ _) _).
  - repeat constructor; simpl; intuition discriminate.
  - reflexivity.
  - simpl. lia.
  - reflexivity.
Defined.

(** A column of two numbers. *)
Lemma detectColumn_agree_witness :
  FileUtils.detectColumn (B := host) [[int 1]; [int 2]] 0 "n"
  = DataMerger.detectColumn [[int 1]; [int 2]] 0 "n".
Proof.
  apply (@detectColumn_agree host [[int 1]; [int 2]] 0 "n");
    vm_compute; discriminate.
Defined.

End WorkedFurther.
